(** * Stock-monitoring dashboard: the normaliser and the notifier of [main.py]

    A shallow embedding of [load_data_from_gsheet], [get_critical_items] and
    [trigger_restock_webhook], together with the part of Python, pandas and
    requests that these three functions exercise; then of
    [highlight_low_stock], of [calculate_metrics] and of the two tables that
    [main] computes for its alert panels.

    Conventions.
    - Python exceptions are explicit: a computation that may raise has type
      [outcome A]; [try ... except Exception] is [try_except].
    - Calls to [st.error] are collected, in order, in a list of messages
      returned next to the value.
    - Text is modelled by the bytes of its UTF-8 encoding.  [strip] is
      [str.strip], which knows the white space of Unicode; [lower] is
      [str.lower] on ASCII text, and what [str.lower] does on other text is
      a parameter.
    - An integer cell holds an integer and a finite float is the rational it
      denotes.  [.astype(int)] stores 64-bit integers, and a row handed over
      as floats holds the doubles nearest to its integers; sums and
      comparisons of whole columns are exact in the range stated with them.
    - What Python and pandas leave to the release, the platform or a table
      too large to write down is a parameter, the record [library]; the
      network and the configuration are parameters too ([World], [post]). *)

From Stdlib Require Import Ascii QArith.
From stdpp Require Import gmap strings pretty.

Local Open Scope Z_scope.

(** ** Python: exceptions, strings, lists *)
Module Py.

Record exn := Exception { exn_class : string; exn_str : string }.

Inductive outcome (A : Type) : Type :=
| Returned (a : A)
| Raised (e : exn).
Global Arguments Returned {A} a.
Global Arguments Raised {A} e.

Global Instance outcome_ret : MRet outcome := λ A a, Returned a.
Global Instance outcome_bind : MBind outcome := λ A B f m,
  match m with
  | Returned a => f a
  | Raised e => Raised e
  end.
Global Instance outcome_fmap : FMap outcome := λ A B f m,
  match m with
  | Returned a => Returned (f a)
  | Raised e => Raised e
  end.

(** [try: body / except Exception as e: handler(e)] *)
Definition try_except {A} (body : outcome A) (handler : exn → outcome A) : outcome A :=
  match body with
  | Returned a => Returned a
  | Raised e => handler e
  end.

(** Text of ASCII characters only. *)
Fixpoint is_ascii (s : string) : bool :=
  match s with
  | EmptyString => true
  | String c s' => (N_of_ascii c <? 128)%N && is_ascii s'
  end.

(** [str.lower] on ASCII text: the letters A-Z. *)
Definition lower_char (c : ascii) : ascii :=
  let n := N_of_ascii c in
  if ((65 <=? n) && (n <=? 90))%N then ascii_of_N (n + 32) else c.

Fixpoint lower (s : string) : string :=
  match s with
  | EmptyString => EmptyString
  | String c s' => String (lower_char c) (lower s')
  end.

(** Text is held as the bytes of its UTF-8 encoding. *)
Definition utf8 (bytes : list N) : string :=
  foldr (λ b s, String (ascii_of_N b) s) EmptyString bytes.

(** The characters for which [str.isspace] holds: U+0009 to U+000D, U+001C
    to U+0020, U+0085, U+00A0, U+1680, U+2000 to U+200A, U+2028, U+2029,
    U+202F, U+205F and U+3000. *)
Definition whitespace : list string :=
  utf8 <$> [ [9]; [10]; [11]; [12]; [13]; [28]; [29]; [30]; [31]; [32];
             [194; 133]; [194; 160]; [225; 154; 128];
             [226; 128; 128]; [226; 128; 129]; [226; 128; 130]; [226; 128; 131];
             [226; 128; 132]; [226; 128; 133]; [226; 128; 134]; [226; 128; 135];
             [226; 128; 136]; [226; 128; 137]; [226; 128; 138];
             [226; 128; 168]; [226; 128; 169]; [226; 128; 175];
             [226; 129; 159]; [227; 128; 128] ]%N.

(** [s] without its prefix [w], when it starts with [w]. *)
Fixpoint without_prefix (w s : string) : option string :=
  match w, s with
  | EmptyString, _ => Some s
  | String a w', String b s' => if Ascii.eqb a b then without_prefix w' s' else None
  | String _ _, EmptyString => None
  end.

Definition without_space (spaces : list string) (s : string) : option string :=
  head (omap (λ w, without_prefix w s) spaces).

(** Leading characters are dropped as long as they are among [spaces]; each
    round drops a byte at least, so that [fuel] need not exceed the length
    of the text. *)
Fixpoint lstrip_go (spaces : list string) (fuel : nat) (s : string) : string :=
  match fuel with
  | O => s
  | S fuel' =>
      match without_space spaces s with
      | Some rest => lstrip_go spaces fuel' rest
      | None => s
      end
  end.

Definition lstrip (s : string) : string := lstrip_go whitespace (String.length s) s.

Definition rstrip (s : string) : string :=
  String.rev (lstrip_go (String.rev <$> whitespace) (String.length s) (String.rev s)).

(** [str.strip] *)
Definition strip (s : string) : string := rstrip (lstrip s).

(** [sub in s] *)
Fixpoint contains (sub s : string) : bool :=
  String.prefix sub s ||
  match s with
  | EmptyString => false
  | String _ s' => contains sub s'
  end.

(** [s.split(sep)] for a non-empty separator: a left-to-right scan; [skip]
    counts the characters of a separator just recognised that are still to
    be passed over, [cur] is the current piece, reversed. *)
Fixpoint split_go (sep : string) (skip : nat) (cur : string) (s : string) : list string :=
  match s with
  | EmptyString => [String.rev cur]
  | String c s' =>
      match skip with
      | S k => split_go sep k cur s'
      | O =>
          if String.prefix sep s
          then String.rev cur :: split_go sep (String.length sep - 1) EmptyString s'
          else split_go sep 0 (String c cur) s'
      end
  end.

Definition split (sep s : string) : list string := split_go sep 0 EmptyString s.

(** [l[i]] *)
Definition getitem {A} (l : list A) (i : nat) : outcome A :=
  match l !! i with
  | Some x => Returned x
  | None => Raised (Exception "IndexError" "list index out of range")
  end.

(** [needle] occurs in [hay]. *)
Definition occurs_in (needle hay : string) : Prop :=
  ∃ pre post, hay = pre +:+ needle +:+ post.

End Py.
Export Py.

(** ** pandas: cells, frames and the operations the dashboard calls *)
Module Pandas.

(** A numeric value: a finite number or a signed infinity.  (NaN is a cell of
    its own below.) *)
Inductive number :=
| Fin (q : Q)
| Inf (negative : bool).

(** What a cell of a frame read from CSV can hold. *)
Inductive cell :=
| NaN
| CInt (z : Z)
| CFloat (x : number)
| CBool (b : bool)
| CStr (s : string).

Global Instance Q_eq_dec : EqDecision Q.
Proof. solve_decision. Defined.
Global Instance number_eq_dec : EqDecision number.
Proof. solve_decision. Defined.
Global Instance cell_eq_dec : EqDecision cell.
Proof. solve_decision. Defined.

(** A frame: the column labels, in order and possibly repeated, and the rows,
    each holding one cell per column. *)
Record DataFrame := Frame { columns : list string; rows : list (list cell) }.

(** Every pandas frame is rectangular. *)
Definition rectangular (df : DataFrame) : Prop :=
  Forall (λ row, length row = length (columns df)) (rows df).

Global Instance rectangular_dec df : Decision (rectangular df).
Proof. unfold rectangular. apply _. Defined.

(** [pd.DataFrame()] *)
Definition empty_frame : DataFrame := Frame [] [].

(** [df.empty] *)
Definition empty (df : DataFrame) : bool :=
  match columns df, rows df with
  | [], _ | _, [] => true
  | _, _ => false
  end.

(** [label in df.columns] *)
Definition has_column (label : string) (df : DataFrame) : bool :=
  bool_decide (label ∈ columns df).

(** [df.columns[i]] *)
Definition column_label (df : DataFrame) (i : nat) : outcome string :=
  match columns df !! i with
  | Some c => Returned c
  | None =>
      Raised (Exception "IndexError"
                ("index " +:+ pretty i +:+ " is out of bounds for axis 0 with size "
                 +:+ pretty (length (columns df))))
  end.

(** The cells of a row that stand under the label, left to right. *)
Fixpoint row_cells (cols : list string) (row : list cell) (label : string) : list cell :=
  match cols, row with
  | c :: cs, x :: xs =>
      if decide (c = label) then x :: row_cells cs xs label else row_cells cs xs label
  | _, _ => []
  end.

(** [row[label]] for a label that names one column. *)
Definition row_get (cols : list string) (row : list cell) (label : string) : option cell :=
  head (row_cells cols row label).

(** Store [v] under every column called [label]. *)
Fixpoint row_set (cols : list string) (label : string) (v : cell) (row : list cell) : list cell :=
  match cols, row with
  | c :: cs, x :: xs => (if decide (c = label) then v else x) :: row_set cs label v xs
  | _, _ => row
  end.

(** What [df[label]] evaluates to: a series when one column has the label,
    a frame when several do. *)
Inductive selection :=
| Series (values : list cell)
| SubFrame (df : DataFrame).

(** [df[label]] *)
Definition getitem (df : DataFrame) (label : string) : outcome selection :=
  match filter (λ c, c = label) (columns df) with
  | [] => Raised (Exception "KeyError" ("'" +:+ label +:+ "'"))
  | [_] => Returned (Series ((λ row, default NaN (row_get (columns df) row label)) <$> rows df))
  | sub => Returned (SubFrame (Frame sub ((λ row, row_cells (columns df) row label) <$> rows df)))
  end.

(** One row of [df[label] = values]: the cell is replaced where the column
    exists and appended otherwise. *)
Definition row_assign (cols : list string) (label : string) (v : cell) (row : list cell)
  : list cell :=
  if bool_decide (label ∈ cols) then row_set cols label v row else row ++ [v].

(** The labels of a frame after [df[label] = ...]. *)
Definition assigned_columns (cols : list string) (label : string) : list string :=
  if bool_decide (label ∈ cols) then cols else cols ++ [label].

(** [df[label] = values], for a series of the frame's own length. *)
Definition setitem (df : DataFrame) (label : string) (values : list cell) : DataFrame :=
  Frame (assigned_columns (columns df) label)
        (zip_with (λ row v, row_assign (columns df) label v row) (rows df) values).

(** [df[label] = v] for a scalar [v]. *)
Definition setitem_scalar (df : DataFrame) (label : string) (v : cell) : DataFrame :=
  setitem df label (replicate (length (rows df)) v).

(** [df[label] = value] where [value] comes from [df.apply]: a frame can only
    be stored in a single column when it has exactly one column itself. *)
Definition setitem_selection (df : DataFrame) (label : string) (value : selection)
  : outcome DataFrame :=
  match value with
  | Series vs => Returned (setitem df label vs)
  | SubFrame d =>
      match columns d with
      | [c] => Returned (setitem df label ((λ row, default NaN (head row)) <$> rows d))
      | [] => Raised (Exception "ValueError"
                ("Cannot set a DataFrame without columns to the column " +:+ label))
      | _ => Raised (Exception "ValueError"
                ("Cannot set a DataFrame with multiple columns to the single column " +:+ label))
      end
  end.

(** What is left open about Python and pandas: how a piece of text is read
    as a number, two corners on which the releases of pandas differ or its
    documentation is silent, what [str.lower] does to text that is not all
    ASCII (the case mapping of Unicode), and what the platform stores for a
    number too large for 64 bits. *)
Record library := {
  (** [None] when the text is no number *)
  parse_number : string → option number;
  (** [df.apply(f, axis=1)] on a frame without rows answers an empty series
      in recent releases ([true]) and a copy of the frame in older ones
      ([false]) *)
  apply_reduces_empty : bool;
  (** [df[mask]] for a mask that is a frame with repeated labels *)
  where_frame : DataFrame → list (list bool) → outcome DataFrame;
  (** [str.lower] on text that is not all ASCII *)
  lower_other : string → string;
  (** the integer that [.astype(int)] leaves for a finite number whose
      integral part is outside the 64-bit range: the least 64-bit integer on
      x86-64 *)
  cast_overflow : Q → Z
}.

(** [pd.isna] on a cell *)
Definition isna (x : cell) : bool :=
  match x with NaN => true | _ => false end.

(** [df.dropna(subset=labels)]: a row goes when a cell under one of the
    labels is missing. *)
Definition dropna (labels : list string) (df : DataFrame) : DataFrame :=
  Frame (columns df)
    (filter (λ row, Forall (λ l, Forall (λ x, isna x = false) (row_cells (columns df) row l)) labels)
       (rows df)).

(** [df.rename(columns=mapping)] *)
Definition rename (mapping : gmap string string) (df : DataFrame) : DataFrame :=
  Frame ((λ c, default c (mapping !! c)) <$> columns df) (rows df).

(** [df[mask]] for a boolean series [mask] *)
Definition select_rows (df : DataFrame) (mask : list bool) : DataFrame :=
  Frame (columns df) (fst <$> filter (λ p, snd p = true) (zip (rows df) mask)).

(** [df.to_dict('records')]: one dictionary per row; of two columns with the
    same label the later one is kept. *)
Definition to_record (cols : list string) (row : list cell) : gmap string cell :=
  foldl (λ d p, <[fst p := snd p]> d) ∅ (zip cols row).

Definition to_dict_records (df : DataFrame) : list (gmap string cell) :=
  to_record (columns df) <$> rows df.

Section ToNumeric.

(** How pandas reads a piece of text as a number; [None] when it does not. *)
Variable parse : string → option number.

(** [pd.to_numeric(..., errors='coerce')] on one cell; [None] is NaN. *)
Definition to_numeric_cell (x : cell) : option number :=
  match x with
  | NaN => None
  | CInt z => Some (Fin (inject_Z z))
  | CFloat v => Some v
  | CBool b => Some (Fin (inject_Z (if b then 1 else 0)))
  | CStr s => parse s
  end.

(** [pd.to_numeric(arg, errors='coerce')]: only one-dimensional arguments
    are accepted. *)
Definition to_numeric (arg : selection) : outcome (list (option number)) :=
  match arg with
  | Series vs => Returned (to_numeric_cell <$> vs)
  | SubFrame _ =>
      Raised (Exception "TypeError" "arg must be a list, tuple, 1-d array, or Series")
  end.

End ToNumeric.

(** [.fillna(0)] *)
Definition fillna0 (vs : list (option number)) : list number :=
  default (Fin 0) <$> vs.

(** Conversion of a finite number to an integer drops the fractional part. *)
Definition truncate (q : Q) : Z := Z.quot (Qnum q) (Z.pos (Qden q)).

(** The range of 64-bit integers, and the integer of that range congruent
    to a given one. *)
Definition in_int64 (z : Z) : bool := (- 2 ^ 63 <=? z) && (z <? 2 ^ 63).

Definition wrap64 (z : Z) : Z := (z + 2 ^ 63) mod 2 ^ 64 - 2 ^ 63.

(** The 64-bit integer stored for a finite number: its integral part when
    that fits, what the platform leaves otherwise. *)
Definition int64_of (pd : library) (q : Q) : Z :=
  if in_int64 (truncate q) then truncate q else wrap64 (cast_overflow pd q).

(** [.astype(int)]: an infinite value cannot be converted. *)
Definition astype_int_value (pd : library) (x : number) : outcome Z :=
  match x with
  | Fin q => Returned (int64_of pd q)
  | Inf _ => Raised (Exception "IntCastingNaNError"
                       "Cannot convert non-finite values (NA or inf) to integer")
  end.

Definition astype_int (pd : library) (vs : list number) : outcome (list Z) :=
  mapM (astype_int_value pd) vs.

(** A Python number: an [int], or a [float], of which [None] is NaN. *)
Inductive pynum :=
| PyInt (z : Z)
| PyFloat (x : option number).

(** [int(t)] *)
Definition py_int (t : pynum) : outcome Z :=
  match t with
  | PyInt z => Returned z
  | PyFloat (Some (Fin q)) => Returned (truncate q)
  | PyFloat (Some (Inf _)) =>
      Raised (Exception "OverflowError" "cannot convert float infinity to integer")
  | PyFloat None => Raised (Exception "ValueError" "cannot convert float NaN to integer")
  end.

(** The number as a cell holds it. *)
Definition pynum_cell (t : pynum) : cell :=
  match t with
  | PyInt z => CInt z
  | PyFloat (Some x) => CFloat x
  | PyFloat None => NaN
  end.

(** Order on numbers: the rationals, between the two infinities. *)
Definition number_compare (x y : number) : comparison :=
  match x, y with
  | Fin p, Fin q => Qcompare p q
  | Inf true, Inf true | Inf false, Inf false => Eq
  | Inf true, _ | Fin _, Inf false => Lt
  | Inf false, _ | Fin _, Inf true => Gt
  end.

Definition is_le (c : comparison) : bool :=
  match c with Gt => false | _ => true end.

Definition is_lt (c : comparison) : bool :=
  match c with Lt => true | _ => false end.

(** [x <= n] for a number [x] and an integer [n]. *)
Definition number_le (x : number) (n : Z) : bool :=
  is_le (number_compare x (Fin (inject_Z n))).

(** The two comparisons the dashboard writes. *)
Inductive comparison_op := OpLe | OpLt.

Definition op_symbol (op : comparison_op) : string :=
  match op with OpLe => "<=" | OpLt => "<" end.

Definition op_test (op : comparison_op) : comparison → bool :=
  match op with OpLe => is_le | OpLt => is_lt end.

(** The name of the Python type of the value a cell holds. *)
Definition type_name (x : cell) : string :=
  match x with
  | NaN | CFloat _ => "float"
  | CInt _ => "int"
  | CBool _ => "bool"
  | CStr _ => "str"
  end.

(** [a <= b] and [a < b] on the values two cells hold: numbers compare by
    value, NaN compares false, text compares with text only. *)
Definition compare_cells (op : comparison_op) (a b : cell) : outcome bool :=
  match a, b with
  | CStr s, CStr t => Returned (op_test op (String.compare s t))
  | CStr _, _ | _, CStr _ =>
      Raised (Exception "TypeError"
        ("'" +:+ op_symbol op +:+ "' not supported between instances of '"
         +:+ type_name a +:+ "' and '" +:+ type_name b +:+ "'"))
  | _, _ =>
      match to_numeric_cell (λ _, None) a, to_numeric_cell (λ _, None) b with
      | Some x, Some y => Returned (op_test op (number_compare x y))
      | _, _ => Returned false
      end
  end.

(** A boolean mask, as a comparison on a series or on a frame produces. *)
Inductive mask :=
| SeriesMask (bits : list bool)
| FrameMask (bits : list (list bool)).

(** [selection <= t] for a number [t], cell by cell; against NaN every cell
    compares false, text included. *)
Definition le_cell (t : cell) (x : cell) : outcome bool :=
  if isna t then Returned false else compare_cells OpLe x t.

Definition le_scalar (arg : selection) (t : cell) : outcome mask :=
  match arg with
  | Series vs => SeriesMask <$> mapM (le_cell t) vs
  | SubFrame d => FrameMask <$> mapM (mapM (le_cell t)) (rows d)
  end.

(** The double nearest to an integer, ties to the even significand: the
    conversion of a 64-bit integer to float64.  A magnitude [m] of 2^53 or
    more lies between two multiples [q * unit] and [(q + 1) * unit] of the
    spacing of the doubles at [m], with a 53-bit significand [q]. *)
Definition round_up (unit q r : Z) : bool :=
  (unit <? 2 * r) || ((unit =? 2 * r) && Z.odd q).

Definition nearest (m : Z) : Z :=
  let unit := 2 ^ (Z.log2 m - 52) in
  (if round_up unit (m / unit) (m mod unit) then m / unit + 1 else m / unit) * unit.

Definition to_double (z : Z) : Z :=
  if Z.abs z <? 2 ^ 53 then z else Z.sgn z * nearest (Z.abs z).

(** [df.values] is an array of floats when every column holds numbers and
    one of them holds floats; with a column of text or of booleans it is
    an array of objects, and with integers only an array of integers. *)
Definition numeric_cell (x : cell) : bool :=
  match x with NaN | CInt _ | CFloat _ => true | _ => false end.

Definition float_cell (x : cell) : bool :=
  match x with NaN | CFloat _ => true | _ => false end.

Definition float_values (df : DataFrame) : bool :=
  forallb (forallb numeric_cell) (rows df) && existsb (existsb float_cell) (rows df).

Definition as_float (x : cell) : cell :=
  match x with
  | CInt z => CFloat (Fin (inject_Z (to_double z)))
  | _ => x
  end.

(** The row that [df.apply(f, axis=1)] hands to [f]: a row of [df.values]. *)
Definition row_values (floats : bool) (row : list cell) : list cell :=
  if floats then as_float <$> row else row.

(** [df.apply(f, axis=1)].  With no row to apply [f] to, pandas answers
    according to what [f] does on a probe row: an empty series, or a copy of
    the frame; which one it is for the lambda of the normaliser depends on
    the release. *)
Definition apply_rows (pd : library) (f : list string → list cell → outcome cell)
    (df : DataFrame) : outcome selection :=
  match rows df with
  | [] => Returned (if apply_reduces_empty pd then Series [] else SubFrame df)
  | rs => Series <$> mapM (λ row, f (columns df) (row_values (float_values df) row)) rs
  end.

End Pandas.
Export Pandas.

(** A reader of signed decimal integers, to run the functions on examples:
    on the texts it accepts it answers as pandas does. *)
Fixpoint digits_value (acc : Z) (s : string) : option Z :=
  match s with
  | EmptyString => Some acc
  | String c s' =>
      match Ascii.is_nat c with
      | Some d => digits_value (10 * acc + Z.of_nat d) s'
      | None => None
      end
  end.

Definition parse_integer (s : string) : option number :=
  match s with
  | EmptyString => None
  | String "-" (String _ _ as ds) => (λ n, Fin (inject_Z (- n))) <$> digits_value 0 ds
  | ds => (λ n, Fin (inject_Z n)) <$> digits_value 0 ds
  end.

(** ** The normaliser: [load_data_from_gsheet] *)

Definition AvailableStock : string := "Available Stock".
Definition RestockLevel : string := "Restock Level".
Definition ProductName : string := "Product Name".
Definition SKU : string := "SKU".
Definition Status : string := "Status".

(** The alias table; a Python dictionary is traversed in insertion order. *)
Definition column_map : list (string * list string) :=
  [ (AvailableStock, ["stock"; "qty"; "quantity"; "inventory"; "available"; "on hand";
                      "available stock(sync with shopify)"]);
    (RestockLevel, ["restock level"; "threshold"; "min stock"; "reorder point"; "minimum"]);
    (ProductName, ["product name"; "name"; "title"; "item name"]);
    (SKU, ["sku"; "id"; "item no"; "item number"; "barcode"]) ].

(** [s.lower()] *)
Definition str_lower (pd : library) (s : string) : string :=
  if is_ascii s then lower s else lower_other pd s.

(** [c.lower().strip()] *)
Definition normalize_header (pd : library) (c : string) : string :=
  strip (str_lower pd c).

(** [{c.lower().strip(): c for c in df.columns}]: of two headers with the
    same normal form the later one stays. *)
Definition current_cols (pd : library) (cols : list string) : gmap string string :=
  foldl (λ d c, <[normalize_header pd c := c]> d) ∅ cols.

(** The inner loop: the first alias that is a key of [current] maps its
    header to [internal_name], and the loop breaks. *)
Fixpoint match_aliases (current : gmap string string) (internal_name : string)
    (aliases : list string) (rename_dict : gmap string string) : gmap string string :=
  match aliases with
  | [] => rename_dict
  | alias :: rest =>
      match current !! alias with
      | Some header => <[header := internal_name]> rename_dict
      | None => match_aliases current internal_name rest rename_dict
      end
  end.

(** The outer loop over [column_map.items()]. *)
Definition build_rename_dict (table : list (string * list string))
    (current : gmap string string) : gmap string string :=
  foldl (λ rename_dict entry, match_aliases current (fst entry) (snd entry) rename_dict) ∅ table.

Definition rename_dict (pd : library) (cols : list string) : gmap string string :=
  build_rename_dict column_map (current_cols pd cols).

(** The classification written in the lambda, on two integers. *)
Definition status_of (available restock : Z) : string :=
  if available <=? 10 then "Critical"
  else if available <? restock then "Low Stock"
  else "In Stock".

(** [row[label]] inside the lambda. *)
Definition row_getitem (cols : list string) (row : list cell) (label : string) : outcome cell :=
  match row_get cols row label with
  | Some x => Returned x
  | None => Raised (Exception "KeyError" ("'" +:+ label +:+ "'"))
  end.

(** The lambda given to [df.apply]; the restock level is only read when the
    first test fails. *)
Definition status_lambda (cols : list string) (row : list cell) : outcome cell :=
  available ← row_getitem cols row AvailableStock;
  critical ← compare_cells OpLe available (CInt 10);
  if critical : bool then Returned (CStr "Critical")
  else
    available' ← row_getitem cols row AvailableStock;
    restock ← row_getitem cols row RestockLevel;
    low ← compare_cells OpLt available' restock;
    Returned (CStr (if low : bool then "Low Stock" else "In Stock")).

(** What the function reads from outside: the configured URL (the lookup in
    [st.secrets] may raise) and the CSV export behind a URL. *)
Record World := {
  secrets_spreadsheet : outcome string;
  read_csv : string → outcome DataFrame
}.

Definition csv_export_url (sheet_id : string) : string :=
  "https://docs.google.com/spreadsheets/d/" +:+ sheet_id +:+ "/export?format=csv&gid=0".

Definition stock_column_error : string :=
  "⚠️ Could not detect a 'Stock' column. Please check headers.".

Section Normalizer.

Variable pd : library.

(** [df[label] = pd.to_numeric(df[label], errors='coerce').fillna(0).astype(int)] *)
Definition force_numbers (label : string) (df : DataFrame) : outcome DataFrame :=
  column ← Pandas.getitem df label;
  numbers ← to_numeric (parse_number pd) column;
  ints ← astype_int pd (fillna0 numbers);
  Returned (setitem df label (CInt <$> ints)).

(** Lines 51 to 105: from the frame just read to the frame returned, with
    the messages passed to [st.error]. *)
Definition normalize (df : DataFrame) : outcome (DataFrame * list string) :=
  first ← column_label df 0;
  second ← column_label df 1;
  let df := dropna [first; second] df in
  let df := rename (rename_dict pd (columns df)) df in
  if negb (has_column AvailableStock df) then
    Returned (empty_frame, [stock_column_error])
  else
    let df := if negb (has_column RestockLevel df)
              then setitem_scalar df RestockLevel (CInt 10) else df in
    df ← force_numbers AvailableStock df;
    df ← force_numbers RestockLevel df;
    status ← apply_rows pd status_lambda df;
    df ← setitem_selection df Status status;
    Returned (df, []).

(** The body of the [try]. *)
Definition load_body (w : World) : outcome (DataFrame * list string) :=
  spreadsheet_url ← secrets_spreadsheet w;
  if contains "/d/" spreadsheet_url then
    tail ← Py.getitem (split "/d/" spreadsheet_url) 1;
    sheet_id ← Py.getitem (split "/" tail) 0;
    df ← read_csv w (csv_export_url sheet_id);
    normalize df
  else
    Returned (empty_frame, ["Invalid Google Sheet URL format"]).

Definition load_data_from_gsheet (w : World) : outcome (DataFrame * list string) :=
  try_except (load_body w)
    (λ e, Returned (empty_frame, ["Error loading data from Google Sheets: " +:+ exn_str e])).

End Normalizer.

(** ** [get_critical_items] *)
Section CriticalItems.

Variable pd : library.

(** [df[mask]] *)
Definition boolean_index (df : DataFrame) (m : mask) : outcome DataFrame :=
  match m with
  | SeriesMask bits => Returned (select_rows df bits)
  | FrameMask bits => where_frame pd df bits
  end.

(** [threshold] is a Python number.  Inside the [try] the column is
    converted before [int(threshold)] is taken. *)
Definition get_critical_items (df : option DataFrame) (threshold : pynum)
  : outcome (list (gmap string cell)) :=
  match df with
  | None => Returned []
  | Some df =>
      if empty df then Returned []
      else if negb (has_column AvailableStock df) then Returned []
      else
        m ← try_except
              (column ← Pandas.getitem df AvailableStock;
               numbers ← to_numeric (parse_number pd) column;
               n ← py_int threshold;
               Returned (SeriesMask ((λ x, number_le x n) <$> fillna0 numbers)))
              (λ _, column ← Pandas.getitem df AvailableStock;
                    le_scalar column (pynum_cell threshold));
        selected ← boolean_index df m;
        Returned (to_dict_records selected)
  end.

End CriticalItems.

(** ** The notifier: [trigger_restock_webhook] *)

(** A decoded JSON document. *)
#[warning="-register-all"]
Inductive json :=
| JNull
| JBool (b : bool)
| JNum (q : Q)
| JStr (s : string)
| JArr (items : list json)
| JObj (members : list (string * json)).

(** Truth value of a decoded document, as [if] and [or] take it. *)
Definition truthy (j : json) : bool :=
  match j with
  | JNull => false
  | JBool b => b
  | JNum q => negb (Qeq_bool q 0)
  | JStr s => negb (bool_decide (s = ""))
  | JArr items => negb (bool_decide (items = []))
  | JObj members => negb (bool_decide (members = []))
  end.

(** Lookup in a decoded object; of two members with one name the decoder
    keeps the later. *)
Fixpoint members_get (key : string) (members : list (string * json)) : option json :=
  match members with
  | [] => None
  | (k, v) :: rest =>
      match members_get key rest with
      | Some later => Some later
      | None => if decide (k = key) then Some v else None
      end
  end.

(** [parsed.get(key)]: [None] for a missing key; only a dictionary has the
    method. *)
Definition json_get (parsed : json) (key : string) : outcome json :=
  match parsed with
  | JObj members => Returned (default JNull (members_get key members))
  | _ => Raised (Exception "AttributeError" "object has no attribute 'get'")
  end.

Record Response := {
  status_code : Z;
  text : string;
  json_body : outcome json   (* [resp.json()] raises on a body that is not JSON *)
}.

(** One call of [requests.post(url, json={"items": items}, timeout=...)]. *)
Record Request := {
  request_url : string;
  request_items : list (gmap string cell);
  request_timeout : Z
}.

Definition guidance : string :=
  "Ensure the workflow with this webhook is 'Activated' in n8n, " +:+
  "or click 'Execute workflow' in the editor to register the temporary webhook before calling it.".

Section Notifier.

(** The network: what a POST answers, or the exception it raises. *)
Variable post : Request → outcome Response.

(** [str(v)] of a decoded value that is not text. *)
Variable render : json → string.

(** [f"{v}"] *)
Definition py_str (v : json) : string :=
  match v with
  | JStr s => s
  | _ => render v
  end.

(** [hint = parsed.get('hint') or parsed.get('message')] inside its own
    [try]; any exception leaves [None], which is [JNull] here. *)
Definition extract_hint (resp : Response) : json :=
  match
    parsed ← json_body resp;
    hint ← json_get parsed "hint";
    if truthy hint then Returned hint else json_get parsed "message"
  with
  | Returned hint => hint
  | Raised _ => JNull
  end.

Definition hint_text (resp : Response) : string :=
  let hint := extract_hint resp in
  if truthy hint then py_str hint else text resp.

(** The part of the function after the POST has answered. *)
Definition interpret_response (resp : Response) : bool * string :=
  if (200 <=? status_code resp) && (status_code resp <? 300) then
    (true, "Restock webhook triggered successfully")
  else if status_code resp =? 404 then
    (false, "Webhook error " +:+ pretty (status_code resp) +:+ ": " +:+ hint_text resp
            +:+ " — " +:+ guidance)
  else
    (false, "Webhook error " +:+ pretty (status_code resp) +:+ ": " +:+ hint_text resp).

(** The result, and the POST requests sent while computing it.  The URL is
    [None] or text; [not webhook_url] holds for [None] and for the empty
    text. *)
Definition trigger_restock_webhook (webhook_url : option string)
    (items : list (gmap string cell)) : (bool * string) * list Request :=
  match webhook_url with
  | None | Some "" => ((false, "Webhook URL not configured"), [])
  | Some url =>
      let request := {| request_url := url; request_items := items; request_timeout := 10 |} in
      (match post request with
       | Returned resp => interpret_response resp
       | Raised e => (false, "Error triggering webhook: " +:+ exn_str e)
       end, [request])
  end.

End Notifier.

(** ** [highlight_low_stock] *)

(** What [row.get(label, default)] finds in a row: the default when no column
    has the label, the cell when one has, and a series when several have. *)
Inductive looked_up :=
| One (x : cell)
| Several (xs : list cell).

Definition series_get (cols : list string) (row : list cell) (label : string)
    (default : cell) : looked_up :=
  match row_cells cols row label with
  | [] => One default
  | [x] => One x
  | xs => Several xs
  end.

(** The value of [low] after the [try]: a boolean, or a boolean series, whose
    truth value Python refuses to take. *)
Inductive truth :=
| Flag (b : bool)
| Ambiguous.

(** [a < b] on two numbers that may be NaN. *)
Definition number_lt (a b : option number) : bool :=
  match a, b with
  | Some x, Some y => is_lt (number_compare x y)
  | _, _ => false
  end.

(** [if low] *)
Definition truth_value (low : truth) : outcome bool :=
  match low with
  | Flag b => Returned b
  | Ambiguous =>
      Raised (Exception "ValueError"
        ("The truth value of a Series is ambiguous. " +:+
         "Use a.empty, a.bool(), a.item(), a.any() or a.all()."))
  end.

Definition highlighted : string := "background-color: #ffcccc".

Section Highlight.

Variable pd : library.

(** The [try] block.  A number compared with a series gives a series; two
    series with different labels cannot be compared, which the [except]
    turns into [False]. *)
Definition row_is_low (cols : list string) (row : list cell) : truth :=
  match series_get cols row AvailableStock (CInt 0),
        series_get cols row RestockLevel (CInt 0) with
  | One available, One restock =>
      Flag (number_lt (to_numeric_cell (parse_number pd) available)
                      (to_numeric_cell (parse_number pd) restock))
  | Several _, Several _ => Flag false
  | _, _ => Ambiguous
  end.

(** [highlight_low_stock(row)], for the row with labels [cols]: one style
    per label of [row.index]. *)
Definition highlight_low_stock (cols : list string) (row : list cell)
  : outcome (list string) :=
  let low := row_is_low cols row in
  mapM (λ _ : string, b ← truth_value low;
                      Returned (if b : bool then highlighted else "")) cols.

End Highlight.

(** ** [calculate_metrics] *)

(** A finite number without a fractional part. *)
Definition integral (q : Q) : bool := Z.rem (Qnum q) (Z.pos (Qden q)) =? 0.

Definition finite_part (x : number) : option Q :=
  match x with Fin q => Some q | Inf _ => None end.

(** The sum of the magnitudes of whole numbers. *)
Definition magnitude (qs : list Q) : Z := foldr Z.add 0 ((λ q, Z.abs (truncate q)) <$> qs).

Section Metrics.

Variable pd : library.

(** The sum of finite numbers as the machine computes it, where it need not
    be the sum of the rationals: with a fractional part somewhere, or beyond
    2^53. *)
Variable float_sum : list Q → Q.

(** [series.sum()] on a series without NaN.  An infinity absorbs what is
    finite, the two infinities give NaN ([None]), and whole numbers whose
    magnitudes stay below 2^53 in total add up exactly, as 64-bit integers
    and as floats, in whatever order. *)
Definition series_sum (xs : list number) : option number :=
  if bool_decide (Inf true ∈ xs) then
    if bool_decide (Inf false ∈ xs) then None else Some (Inf true)
  else if bool_decide (Inf false ∈ xs) then Some (Inf false)
  else
    let qs := omap finite_part xs in
    if forallb integral qs && (magnitude qs <? 2 ^ 53)
    then Some (Fin (inject_Z (foldr Z.add 0 (truncate <$> qs))))
    else Some (Fin (float_sum qs)).

(** [int(x)] on the value of a sum. *)
Definition int_of_sum (x : option number) : outcome Z :=
  match x with
  | Some (Fin q) => Returned (truncate q)
  | Some (Inf _) =>
      Raised (Exception "OverflowError" "cannot convert float infinity to integer")
  | None => Raised (Exception "ValueError" "cannot convert float NaN to integer")
  end.

(** [pd.to_numeric(df[label], errors='coerce').fillna(0)] *)
Definition numeric_column (df : DataFrame) (label : string) : outcome (list number) :=
  column ← Pandas.getitem df label;
  numbers ← to_numeric (parse_number pd) column;
  Returned (fillna0 numbers).

(** [int(low_mask.sum())] for [low_mask = a < b]. *)
Definition count_below (a b : list number) : Z :=
  Z.of_nat (length (filter (λ p, is_lt (number_compare (fst p) (snd p)) = true) (zip a b))).

(** Returns [(total_products, low_stock_count, stock_value)]. *)
Definition calculate_metrics (df : DataFrame) : outcome (nat * Z * Z) :=
  let total_products := length (rows df) in
  stock_value ←
    (if has_column AvailableStock df then
       stock_vals ← numeric_column df AvailableStock;
       int_of_sum (series_sum stock_vals)
     else Returned 0);
  low_stock_count ←
    (if has_column AvailableStock df && has_column RestockLevel df then
       available ← numeric_column df AvailableStock;
       restock ← numeric_column df RestockLevel;
       Returned (count_below available restock)
     else Returned 0);
  Returned (total_products, low_stock_count, stock_value).

End Metrics.

(** ** [main]: the tables behind the two alert panels *)

Definition is_int (x : cell) : bool :=
  match x with CInt _ => true | _ => false end.

Definition int_value (x : cell) : Z :=
  match x with CInt z => z | _ => 0 end.

(** The labels both modals select, in the order of the display. *)
Definition modal_labels : list string :=
  [ProductName; SKU; AvailableStock; RestockLevel; Status].

Section Panels.

Variable pd : library.

(** [a < b] on two columns that are not both columns of integers, where the
    answer depends on how the library stores them. *)
Variable compare_other : selection → selection → outcome mask.

(** The types the library infers for a column built from the values of
    records, and the text of the KeyError for labels that are no column. *)
Variable infer_objects : list cell → list cell.
Variable not_in_index : list string → list string → string.

(** [df[a] < df[b]] *)
Definition lt_columns (a b : selection) : outcome mask :=
  match a, b with
  | Series xs, Series ys =>
      if forallb is_int xs && forallb is_int ys
      then Returned (SeriesMask (zip_with (λ x y, int_value x <? int_value y) xs ys))
      else compare_other a b
  | _, _ => compare_other a b
  end.

(** Line 359: [df[df['Available Stock'] < df['Restock Level']].copy()] *)
Definition low_stock_df (df : DataFrame) : outcome DataFrame :=
  available ← Pandas.getitem df AvailableStock;
  restock ← Pandas.getitem df RestockLevel;
  m ← lt_columns available restock;
  boolean_index pd df m.

(** [pd.DataFrame(items)[labels]]: the frame built from the records has a
    column for every key of a record, with NaN where a record lacks the key;
    selecting a label that is no column raises KeyError. *)
Definition records_select (items : list (gmap string cell)) (labels : list string)
  : outcome DataFrame :=
  let missing := filter (λ l, Forall (λ item : gmap string cell, item !! l = None) items) labels in
  if decide (missing = []) then
    let column l := infer_objects ((λ item : gmap string cell, default NaN (item !! l)) <$> items) in
    Returned (Frame labels
      ((λ i, (λ l, default NaN (column l !! i)) <$> labels) <$> seq 0 (length items)))
  else Raised (Exception "KeyError" (not_in_index labels missing)).

(** Lines 266 to 270: the table of the critical modal. *)
Definition critical_modal (critical_items : list (gmap string cell)) : outcome DataFrame :=
  records_select critical_items modal_labels.

End Panels.

(** ** Vocabulary of the statements *)

(** The world in which the normaliser gets as far as reading [raw]. *)
Definition fetches (w : World) (raw : DataFrame) : Prop :=
  ∃ url tail sheet_id,
    secrets_spreadsheet w = Returned url ∧
    contains "/d/" url = true ∧
    split "/d/" url !! 1%nat = Some tail ∧
    split "/" tail !! 0%nat = Some sheet_id ∧
    read_csv w (csv_export_url sheet_id) = Returned raw.

(** Every frame the world hands out is rectangular. *)
Definition reads_rectangular (w : World) : Prop :=
  ∀ url df, read_csv w url = Returned df → rectangular df.

(** The renaming step on a frame: lines 59 to 81. *)
Definition renamed (pd : library) (df : DataFrame) : DataFrame :=
  rename (rename_dict pd (columns df)) df.
Global Arguments renamed : simpl never.

(** The frame after row pruning and header reconciliation. *)
Definition reconciled (pd : library) (raw : DataFrame) : DataFrame :=
  rename (rename_dict pd (columns raw))
    (dropna (take 2 (columns raw)) raw).
Global Arguments reconciled : simpl never.

(** [pd.to_numeric(..., errors='coerce').fillna(0)] on one cell. *)
Definition coerce (pd : library) (x : cell) : number :=
  default (Fin 0) (to_numeric_cell (parse_number pd) x).

(** The cell of the row under the label is read as a finite number. *)
Definition reads_finite (pd : library) (cols : list string) (label : string)
    (row : list cell) : Prop :=
  ∃ q, coerce pd (default NaN (row_get cols row label)) = Fin q.

(** The conditions under which the normaliser goes through on a frame: two
    columns at least, exactly one stock column and at most one restock
    column after renaming, finite numbers in both, and a row left after
    pruning unless the library copes with none. *)
Definition normalizable (pd : library) (raw : DataFrame) : Prop :=
  (2 ≤ length (columns raw))%nat ∧
  filter (λ c, c = AvailableStock) (columns (reconciled pd raw)) = [AvailableStock] ∧
  (length (filter (λ c, c = RestockLevel) (columns (reconciled pd raw))) ≤ 1)%nat ∧
  Forall (reads_finite pd (columns (reconciled pd raw)) AvailableStock)
    (rows (reconciled pd raw)) ∧
  (RestockLevel ∈ columns (reconciled pd raw) →
   Forall (reads_finite pd (columns (reconciled pd raw)) RestockLevel)
     (rows (reconciled pd raw))) ∧
  (rows (reconciled pd raw) = [] → apply_reduces_empty pd = true).

(** What [force_numbers] does to one row. *)
Definition forced (pd : library) (cols : list string) (c : string)
    (row row' : list cell) : Prop :=
  ∃ z, astype_int_value pd (coerce pd (default NaN (row_get cols row c))) = Returned z
       ∧ row' = row_set cols c (CInt z) row.

(** The integer as the lambda sees it: itself, or the nearest double when
    the rows are handed over as floats. *)
Definition judged (floats : bool) (z : Z) : Z :=
  if floats then to_double z else z.

(** What the normaliser does to one row of the reconciled frame with labels
    [cols]: the restock level defaults to 10, both quantities become
    integers, and the status is attached; [floats] tells whether the lambda
    is handed rows of floats. *)
Definition canonical (pd : library) (cols : list string) (floats : bool)
    (row row' : list cell) : Prop :=
  ∃ a r,
    astype_int_value pd (coerce pd (default NaN (row_get cols row AvailableStock)))
      = Returned a ∧
    astype_int_value pd
      (coerce pd
         (if bool_decide (RestockLevel ∈ cols)
          then default NaN (row_get cols row RestockLevel) else CInt 10))
      = Returned r ∧
    row' = row_assign (assigned_columns cols RestockLevel) Status
             (CStr (status_of (judged floats a) (judged floats r)))
             (row_set (assigned_columns cols RestockLevel) RestockLevel (CInt r)
                (row_set (assigned_columns cols RestockLevel) AvailableStock (CInt a)
                   (if bool_decide (RestockLevel ∈ cols) then row else row ++ [CInt 10]))).

(** The header the inner loop picks for a field: the one recorded under the
    first alias that is a key of [current]. *)
Definition selected_header (current : gmap string string) (aliases : list string)
  : option string :=
  match find (λ a, bool_decide (is_Some (current !! a))) aliases with
  | Some a => current !! a
  | None => None
  end.

(** How an integer stored by the normaliser relates to the cell it was read
    from: 0 when the cell is no number; otherwise a 64-bit integer, which is
    the integral part of the number when that fits in 64 bits, and what the
    platform's conversion leaves when it does not. *)
Definition integer_coercion (pd : library) (x : cell) (z : Z)
  : Prop :=
  match to_numeric_cell (parse_number pd) x with
  | None => z = 0
  | Some (Fin q) =>
      in_int64 z = true ∧
      (in_int64 (truncate q) = true → z = truncate q) ∧
      (in_int64 (truncate q) = false → z = wrap64 (cast_overflow pd q))
  | Some (Inf _) => False
  end.

(** The aliases of a canonical field, in their declared order. *)
Definition aliases_of (field : string) : list string :=
  default [] (snd <$> head (filter (λ e, fst e = field) column_map)).

(** No alias of the field is the normal form of a header. *)
Definition no_alias_present (pd : library) (field : string) (headers : list string) : Prop :=
  Forall (λ a, a ∉ normalize_header pd <$> headers) (aliases_of field).

Global Instance no_alias_present_dec pd field headers :
  Decision (no_alias_present pd field headers).
Proof. unfold no_alias_present. apply _. Defined.

(** The first alias of the list that is the normal form of some header. *)
Definition first_present (pd : library) (aliases headers : list string) : option string :=
  find (λ a, bool_decide (a ∈ normalize_header pd <$> headers)) aliases.

(** Modelled from the spec: the three-way rule of section 3, as it reads
    there: Critical iff the stock is at most 10; else Low Stock iff the stock
    is below the restock level; else In Stock. *)
Definition status_rule (available restock : Z) (status : string) : Prop :=
  (status = "Critical" ↔ available ≤ 10) ∧
  (status = "Low Stock" ↔ 10 < available ∧ available < restock) ∧
  (status = "In Stock" ↔ 10 < available ∧ restock ≤ available).

(** The value [parsed.get('hint') or parsed.get('message')] of a decoded
    object. *)
Definition hint_or_message (members : list (string * json)) : json :=
  let hint := default JNull (members_get "hint" members) in
  if truthy hint then hint else default JNull (members_get "message" members).

(** The request the function sends. *)
Definition restock_request (url : string) (items : list (gmap string cell)) : Request :=
  {| request_url := url; request_items := items; request_timeout := 10 |}.

(** The two quantities of a row of a table that the normaliser returned, and
    whether the first is below the second. *)
Definition stock_of (cols : list string) (row : list cell) : Z :=
  int_value (default NaN (row_get cols row AvailableStock)).

Definition restock_of (cols : list string) (row : list cell) : Z :=
  int_value (default NaN (row_get cols row RestockLevel)).

Definition below_restock (cols : list string) (row : list cell) : bool :=
  stock_of cols row <? restock_of cols row.

Definition total (zs : list Z) : Z := foldr Z.add 0 zs.

(** The styles of a row painted as low, or left alone: one per label. *)
Definition painted (cols : list string) (low : bool) : list string :=
  replicate (length cols) (if low then highlighted else "").

(** How many columns carry the label, and how many cells of a row stand
    under it. *)
Definition occurrences (label : string) (cols : list string) : nat :=
  length (filter (λ c, c = label) cols).

Definition cells_named (cols : list string) (row : list cell) (label : string) : nat :=
  length (row_cells cols row label).

(** A row of the sheet with a value in each of its first two cells. *)
Definition filled (row : list cell) : Prop :=
  row !! 0%nat ≠ Some NaN ∧ row !! 1%nat ≠ Some NaN.

Global Instance filled_dec row : Decision (filled row).
Proof. unfold filled. apply _. Defined.

(** ** Example sheets *)

(** A world for the examples: a valid sheet URL, and [raw] behind its CSV
    export. *)
Definition sheet (raw : DataFrame) : World := {|
  secrets_spreadsheet := Returned "https://docs.google.com/spreadsheets/d/1aBcD/edit#gid=0";
  read_csv := λ url,
    if decide (url = "https://docs.google.com/spreadsheets/d/1aBcD/export?format=csv&gid=0")
    then Returned raw
    else Raised (Exception "HTTPError" "HTTP Error 404: Not Found")
|}.

(** A sheet with aliased headers, a retailer column, a quantity that is no
    number and a trailing blank row.  The blank row makes the second column
    a column of floats, and the text makes the first a column of text. *)
Definition widgets : DataFrame :=
  Frame ["Qty"; "Min Stock"; "Name"; "Supplier"]
    [ [CStr "5"; CFloat (Fin 10%Q); CStr "Widget"; CStr "Acme"];
      [CStr "sold out"; CFloat (Fin 20%Q); CStr "Gadget"; NaN];
      [CStr "25"; CFloat (Fin 40%Q); CStr "Gizmo"; CStr "Acme"];
      [CStr "50"; CFloat (Fin 40%Q); CStr "Doohickey"; CStr "Apex"];
      [NaN; NaN; NaN; NaN] ].

Definition widgets_canonical : DataFrame :=
  Frame ["Available Stock"; "Restock Level"; "Product Name"; "Supplier"; "Status"]
    [ [CInt 5; CInt 10; CStr "Widget"; CStr "Acme"; CStr "Critical"];
      [CInt 0; CInt 20; CStr "Gadget"; NaN; CStr "Critical"];
      [CInt 25; CInt 40; CStr "Gizmo"; CStr "Acme"; CStr "Low Stock"];
      [CInt 50; CInt 40; CStr "Doohickey"; CStr "Apex"; CStr "In Stock"] ].

(** A stock count below zero. *)
Definition overdrawn : DataFrame :=
  Frame ["Stock"; "Item"] [ [CInt (-5); CStr "Widget"] ].

(** A sheet whose stock column carries the canonical name and holds text,
    with a status column of its own. *)
Definition with_status : DataFrame :=
  Frame ["Available Stock"; "Status"] [ [CStr "unknown"; CStr "active"] ].

(** The stock column carries the canonical name itself. *)
Definition literal_header : DataFrame :=
  Frame ["Available Stock"; "Item"] [ [CInt 5; CStr "Widget"] ].

(** No stock column at all. *)
Definition no_stock : DataFrame :=
  Frame ["Item"; "Price"] [ [CStr "Widget"; CInt 3] ].

(** No restock column. *)
Definition no_threshold : DataFrame :=
  Frame ["Item"; "Stock"] [ [CStr "Widget"; CInt 3]; [CStr "Gadget"; CInt 30] ].

Definition no_threshold_canonical : DataFrame :=
  Frame ["Item"; "Available Stock"; "Restock Level"; "Status"]
    [ [CStr "Widget"; CInt 3; CInt 10; CStr "Critical"];
      [CStr "Gadget"; CInt 30; CInt 10; CStr "In Stock"] ].

(** Two columns called 'Available Stock', holding text. *)
Definition twin_stock : DataFrame :=
  Frame ["Available Stock"; "Available Stock"] [ [CStr "low"; CStr "high"] ].

(** Quantities beyond 2^53 next to a column of prices: 9007199254740992 in
    stock, to be restocked below 9007199254740993. *)
Definition big_numbers : DataFrame :=
  Frame ["Stock"; "Threshold"; "Price"]
    [ [CInt (2 ^ 53); CInt (2 ^ 53 + 1); CFloat (Fin (3 # 2))] ].

(** A stock count that no 64-bit integer holds; [read_csv] reads it as a
    float. *)
Definition astronomical : DataFrame :=
  Frame ["Stock"; "Item"] [ [CFloat (Fin (100000000000000000000 # 1)); CStr "Widget"] ].

(** A sheet in which the retailer keeps a status column of their own. *)
Definition own_status : DataFrame :=
  Frame ["Stock"; "Status"; "Item"] [ [CInt 50; CStr "Discontinued"; CStr "Widget"] ].

(** Ten and a half units in stock. *)
Definition half_units : DataFrame :=
  Frame ["Available Stock"] [ [CFloat (Fin (21 # 2))] ].

(** A stock that is text. *)
Definition text_stock : DataFrame :=
  Frame ["Available Stock"] [ [CStr "many"] ].

(** A library for the examples: it reads signed decimal integers, behaves
    as a recent release on frames without rows, has no answer for a frame
    mask, and stores the least 64-bit integer for a number out of range.
    In text that is not all ASCII it lowers the letters A-Z and leaves the
    other characters, which is what [str.lower] does when these have no
    case, as a no-break space. *)
Definition pandas : library := {|
  parse_number := parse_integer;
  apply_reduces_empty := true;
  where_frame := λ _ _, Raised (Exception "NotImplementedError" "where");
  lower_other := lower;
  cast_overflow := λ _, - 2 ^ 63
|}.

(** Text between double quotes. *)
Definition quoted (s : string) : string :=
  String (ascii_of_N 34) (s +:+ String (ascii_of_N 34) EmptyString).

(** The answer of an inactive n8n webhook, and a successful one. *)
Definition inactive_response : Response := {|
  status_code := 404;
  text := "{" +:+ quoted "hint" +:+ ":" +:+ quoted "inactive" +:+ "}";
  json_body := Returned (JObj [("hint", JStr "inactive")])
|}.

Definition ok_response : Response := {|
  status_code := 200;
  text := "ok";
  json_body := Raised (Exception "JSONDecodeError" "Expecting value")
|}.

Definition plain_render (v : json) : string := "".

(** The answer of a server that fails, with a body that is no JSON. *)
Definition server_error_response : Response := {|
  status_code := 500;
  text := "Internal Server Error";
  json_body := Raised (Exception "JSONDecodeError" "Expecting value")
|}.

(** A sheet with one column only. *)
Definition single_column : DataFrame :=
  Frame ["Stock"] [ [CInt 5]; [CInt 50] ].

(** For the examples: a machine that adds exactly, a library that compares
    columns of integers only and infers no types, and a KeyError that lists
    the missing labels. *)
Definition exact_sum (qs : list Q) : Q := foldr Qplus 0%Q qs.

Definition no_comparison (a b : selection) : outcome mask :=
  Raised (Exception "NotImplementedError" "comparison").

Definition no_inference (values : list cell) : list cell := values.

Definition listed_key_error (labels missing : list string) : string :=
  foldr (λ l acc, "'" +:+ l +:+ "' " +:+ acc) "not in index" missing.

(** * Properties *)

(** ** Exceptions and lists *)

Lemma bind_Returned {A B} (m : outcome A) (f : A → outcome B) (b : B) :
  m ≫= f = Returned b ↔ ∃ a, m = Returned a ∧ f a = Returned b.
Proof.
  destruct m as [a|e]; simpl; split.
  - intros H. by exists a.
  - by intros (a' & [= <-] & H).
  - discriminate.
  - by intros (a' & ? & _).
Qed.

Lemma fmap_Returned {A B} (m : outcome A) (f : A → B) (b : B) :
  f <$> m = Returned b ↔ ∃ a, m = Returned a ∧ b = f a.
Proof.
  destruct m as [a|e]; simpl; split.
  - intros [= <-]. by exists a.
  - by intros (a' & [= <-] & ->).
  - discriminate.
  - by intros (a' & ? & _).
Qed.

Lemma mapM_Returned {A B} (f : A → outcome B) (l : list A) (k : list B) :
  mapM f l = Returned k ↔ Forall2 (λ x y, f x = Returned y) l k.
Proof.
  revert k. induction l as [|x l IH]; intros k; simpl.
  - split.
    + intros [= <-]. constructor.
    + intros H. by inversion H.
  - rewrite bind_Returned. split.
    + intros (y & Hy & H). apply bind_Returned in H as (k' & Hk' & [= <-]).
      constructor; [done|]. by apply IH.
    + intros H. inversion H as [|? y ? k' Hy Hk']; subst.
      exists y. split; [done|]. apply bind_Returned. exists k'. split; [by apply IH|done].
Qed.

Lemma zip_with_fmap_same {A B C} (f : A → B → C) (g : A → B) (l : list A) :
  zip_with f l (g <$> l) = (λ x, f x (g x)) <$> l.
Proof. induction l as [|x l IH]; csimpl; [done|]. by rewrite IH. Qed.

Lemma zip_with_Forall2 {A B C} (f : A → B → C) (R : A → B → Prop) (l : list A) (k : list B) :
  Forall2 R l k → Forall2 (λ x z, ∃ y, R x y ∧ z = f x y) l (zip_with f l k).
Proof. induction 1; simpl; constructor; eauto. Qed.

(** ** Rows *)

Lemma row_set_length cols c v row : length (row_set cols c v row) = length row.
Proof.
  revert row. induction cols as [|c' cols IH]; intros [|x row]; simpl; [done..|].
  by rewrite IH.
Qed.

Lemma row_cells_row_set_ne cols c c' v row :
  c' ≠ c → row_cells cols (row_set cols c v row) c' = row_cells cols row c'.
Proof.
  intros Hne. revert row. induction cols as [|d cols IH]; intros [|x row]; simpl; [done..|].
  rewrite IH. repeat case_decide; congruence.
Qed.

Lemma row_cells_row_set_eq cols c v row :
  row_cells cols (row_set cols c v row) c = replicate (length (row_cells cols row c)) v.
Proof.
  revert row. induction cols as [|d cols IH]; intros [|x row]; simpl; [done..|].
  rewrite IH. by case_decide.
Qed.

Lemma row_cells_nonempty cols c row :
  c ∈ cols → length row = length cols → row_cells cols row c ≠ [].
Proof.
  revert row. induction cols as [|d cols IH]; intros [|x row] Hin Hlen; simplify_eq/=.
  - by apply elem_of_nil in Hin.
  - case_decide; [done|]. apply IH; [|done].
    apply elem_of_cons in Hin as [->|]; done.
Qed.

Lemma row_cells_absent cols c row : c ∉ cols → row_cells cols row c = [].
Proof.
  revert row. induction cols as [|d cols IH]; intros [|x row] Hin; simpl; [done..|].
  rewrite decide_False; [|set_solver]. apply IH. set_solver.
Qed.

Lemma row_cells_snoc cols c c' v row :
  length row = length cols →
  row_cells (cols ++ [c]) (row ++ [v]) c' =
  row_cells cols row c' ++ (if decide (c = c') then [v] else []).
Proof.
  revert row. induction cols as [|d cols IH]; intros [|x row] Hlen; simplify_eq/=.
  - by case_decide.
  - rewrite IH; [|done]. by repeat case_decide.
Qed.

Lemma row_set_lookup_ne cols c v row i :
  cols !! i ≠ Some c → row_set cols c v row !! i = row !! i.
Proof.
  revert row i. induction cols as [|d cols IH]; intros [|x row] [|i] Hne; simpl in *; [done..| |].
  - case_decide; congruence.
  - by apply IH.
Qed.

Lemma row_get_row_set_eq cols c v row :
  c ∈ cols → length row = length cols → row_get cols (row_set cols c v row) c = Some v.
Proof.
  intros Hin Hlen. unfold row_get. rewrite row_cells_row_set_eq.
  pose proof (row_cells_nonempty cols c row Hin Hlen) as Hne.
  by destruct (row_cells cols row c).
Qed.

Lemma row_get_row_set_ne cols c c' v row :
  c' ≠ c → row_get cols (row_set cols c v row) c' = row_get cols row c'.
Proof. intros. unfold row_get. by rewrite row_cells_row_set_ne. Qed.

Lemma row_assign_length cols c v row :
  length row = length cols →
  length (row_assign cols c v row) = length (assigned_columns cols c).
Proof.
  intros Hlen. unfold row_assign, assigned_columns. case_bool_decide.
  - by rewrite row_set_length.
  - rewrite !length_app. simpl. lia.
Qed.

Lemma row_get_row_assign_eq cols c v row :
  length row = length cols →
  row_get (assigned_columns cols c) (row_assign cols c v row) c = Some v.
Proof.
  intros Hlen. unfold row_assign, assigned_columns. case_bool_decide as Hin.
  - by apply row_get_row_set_eq.
  - unfold row_get. rewrite row_cells_snoc; [|done].
    rewrite row_cells_absent; [|done]. by rewrite decide_True.
Qed.

Lemma row_cells_row_assign_ne cols c c' v row :
  length row = length cols → c' ≠ c →
  row_cells (assigned_columns cols c) (row_assign cols c v row) c' = row_cells cols row c'.
Proof.
  intros Hlen Hne. unfold row_assign, assigned_columns. case_bool_decide as Hin.
  - by apply row_cells_row_set_ne.
  - rewrite row_cells_snoc; [|done]. rewrite decide_False; [|done]. by rewrite app_nil_r.
Qed.

Lemma row_get_row_assign_ne cols c c' v row :
  length row = length cols → c' ≠ c →
  row_get (assigned_columns cols c) (row_assign cols c v row) c' = row_get cols row c'.
Proof. intros. unfold row_get. by rewrite row_cells_row_assign_ne. Qed.

Lemma row_assign_lookup_ne cols c v row i :
  (i < length row)%nat → cols !! i ≠ Some c → row_assign cols c v row !! i = row !! i.
Proof.
  intros Hi Hne. unfold row_assign. case_bool_decide.
  - by apply row_set_lookup_ne.
  - by apply lookup_app_l.
Qed.

Lemma assigned_columns_prefix cols c : cols `prefix_of` assigned_columns cols c.
Proof.
  unfold assigned_columns. case_bool_decide; [done|]. by apply prefix_app_r.
Qed.

Lemma assigned_columns_elem cols c : c ∈ assigned_columns cols c.
Proof. unfold assigned_columns. case_bool_decide; set_solver. Qed.

Lemma columns_setitem df c vs : columns (setitem df c vs) = assigned_columns (columns df) c.
Proof. done. Qed.

(** ** Frames *)

Lemma getitem_Returned df c sel :
  Pandas.getitem df c = Returned sel →
  c ∈ columns df ∧
  (filter (λ c', c' = c) (columns df) = [c] ∧
   sel = Series ((λ row, default NaN (row_get (columns df) row c)) <$> rows df)
   ∨ ∃ d, sel = SubFrame d).
Proof.
  unfold Pandas.getitem.
  destruct (filter (λ c', c' = c) (columns df)) as [|x [|y l]] eqn:Hf; [done|..].
  - intros [= <-].
    assert (x ∈ filter (λ c', c' = c) (columns df)) as Hx by (rewrite Hf; set_solver).
    apply list_elem_of_filter in Hx as [-> Hin]. eauto.
  - intros [= <-].
    assert (x ∈ filter (λ c', c' = c) (columns df)) as Hx by (rewrite Hf; set_solver).
    apply list_elem_of_filter in Hx as [-> Hin]. eauto.
Qed.

Section Forcing.

Variable pd : library.

Lemma force_numbers_Returned c df df' :
  force_numbers pd c df = Returned df' →
  c ∈ columns df ∧ filter (λ c', c' = c) (columns df) = [c] ∧
  columns df' = columns df ∧
  Forall2 (forced pd (columns df) c) (rows df) (rows df').
Proof.
  unfold force_numbers. intros H.
  apply bind_Returned in H as (sel & Hsel & H).
  apply getitem_Returned in Hsel as (Hin & [[Hone ->]|[d ->]]); [|done].
  apply bind_Returned in H as (nums & [= <-] & H).
  apply bind_Returned in H as (ints & Hints & [= <-]).
  apply mapM_Returned in Hints.
  split; [done|]. split; [done|]. split.
  - simpl. unfold assigned_columns. by rewrite bool_decide_true.
  - simpl. unfold fillna0 in Hints. rewrite <- !list_fmap_compose in Hints.
    apply Forall2_fmap_l in Hints.
    rewrite zip_with_fmap_r.
    eapply Forall2_impl; [by apply (zip_with_Forall2 _ _ _ _ Hints)|].
    intros row row' (z & Hz & ->). exists z. split; [done|].
    unfold row_assign. by rewrite bool_decide_true.
Qed.

End Forcing.

(** ** The normaliser, step by step *)

Lemma Qcompare_inject_Z a b : Qcompare (inject_Z a) (inject_Z b) = Z.compare a b.
Proof. unfold Qcompare, inject_Z. simpl. by rewrite !Z.mul_1_r. Qed.

Lemma compare_ints op a b :
  compare_cells op (CInt a) (CInt b) = Returned (op_test op (Z.compare a b)).
Proof. simpl. by rewrite Qcompare_inject_Z. Qed.

Lemma status_lambda_ints cols row a r :
  row_get cols row AvailableStock = Some (CInt a) →
  row_get cols row RestockLevel = Some (CInt r) →
  status_lambda cols row = Returned (CStr (status_of a r)).
Proof.
  intros Ha Hr. unfold status_lambda, row_getitem. rewrite Ha, Hr. simpl.
  rewrite !Qcompare_inject_Z. unfold status_of, Z.leb, Z.ltb.
  destruct (a ?= 10); simpl; try done; by destruct (a ?= r).
Qed.

Lemma status_lambda_floats cols row a r :
  row_get cols row AvailableStock = Some (CFloat (Fin (inject_Z a))) →
  row_get cols row RestockLevel = Some (CFloat (Fin (inject_Z r))) →
  status_lambda cols row = Returned (CStr (status_of a r)).
Proof.
  intros Ha Hr. unfold status_lambda, row_getitem. rewrite Ha, Hr. simpl.
  rewrite !Qcompare_inject_Z. unfold status_of, Z.leb, Z.ltb.
  destruct (a ?= 10); simpl; try done; by destruct (a ?= r).
Qed.

Lemma row_cells_fmap (f : cell → cell) cols row c :
  row_cells cols (f <$> row) c = f <$> row_cells cols row c.
Proof.
  revert row. induction cols as [|d cols IH]; intros [|x row]; csimpl; [done..|].
  rewrite IH. by case_decide.
Qed.

Lemma row_get_fmap (f : cell → cell) cols row c :
  row_get cols (f <$> row) c = f <$> row_get cols row c.
Proof. unfold row_get. rewrite row_cells_fmap. by destruct (row_cells cols row c). Qed.

(** The lambda on the row it is handed, for a row that holds integers. *)
Lemma status_lambda_judged floats cols row a r :
  row_get cols row AvailableStock = Some (CInt a) →
  row_get cols row RestockLevel = Some (CInt r) →
  status_lambda cols (row_values floats row)
  = Returned (CStr (status_of (judged floats a) (judged floats r))).
Proof.
  intros Ha Hr. unfold row_values, judged. destruct floats.
  - apply status_lambda_floats; rewrite row_get_fmap; [by rewrite Ha|by rewrite Hr].
  - by apply status_lambda_ints.
Qed.

Lemma Forall2_chain {A B C} (R : A → B → Prop) (S : B → C → Prop) l k m :
  Forall2 R l k → Forall2 S k m → Forall2 (λ x z, ∃ y, R x y ∧ S y z) l m.
Proof.
  intros H. revert m. induction H; intros m Hm; inversion Hm; subst; constructor; eauto.
Qed.

Lemma Forall2_with_l {A B} (P : A → Prop) (R : A → B → Prop) l k :
  Forall P l → Forall2 R l k → Forall2 (λ x y, P x ∧ R x y) l k.
Proof.
  intros HP H. induction H; inversion HP; subst; constructor; eauto.
Qed.

Lemma Forall2_fmap_graph {A B} (f : A → B) (l : list A) :
  Forall2 (λ x y, y = f x) l (f <$> l).
Proof. induction l; csimpl; constructor; done. Qed.

Lemma columns_reconciled pd raw :
  columns (reconciled pd raw) =
  (λ c, default c (rename_dict pd (columns raw) !! c)) <$> columns raw.
Proof. done. Qed.

Lemma rectangular_reconciled pd raw : rectangular raw → rectangular (reconciled pd raw).
Proof.
  unfold rectangular, reconciled. simpl. intros H.
  rewrite length_fmap. apply Forall_forall. intros row [_ Hrow]%list_elem_of_filter.
  rewrite Forall_forall in H. by apply H.
Qed.

Lemma column_label_Returned df i c :
  column_label df i = Returned c ↔ columns df !! i = Some c.
Proof.
  unfold column_label. destruct (columns df !! i); split; intros H; by simplify_eq.
Qed.

Lemma take_2_labels (cols : list string) first second :
  cols !! 0%nat = Some first → cols !! 1%nat = Some second → take 2 cols = [first; second].
Proof. destruct cols as [|a [|b l]]; intros; by simplify_eq/=. Qed.


Lemma default_restock src :
  let df := if negb (has_column RestockLevel src)
            then setitem_scalar src RestockLevel (CInt 10) else src in
  columns df = assigned_columns (columns src) RestockLevel ∧
  rows df = (λ row, if bool_decide (RestockLevel ∈ columns src) then row else row ++ [CInt 10])
              <$> rows src.
Proof.
  unfold has_column, setitem_scalar, setitem, assigned_columns, row_assign.
  case_bool_decide; simpl.
  - split; [done|]. by rewrite list_fmap_id.
  - split; [done|]. by rewrite zip_with_replicate_r_eq.
Qed.

Lemma filter_assigned_columns cols c c' :
  c' ≠ c →
  filter (λ x, x = c') (assigned_columns cols c) = filter (λ x, x = c') cols.
Proof.
  intros Hne. unfold assigned_columns. case_bool_decide; [done|].
  rewrite filter_app, filter_cons_False, filter_nil; [|done]. by rewrite app_nil_r.
Qed.

Lemma elem_of_filter_singleton (cols : list string) c :
  filter (λ x, x = c) cols = [c] → c ∈ cols.
Proof.
  intros H. assert (c ∈ filter (λ x, x = c) cols) as Hc by (rewrite H; set_solver).
  by apply list_elem_of_filter in Hc as [_ ?].
Qed.

Section Normalize.
Variable pd : library.

Lemma canonical_intro cols floats row row3 row4 row5 st row' :
  length row = length cols →
  AvailableStock ∈ cols →
  row3 = (if bool_decide (RestockLevel ∈ cols) then row else row ++ [CInt 10]) →
  forced pd (assigned_columns cols RestockLevel) AvailableStock row3 row4 →
  forced pd (assigned_columns cols RestockLevel) RestockLevel row4 row5 →
  status_lambda (assigned_columns cols RestockLevel) (row_values floats row5) = Returned st →
  row' = row_assign (assigned_columns cols RestockLevel) Status st row5 →
  canonical pd cols floats row row'.
Proof.
  intros Hlen HinA -> (a & Ha & ->) (r & Hr & ->) Hst ->.
  set (cols3 := assigned_columns cols RestockLevel) in *.
  set (row3 := if bool_decide (RestockLevel ∈ cols) then row else row ++ [CInt 10]) in *.
  assert (length row3 = length cols3) as Hlen3.
  { unfold row3, cols3, assigned_columns. case_bool_decide; [done|].
    rewrite !length_app. simpl. lia. }
  assert (AvailableStock ∈ cols3) as HinA3.
  { unfold cols3, assigned_columns. case_bool_decide; set_solver. }
  assert (row_get cols3 row3 AvailableStock = row_get cols row AvailableStock) as HgA.
  { unfold row3, cols3, assigned_columns, row_get. case_bool_decide; [done|].
    rewrite row_cells_snoc; [|done]. rewrite decide_False; [|done]. by rewrite app_nil_r. }
  assert (row_get cols3 row3 RestockLevel =
          if bool_decide (RestockLevel ∈ cols) then row_get cols row RestockLevel
          else Some (CInt 10)) as HgR.
  { unfold row3, cols3, assigned_columns, row_get. case_bool_decide; [done|].
    rewrite row_cells_snoc; [|done]. rewrite row_cells_absent; [|done].
    by rewrite decide_True. }
  rewrite HgA in Ha.
  rewrite row_get_row_set_ne in Hr; [|done]. rewrite HgR in Hr.
  exists a, r. split; [done|]. split.
  { by case_bool_decide. }
  f_equal.
  rewrite (status_lambda_judged _ _ _ a r) in Hst; [by simplify_eq| |].
  - rewrite row_get_row_set_ne; [|done]. by apply row_get_row_set_eq.
  - apply row_get_row_set_eq; [apply assigned_columns_elem|]. by rewrite row_set_length.
Qed.

Lemma normalize_Returned raw out msgs :
  rectangular raw →
  normalize pd raw = Returned (out, msgs) →
  (2 ≤ length (columns raw))%nat ∧
  ((out = empty_frame ∧ msgs = [stock_column_error] ∧ AvailableStock ∉ columns (reconciled pd raw))
   ∨ (msgs = [] ∧
      filter (λ c, c = AvailableStock) (columns (reconciled pd raw)) = [AvailableStock] ∧
      filter (λ c, c = RestockLevel) (assigned_columns (columns (reconciled pd raw)) RestockLevel)
        = [RestockLevel] ∧
      columns out = assigned_columns (assigned_columns (columns (reconciled pd raw)) RestockLevel) Status ∧
      (rows (reconciled pd raw) = [] → apply_reduces_empty pd = true) ∧
      ∃ floats,
        Forall2 (canonical pd (columns (reconciled pd raw)) floats)
          (rows (reconciled pd raw)) (rows out))).
Proof.
  intros Hrect H. unfold normalize in H.
  apply bind_Returned in H as (first & Hfirst%column_label_Returned & H).
  apply bind_Returned in H as (second & Hsecond%column_label_Returned & H).
  rewrite <- (take_2_labels _ _ _ Hfirst Hsecond) in H.
  change (rename _ _) with (reconciled pd raw) in H.
  set (src := reconciled pd raw) in *.
  assert (2 ≤ length (columns raw))%nat as Hlen2.
  { apply lookup_lt_Some in Hsecond. lia. }
  split; [done|].
  destruct (has_column AvailableStock src) eqn:HAS; simpl in H.
  2: { left. simplify_eq. split; [done|]. split; [done|].
       by apply bool_decide_eq_false in HAS. }
  right.
  destruct (default_restock src) as (Hc3 & Hr3).
  set (df3 := if negb (has_column RestockLevel src)
              then setitem_scalar src RestockLevel (CInt 10) else src) in *.
  apply bind_Returned in H as (df4 & H4 & H).
  apply force_numbers_Returned in H4 as (HinA & HoneA & Hc4 & Hrows4).
  apply bind_Returned in H as (df5 & H5 & H).
  apply force_numbers_Returned in H5 as (HinR & HoneR & Hc5 & Hrows5).
  apply bind_Returned in H as (st & Hst & H).
  apply bind_Returned in H as (out' & Hout & [= <- <-]).
  rewrite Hc4 in *. rewrite Hc3 in *.
  rewrite filter_assigned_columns in HoneA; [|done].
  unfold apply_rows in Hst.
  set (floats := float_values df5) in *.
  assert (2 ≤ length (columns df5))%nat as Hlen5.
  { rewrite Hc5. etrans; [|apply prefix_length, assigned_columns_prefix].
    unfold src. by rewrite columns_reconciled, length_fmap. }
  assert ((rows df5 = [] → apply_reduces_empty pd = true) ∧
          ∃ sts, Forall2 (λ row st, status_lambda (columns df5) (row_values floats row)
                                    = Returned st)
                   (rows df5) sts ∧ out' = setitem df5 Status sts)
    as (Hreduces & sts & Hsts & ->).
  { destruct (rows df5) as [|r5 rs5] eqn:Hr5.
    - destruct (apply_reduces_empty pd); simplify_eq; simpl in Hout.
      + split; [done|]. exists []. split; [constructor|]. by simplify_eq.
      + destruct (columns df5) as [|x [|y l]]; simpl in *; [lia|lia|done].
    - split; [done|].
      apply fmap_Returned in Hst as (sts & Hsts%mapM_Returned & ->).
      simpl in Hout. exists sts. split; [done|]. by simplify_eq. }
  simpl. rewrite Hc5.
  do 4 (split; [done|]).
  rewrite Hr3 in Hrows4. split.
  { intros Hnil. change (rows src = []) in Hnil. rewrite Hnil in Hrows4. simpl in Hrows4.
    apply Forall2_nil_inv_l in Hrows4. rewrite Hrows4 in Hrows5.
    apply Forall2_nil_inv_l in Hrows5. by apply Hreduces. }
  rewrite Hc5 in Hsts. exists floats.
  pose proof (rectangular_reconciled pd raw Hrect) as Hrs.
  pose proof (zip_with_Forall2
                (λ row v, row_assign (assigned_columns (columns src) RestockLevel) Status v row)
                _ _ _ Hsts) as Hrows6.
  pose proof (Forall2_with_l _ _ _ _ Hrs
                (Forall2_chain _ _ _ _ _ (Forall2_fmap_graph _ (rows src))
                   (Forall2_chain _ _ _ _ _ Hrows4
                      (Forall2_chain _ _ _ _ _ Hrows5 Hrows6)))) as Hchain.
  eapply Forall2_impl; [exact Hchain|].
  intros row row' (Hlen & row3 & -> & row4 & Hf4 & row5 & Hf5 & st' & Hst' & ->).
  eapply canonical_intro; eauto.
  by apply elem_of_filter_singleton.
Qed.
End Normalize.

(** ** The whole function *)
Section Load.
Variable pd : library.

Lemma load_fetches w raw :
  fetches w raw →
  load_data_from_gsheet pd w =
  try_except (normalize pd raw)
    (λ e, Returned (empty_frame, ["Error loading data from Google Sheets: " +:+ exn_str e])).
Proof.
  intros (url & tail & sid & Hurl & Hd & Htail & Hsid & Hread).
  unfold load_data_from_gsheet, load_body. rewrite Hurl. simpl. rewrite Hd.
  unfold Py.getitem. rewrite Htail. simpl. rewrite Hsid. simpl. by rewrite Hread.
Qed.

Lemma load_Returned w out msgs :
  load_data_from_gsheet pd w = Returned (out, msgs) →
  (out = empty_frame ∧ ∃ m, msgs = [m]) ∨
  (∃ raw, fetches w raw ∧ normalize pd raw = Returned (out, msgs)).
Proof.
  unfold load_data_from_gsheet, try_except.
  destruct (load_body pd w) as [[out' msgs']|e] eqn:Hbody.
  2: { intros [= <- <-]. left. eauto. }
  intros [= -> ->]. unfold load_body in Hbody.
  apply bind_Returned in Hbody as (url & Hurl & H).
  destruct (contains "/d/" url) eqn:Hd.
  2: { simplify_eq. left. eauto. }
  apply bind_Returned in H as (tail & Htail & H).
  apply bind_Returned in H as (sid & Hsid & H).
  apply bind_Returned in H as (raw & Hraw & H).
  right. exists raw. split; [|done].
  exists url, tail, sid. unfold Py.getitem in *.
  destruct (split "/d/" url !! 1%nat) eqn:?; [|done].
  destruct (split "/" tail !! 0%nat) eqn:?; [|done].
  by simplify_eq.
Qed.

Lemma load_never_raises w : ∃ out msgs, load_data_from_gsheet pd w = Returned (out, msgs).
Proof.
  unfold load_data_from_gsheet, try_except.
  destruct (load_body pd w) as [[out msgs]|e]; eauto.
Qed.
End Load.

(** ** Header reconciliation *)

Section Headers.
Variable pd : library.

Lemma current_cols_snoc cols c :
  current_cols pd (cols ++ [c]) = <[normalize_header pd c := c]> (current_cols pd cols).
Proof. unfold current_cols. by rewrite foldl_snoc. Qed.

Lemma current_cols_lookup cols k :
  current_cols pd cols !! k = last (filter (λ c, normalize_header pd c = k) cols).
Proof.
  induction cols as [|c cols IH] using rev_ind; [done|].
  rewrite current_cols_snoc, filter_app, lookup_insert.
  case_decide as Hk.
  - rewrite filter_cons_True, filter_nil by done. by rewrite last_snoc.
  - rewrite filter_cons_False, filter_nil by done. by rewrite app_nil_r.
Qed.

Lemma current_cols_Some cols k c :
  current_cols pd cols !! k = Some c → normalize_header pd c = k ∧ c ∈ cols.
Proof.
  rewrite current_cols_lookup. intros H.
  apply last_Some_elem_of in H. by apply list_elem_of_filter in H.
Qed.

Lemma current_cols_is_Some cols k :
  is_Some (current_cols pd cols !! k) ↔ k ∈ normalize_header pd <$> cols.
Proof.
  rewrite current_cols_lookup. split.
  - intros [c Hc]. apply last_Some_elem_of, list_elem_of_filter in Hc as [<- Hc].
    by apply list_elem_of_fmap_2.
  - intros (c & -> & Hc)%list_elem_of_fmap.
    destruct (last (filter (λ c', normalize_header pd c' = normalize_header pd c) cols)) eqn:Hl; [eauto|].
    apply last_None in Hl.
    assert (c ∈ filter (λ c', normalize_header pd c' = normalize_header pd c) cols) as Hin
      by by apply list_elem_of_filter.
    rewrite Hl in Hin. by apply elem_of_nil in Hin.
Qed.

Lemma match_aliases_selected current f aliases rd :
  match_aliases current f aliases rd =
  match selected_header current aliases with
  | Some h => <[h := f]> rd
  | None => rd
  end.
Proof.
  unfold selected_header. induction aliases as [|a aliases IH]; simpl; [done|].
  destruct (current !! a) as [h|] eqn:Ha; simpl.
  - by rewrite Ha.
  - done.
Qed.

Lemma selected_header_Some current aliases h :
  selected_header current aliases = Some h →
  ∃ a, a ∈ aliases ∧ current !! a = Some h.
Proof.
  unfold selected_header.
  destruct (find _ aliases) as [a|] eqn:Hfind; [|done].
  intros Ha. exists a. split; [|done].
  apply find_some in Hfind as [Hin _]. by apply list_elem_of_In.
Qed.

Lemma build_rename_dict_snoc table e current :
  build_rename_dict (table ++ [e]) current =
  match selected_header current (snd e) with
  | Some h => <[h := fst e]> (build_rename_dict table current)
  | None => build_rename_dict table current
  end.
Proof. unfold build_rename_dict. by rewrite foldl_snoc, match_aliases_selected. Qed.

Lemma build_rename_dict_lookup table current c f :
  NoDup (fst <$> table) →
  (∀ e1 e2 h, e1 ∈ table → e2 ∈ table →
     selected_header current (snd e1) = Some h →
     selected_header current (snd e2) = Some h → e1 = e2) →
  build_rename_dict table current !! c = Some f ↔
  ∃ aliases, (f, aliases) ∈ table ∧ selected_header current aliases = Some c.
Proof.
  induction table as [|[f' aliases'] table IH] using rev_ind; intros Hnd Hinj.
  { unfold build_rename_dict. simpl. rewrite lookup_empty. split; [done|].
    intros (? & Hin & _). by apply elem_of_nil in Hin. }
  rewrite fmap_app in Hnd. apply NoDup_app in Hnd as (Hnd & Hfresh & _).
  assert (build_rename_dict table current !! c = Some f ↔
          ∃ aliases, (f, aliases) ∈ table ∧ selected_header current aliases = Some c) as IH'.
  { apply IH; [done|]. intros e1 e2 h ??. apply Hinj; apply elem_of_app; by left. }
  rewrite build_rename_dict_snoc. simpl.
  destruct (selected_header current aliases') as [h|] eqn:Hsel.
  - rewrite lookup_insert. case_decide as Hh.
    + subst h. split.
      * intros [= <-]. exists aliases'. split; [|done].
        apply elem_of_app. right. by apply list_elem_of_singleton.
      * intros (aliases & Hin & Hsel').
        assert ((f, aliases) = (f', aliases')) as [= -> ->]; [|done].
        apply (Hinj _ _ c); [done| |done..].
        apply elem_of_app. right. by apply list_elem_of_singleton.
    + rewrite IH'. split.
      * intros (aliases & Hin & Hsel'). exists aliases. split; [|done].
        apply elem_of_app. by left.
      * intros (aliases & Hin & Hsel'). exists aliases. split; [|done].
        apply elem_of_app in Hin as [?|Hin]; [done|].
        apply list_elem_of_singleton in Hin as [= -> ->]. congruence.
  - rewrite IH'. split.
    + intros (aliases & Hin & Hsel'). exists aliases. split; [|done].
        apply elem_of_app. by left.
    + intros (aliases & Hin & Hsel'). exists aliases. split; [|done].
      apply elem_of_app in Hin as [?|Hin]; [done|].
      apply list_elem_of_singleton in Hin as [= -> ->]. congruence.
Qed.

Lemma column_map_NoDup : NoDup (fst <$> column_map).
Proof. apply (bool_decide_unpack _). by vm_compute. Qed.

Lemma column_map_disjoint e1 e2 a :
  e1 ∈ column_map → e2 ∈ column_map → a ∈ snd e1 → a ∈ snd e2 → e1 = e2.
Proof.
  assert (Forall (λ e1 : string * list string,
            Forall (λ e2 : string * list string,
              Forall (λ a, a ∈ snd e2 → e1 = e2) (snd e1)) column_map) column_map) as H.
  { apply (bool_decide_unpack _). by vm_compute. }
  intros H1 H2 Ha1 Ha2.
  rewrite Forall_forall in H. specialize (H e1 H1).
  rewrite Forall_forall in H. specialize (H e2 H2).
  rewrite Forall_forall in H. by apply (H a).
Qed.

Lemma rename_dict_lookup cols c f :
  rename_dict pd cols !! c = Some f ↔
  ∃ aliases, (f, aliases) ∈ column_map ∧
             selected_header (current_cols pd cols) aliases = Some c.
Proof.
  apply build_rename_dict_lookup; [apply column_map_NoDup|].
  intros e1 e2 h H1 H2 (a1 & Ha1 & Hc1)%selected_header_Some (a2 & Ha2 & Hc2)%selected_header_Some.
  apply current_cols_Some in Hc1 as [<- _]. apply current_cols_Some in Hc2 as [<- _].
  by apply (column_map_disjoint e1 e2 (normalize_header pd h)).
Qed.

Lemma find_ext {A} (p q : A → bool) (l : list A) :
  (∀ x, p x = q x) → find p l = find q l.
Proof. intros H. induction l as [|x l IH]; simpl; [done|]. by rewrite H, IH. Qed.

Lemma selected_header_current_cols cols aliases :
  selected_header (current_cols pd cols) aliases =
  match first_present pd aliases cols with
  | Some a => last (filter (λ c, normalize_header pd c = a) cols)
  | None => None
  end.
Proof.
  unfold selected_header, first_present.
  rewrite (find_ext _ (λ a, bool_decide (a ∈ normalize_header pd <$> cols))).
  - destruct (find _ aliases); [|done]. apply current_cols_lookup.
  - intros a. apply bool_decide_ext, current_cols_is_Some.
Qed.

Lemma first_present_Some aliases cols a :
  first_present pd aliases cols = Some a →
  a ∈ aliases ∧ ∃ c, last (filter (λ c, normalize_header pd c = a) cols) = Some c.
Proof.
  unfold first_present. intros [Hin Hp]%find_some.
  split; [by apply list_elem_of_In|].
  apply bool_decide_eq_true, current_cols_is_Some in Hp as [c Hc].
  exists c. by rewrite <- current_cols_lookup.
Qed.

Lemma column_map_functional f aliases aliases' :
  (f, aliases) ∈ column_map → (f, aliases') ∈ column_map → aliases = aliases'.
Proof.
  intros H1 H2. pose proof column_map_NoDup as Hnd.
  apply list_elem_of_lookup in H1 as [i Hi]. apply list_elem_of_lookup in H2 as [j Hj].
  assert (i = j) as ->.
  { eapply NoDup_lookup; [exact Hnd|..]; rewrite list_lookup_fmap.
    - by rewrite Hi.
    - by rewrite Hj. }
  congruence.
Qed.

(** The alias that decides, and the one header it renames. *)
Lemma header_matching_priority (cols : list string) :
  Forall (λ entry,
    match first_present pd (snd entry) cols with
    | Some alias =>
        ∃ header,
          last (filter (λ c, normalize_header pd c = alias) cols) = Some header ∧
          ∀ c, rename_dict pd cols !! c = Some (fst entry) ↔ c = header
    | None => ∀ c, rename_dict pd cols !! c ≠ Some (fst entry)
    end) column_map.
Proof.
  apply Forall_forall. intros [f aliases] Hin. simpl.
  destruct (first_present pd aliases cols) as [a|] eqn:Hfp.
  - destruct (first_present_Some _ _ _ Hfp) as (_ & header & Hlast).
    exists header. split; [done|]. intros c. rewrite rename_dict_lookup. split.
    + intros (aliases' & Hin' & Hsel).
      rewrite (column_map_functional _ _ _ Hin' Hin) in Hsel.
      rewrite selected_header_current_cols, Hfp in Hsel. congruence.
    + intros ->. exists aliases. split; [done|].
      by rewrite selected_header_current_cols, Hfp.
  - intros c (aliases' & Hin' & Hsel)%rename_dict_lookup.
    rewrite (column_map_functional _ _ _ Hin' Hin) in Hsel.
    by rewrite selected_header_current_cols, Hfp in Hsel.
Qed.

Lemma unique_normal_form cols c :
  NoDup (normalize_header pd <$> cols) → c ∈ cols →
  last (filter (λ c', normalize_header pd c' = normalize_header pd c) cols) = Some c.
Proof.
  induction cols as [|c0 cols IH]; intros Hnd Hin; [by apply elem_of_nil in Hin|].
  rewrite fmap_cons in Hnd. apply NoDup_cons in Hnd as [Hfresh Hnd].
  apply elem_of_cons in Hin as [->|Hin].
  - rewrite filter_cons_True by done.
    assert (filter (λ c', normalize_header pd c' = normalize_header pd c0) cols = []) as ->; [|done].
    destruct (filter _ cols) as [|x l] eqn:Hf; [done|].
    assert (x ∈ filter (λ c', normalize_header pd c' = normalize_header pd c0) cols) as Hx
      by (rewrite Hf; left).
    apply list_elem_of_filter in Hx as [Heq Hx]. destruct Hfresh.
    rewrite <- Heq. by apply list_elem_of_fmap_2.
  - rewrite filter_cons_False; [by apply IH|].
    intros Heq. destruct Hfresh. rewrite Heq. by apply list_elem_of_fmap_2.
Qed.

Lemma rename_dict_unique cols c f :
  NoDup (normalize_header pd <$> cols) → c ∈ cols →
  rename_dict pd cols !! c = Some f ↔
  ∃ aliases, (f, aliases) ∈ column_map ∧
             first_present pd aliases cols = Some (normalize_header pd c).
Proof.
  intros Hnd Hin. rewrite rename_dict_lookup. split.
  - intros (aliases & Hmap & Hsel). exists aliases. split; [done|].
    rewrite selected_header_current_cols in Hsel.
    destruct (first_present pd aliases cols) as [a|]; [|done].
    apply last_Some_elem_of, list_elem_of_filter in Hsel as [<- _]. done.
  - intros (aliases & Hmap & Hfp). exists aliases. split; [done|].
    rewrite selected_header_current_cols, Hfp. by apply unique_normal_form.
Qed.

(** Headers that differ in case and in surrounding white space only are
    matched alike. *)
Lemma header_matching_insensitive cols cols' :
  normalize_header pd <$> cols = normalize_header pd <$> cols' →
  NoDup (normalize_header pd <$> cols) →
  (λ c, rename_dict pd cols !! c) <$> cols = (λ c, rename_dict pd cols' !! c) <$> cols'.
Proof.
  intros Heq Hnd. apply list_eq. intros i. rewrite !list_lookup_fmap.
  assert (normalize_header pd <$> cols !! i = normalize_header pd <$> cols' !! i) as Hi.
  { by rewrite <- !list_lookup_fmap, Heq. }
  destruct (cols !! i) as [c|] eqn:Hc, (cols' !! i) as [c'|] eqn:Hc'; simplify_eq/=; [|done].
  f_equal. apply option_eq. intros f.
  rewrite !rename_dict_unique;
    [|by rewrite <- Heq|by eapply list_elem_of_lookup_2|done|by eapply list_elem_of_lookup_2].
  unfold first_present. by rewrite Heq, Hi.
Qed.

Lemma renamed_label df i c :
  columns df !! i = Some c →
  columns (renamed pd df) !! i = Some (default c (rename_dict pd (columns df) !! c)).
Proof. intros H. unfold renamed, rename. simpl. by rewrite list_lookup_fmap, H. Qed.

(** Where the renamed table carries the name of a field. *)
Lemma header_matching_table (df : DataFrame) :
  Forall (λ entry,
    match first_present pd (snd entry) (columns df) with
    | Some alias =>
        ∃ header,
          last (filter (λ c, normalize_header pd c = alias) (columns df)) = Some header ∧
          ∀ i c, columns df !! i = Some c →
            (c = header → columns (renamed pd df) !! i = Some (fst entry)) ∧
            (c ≠ header → columns (renamed pd df) !! i = Some (fst entry) → c = fst entry)
    | None =>
        ∀ i c, columns df !! i = Some c →
          columns (renamed pd df) !! i = Some (fst entry) → c = fst entry
    end) column_map.
Proof.
  pose proof (header_matching_priority (columns df)) as H.
  eapply Forall_impl; [exact H|]. intros [f aliases]. cbn [fst snd].
  destruct (first_present pd aliases (columns df)) as [alias|].
  - intros (header & Hlast & Hiff). exists header. split; [done|].
    intros i c Hc. rewrite (renamed_label _ _ _ Hc). split.
    + intros ->. by rewrite (proj2 (Hiff header) eq_refl).
    + intros Hne. destruct (rename_dict pd (columns df) !! c) as [f'|] eqn:Hrd; simpl.
      * intros [= ->]. by apply Hiff in Hrd.
      * by intros [= ->].
  - intros Hnone i c Hc. rewrite (renamed_label _ _ _ Hc).
    destruct (rename_dict pd (columns df) !! c) as [f'|] eqn:Hrd; simpl.
    + intros [= ->]. by apply Hnone in Hrd.
    + by intros [= ->].
Qed.

(** Two tables whose headers have the same normal forms carry the same names
    wherever a header is renamed, and their own headers elsewhere. *)
Lemma header_matching_table_insensitive (df df' : DataFrame) :
  normalize_header pd <$> columns df = normalize_header pd <$> columns df' →
  NoDup (normalize_header pd <$> columns df) →
  ∀ i, columns (renamed pd df) !! i = columns (renamed pd df') !! i ∨
       (columns (renamed pd df) !! i = columns df !! i ∧
        columns (renamed pd df') !! i = columns df' !! i).
Proof.
  intros Heq Hnd i.
  pose proof (header_matching_insensitive _ _ Heq Hnd) as Hsame.
  apply (f_equal (λ l, l !! i)) in Hsame. rewrite !list_lookup_fmap in Hsame.
  assert (length (columns df) = length (columns df')) as Hlen.
  { apply (f_equal length) in Heq. by rewrite !length_fmap in Heq. }
  destruct (columns df !! i) as [c|] eqn:Hc, (columns df' !! i) as [c'|] eqn:Hc'.
  - rewrite (renamed_label _ _ _ Hc), (renamed_label _ _ _ Hc'). simpl in Hsame.
    injection Hsame as Hsame. rewrite <- Hsame.
    destruct (rename_dict pd (columns df) !! c); simpl; [by left|by right].
  - apply lookup_lt_Some in Hc. apply lookup_ge_None in Hc'. lia.
  - apply lookup_lt_Some in Hc'. apply lookup_ge_None in Hc. lia.
  - right. unfold renamed, rename. simpl. by rewrite !list_lookup_fmap, Hc, Hc'.
Qed.


End Headers.

(** ** The canonical table *)

Lemma status_of_rule a r : status_rule a r (status_of a r).
Proof.
  unfold status_rule, status_of.
  destruct (Z.leb_spec a 10), (Z.ltb_spec a r); repeat split; intros; try done; lia.
Qed.

Lemma assigned_columns_lookup cols c i :
  (i < length cols)%nat → assigned_columns cols c !! i = cols !! i.
Proof.
  intros Hi. unfold assigned_columns. case_bool_decide; [done|]. by apply lookup_app_l.
Qed.

Lemma assigned_columns_length cols c : (length cols ≤ length (assigned_columns cols c))%nat.
Proof. apply prefix_length, assigned_columns_prefix. Qed.

(** *** 64-bit integers *)

Lemma in_int64_wrap64 z : in_int64 (wrap64 z) = true.
Proof.
  unfold in_int64, wrap64.
  pose proof (Z.mod_pos_bound (z + 2 ^ 63) (2 ^ 64) eq_refl) as [Hlow Hhigh].
  set (x := (z + 2 ^ 63) mod 2 ^ 64) in *.
  assert (2 ^ 64 = 2 ^ 63 + 2 ^ 63) as Hdouble by reflexivity.
  apply andb_true_iff. split; [apply Z.leb_le|apply Z.ltb_lt]; lia.
Qed.

Lemma in_int64_int64_of pd q : in_int64 (int64_of pd q) = true.
Proof.
  unfold int64_of. destruct (in_int64 (truncate q)) eqn:Hfits; [done|].
  apply in_int64_wrap64.
Qed.

Lemma int64_of_fits pd q : in_int64 (truncate q) = true → int64_of pd q = truncate q.
Proof. intros H. unfold int64_of. by rewrite H. Qed.

(** *** Integers seen as doubles *)

Lemma to_double_small z : Z.abs z ≤ 2 ^ 53 → to_double z = z.
Proof.
  intros Hz. unfold to_double.
  destruct (Z.ltb_spec (Z.abs z) (2 ^ 53)) as [|Hge]; [done|].
  assert (z = 2 ^ 53 ∨ z = - 2 ^ 53) as [-> | ->] by lia; reflexivity.
Qed.

Lemma to_double_nearest z :
  2 ^ 53 ≤ Z.abs z → to_double z = Z.sgn z * nearest (Z.abs z).
Proof.
  intros Hz. unfold to_double, nearest, round_up.
  destruct (Z.ltb_spec (Z.abs z) (2 ^ 53)); [lia|]. reflexivity.
Qed.

Lemma nearest_bounds m :
  2 ^ 53 ≤ m → 2 ^ Z.log2 m ≤ nearest m ≤ 2 ^ (Z.log2 m + 1).
Proof.
  intros Hm. unfold nearest.
  set (e := Z.log2 m).
  assert (0 < m) as Hpos by lia.
  assert (53 ≤ e) as He.
  { unfold e. change 53 with (Z.log2 (2 ^ 53)). apply Z.log2_le_mono. exact Hm. }
  destruct (Z.log2_spec m Hpos) as [Hlo Hhi]. fold e in Hlo, Hhi.
  set (u := 2 ^ (e - 52)).
  assert (0 < u) as Hu by (apply Z.pow_pos_nonneg; lia).
  assert (2 ^ e = 2 ^ 52 * u) as Hpow.
  { unfold u. rewrite <- Z.pow_add_r by lia. f_equal. lia. }
  assert (2 ^ (e + 1) = 2 ^ 53 * u) as Hpow'.
  { unfold u. rewrite <- Z.pow_add_r by lia. f_equal. lia. }
  assert (2 ^ 52 ≤ m / u) as Hq1.
  { apply Z.div_le_lower_bound; lia. }
  assert (m / u < 2 ^ 53) as Hq2.
  { apply Z.div_lt_upper_bound; lia. }
  rewrite Hpow, Hpow'.
  destruct (round_up u (m / u) (m mod u)); nia.
Qed.

Lemma round_up_mono u q r r' :
  r ≤ r' → round_up u q r = true → round_up u q r' = true.
Proof.
  unfold round_up. intros Hr.
  destruct (Z.ltb_spec u (2 * r)), (Z.ltb_spec u (2 * r')),
    (Z.eqb_spec u (2 * r)), (Z.eqb_spec u (2 * r')); simpl; try done; try lia.
Qed.

Lemma nearest_mono a b : 2 ^ 53 ≤ a → a ≤ b → nearest a ≤ nearest b.
Proof.
  intros Ha Hab.
  assert (Z.log2 a ≤ Z.log2 b) as Hlog by (by apply Z.log2_le_mono).
  destruct (Z.eq_dec (Z.log2 a) (Z.log2 b)) as [Heq|Hne].
  - unfold nearest. rewrite Heq.
    set (u := 2 ^ (Z.log2 b - 52)).
    assert (53 ≤ Z.log2 b) as He.
    { rewrite <- Heq. change 53 with (Z.log2 (2 ^ 53)). by apply Z.log2_le_mono. }
    assert (0 < u) as Hu by (apply Z.pow_pos_nonneg; lia).
    pose proof (Z.div_mod a u ltac:(lia)) as Hda.
    pose proof (Z.div_mod b u ltac:(lia)) as Hdb.
    pose proof (Z.mod_pos_bound a u Hu) as Hra.
    pose proof (Z.mod_pos_bound b u Hu) as Hrb.
    assert (a / u ≤ b / u) as Hq by (apply Z.div_le_mono; lia).
    destruct (Z.eq_dec (a / u) (b / u)) as [Hqe|Hqne].
    + rewrite Hqe in *.
      assert (a mod u ≤ b mod u) as Hr by lia.
      destruct (round_up u (b / u) (a mod u)) eqn:Hup.
      * rewrite (round_up_mono _ _ _ _ Hr Hup). lia.
      * destruct (round_up u (b / u) (b mod u)); nia.
    + destruct (round_up u (a / u) (a mod u)), (round_up u (b / u) (b mod u)); nia.
  - pose proof (nearest_bounds a Ha) as [_ Hup].
    pose proof (nearest_bounds b ltac:(lia)) as [Hlo _].
    assert (2 ^ (Z.log2 a + 1) ≤ 2 ^ Z.log2 b).
    { apply Z.pow_le_mono_r; lia. }
    lia.
Qed.

Lemma to_double_mono a b : a ≤ b → to_double a ≤ to_double b.
Proof.
  intros Hab.
  destruct (Z.lt_ge_cases (Z.abs a) (2 ^ 53)) as [Ha|Ha],
           (Z.lt_ge_cases (Z.abs b) (2 ^ 53)) as [Hb|Hb].
  - unfold to_double.
    destruct (Z.ltb_spec (Z.abs a) (2 ^ 53)); [|lia].
    destruct (Z.ltb_spec (Z.abs b) (2 ^ 53)); [|lia]. exact Hab.
  - rewrite (to_double_nearest b Hb).
    assert (to_double a = a) as ->.
    { unfold to_double. by destruct (Z.ltb_spec (Z.abs a) (2 ^ 53)); [|lia]. }
    assert (0 < b) by lia.
    pose proof (nearest_bounds (Z.abs b) Hb) as [Hlo _].
    assert (2 ^ 53 ≤ 2 ^ Z.log2 (Z.abs b)).
    { apply Z.pow_le_mono_r; [lia|]. change 53 with (Z.log2 (2 ^ 53)).
      by apply Z.log2_le_mono. }
    rewrite Z.sgn_pos by lia. lia.
  - rewrite (to_double_nearest a Ha).
    assert (to_double b = b) as ->.
    { unfold to_double. by destruct (Z.ltb_spec (Z.abs b) (2 ^ 53)); [|lia]. }
    assert (a < 0) by lia.
    pose proof (nearest_bounds (Z.abs a) Ha) as [Hlo _].
    assert (2 ^ 53 ≤ 2 ^ Z.log2 (Z.abs a)).
    { apply Z.pow_le_mono_r; [lia|]. change 53 with (Z.log2 (2 ^ 53)).
      by apply Z.log2_le_mono. }
    rewrite Z.sgn_neg by lia. lia.
  - rewrite (to_double_nearest a Ha), (to_double_nearest b Hb).
    pose proof (nearest_bounds (Z.abs a) Ha) as [Hla _].
    pose proof (nearest_bounds (Z.abs b) Hb) as [Hlb _].
    assert (0 < 2 ^ Z.log2 (Z.abs a)) by (apply Z.pow_pos_nonneg; [lia|apply Z.log2_nonneg]).
    assert (0 < 2 ^ Z.log2 (Z.abs b)) by (apply Z.pow_pos_nonneg; [lia|apply Z.log2_nonneg]).
    destruct (Z.lt_trichotomy a 0) as [Hsa|[->|Hsa]]; [| simpl in Ha; lia |];
    destruct (Z.lt_trichotomy b 0) as [Hsb|[->|Hsb]]; try (simpl in Hb; lia); try lia.
    + rewrite (Z.sgn_neg a), (Z.sgn_neg b) by lia.
      pose proof (nearest_mono (Z.abs b) (Z.abs a) Hb ltac:(lia)). lia.
    + rewrite (Z.sgn_pos a), (Z.sgn_pos b) by lia.
      pose proof (nearest_mono (Z.abs a) (Z.abs b) Ha ltac:(lia)). lia.
Qed.

(** Beyond 2^53 a double keeps the sign of the integer and is no smaller in
    magnitude than 2^53. *)
Lemma to_double_large z :
  2 ^ 53 ≤ Z.abs z →
  (0 < z → 2 ^ 53 ≤ to_double z) ∧ (z < 0 → to_double z ≤ - 2 ^ 53).
Proof.
  intros Hz. rewrite (to_double_nearest z Hz).
  pose proof (nearest_bounds (Z.abs z) Hz) as [Hlo _].
  assert (2 ^ 53 ≤ 2 ^ Z.log2 (Z.abs z)).
  { apply Z.pow_le_mono_r; [lia|]. change 53 with (Z.log2 (2 ^ 53)).
    by apply Z.log2_le_mono. }
  split; intros Hsign.
  - rewrite Z.sgn_pos by done. lia.
  - rewrite Z.sgn_neg by done. lia.
Qed.

Lemma judged_small floats z : Z.abs z ≤ 2 ^ 53 → judged floats z = z.
Proof. intros Hz. unfold judged. destruct floats; [by apply to_double_small|done]. Qed.

(** Rounding keeps the order, and so tells apart only what differs. *)
Lemma judged_mono floats a b : a ≤ b → judged floats a ≤ judged floats b.
Proof. intros Hab. unfold judged. destruct floats; [by apply to_double_mono|done]. Qed.

Lemma judged_lt floats a b : judged floats a < judged floats b → a < b.
Proof.
  intros Hlt. destruct (Z.lt_ge_cases a b) as [|Hge]; [done|].
  pose proof (judged_mono floats b a Hge). lia.
Qed.

(** The critical floor is judged on doubles as on integers. *)
Lemma judged_le_10 floats z : judged floats z ≤ 10 ↔ z ≤ 10.
Proof.
  unfold judged. destruct floats; [|done].
  destruct (Z.le_gt_cases (Z.abs z) (2 ^ 53)) as [Hsmall|Hlarge].
  - by rewrite to_double_small.
  - destruct (to_double_large z) as [Hpos Hneg]; [lia|].
    destruct (Z.lt_trichotomy z 0) as [Hz|[->|Hz]]; [| |].
    + specialize (Hneg Hz). lia.
    + simpl in Hlarge. lia.
    + specialize (Hpos Hz). lia.
Qed.

Lemma status_of_judged_Critical floats a r :
  status_of (judged floats a) (judged floats r) = "Critical" ↔ a ≤ 10.
Proof.
  rewrite <- (judged_le_10 floats a). unfold status_of.
  destruct (Z.leb_spec (judged floats a) 10); [by split|].
  split; [|lia]. by destruct (judged floats a <? judged floats r).
Qed.

Lemma status_of_judged_small floats a r :
  Z.abs a ≤ 2 ^ 53 → Z.abs r ≤ 2 ^ 53 →
  status_of (judged floats a) (judged floats r) = status_of a r.
Proof. intros Ha Hr. by rewrite !judged_small. Qed.

Lemma status_of_judged_Low floats a r :
  status_of (judged floats a) (judged floats r) = "Low Stock" → 10 < a < r.
Proof.
  intros Hs. pose proof (judged_le_10 floats a) as H10.
  unfold status_of in Hs.
  destruct (Z.leb_spec (judged floats a) 10); [done|].
  destruct (Z.ltb_spec (judged floats a) (judged floats r)) as [Hlt|]; [|done].
  apply judged_lt in Hlt. lia.
Qed.

Lemma status_of_judged_In floats a r :
  status_of (judged floats a) (judged floats r) = "In Stock" →
  10 < a ∧ judged floats r ≤ judged floats a.
Proof.
  intros Hs. pose proof (judged_le_10 floats a) as H10.
  unfold status_of in Hs.
  destruct (Z.leb_spec (judged floats a) 10); [done|].
  destruct (Z.ltb_spec (judged floats a) (judged floats r)) as [Hlt|]; [done|]. lia.
Qed.

Lemma status_of_values a r : status_of a r ∈ ["Critical"; "Low Stock"; "In Stock"].
Proof.
  unfold status_of. destruct (a <=? 10); [|destruct (a <? r)]; set_solver.
Qed.

Section Canonical.
Variable pd : library.

Lemma canonical_fields cols floats row row' :
  length row = length cols → AvailableStock ∈ cols →
  canonical pd cols floats row row' →
  ∃ a r,
    astype_int_value pd (coerce pd (default NaN (row_get cols row AvailableStock)))
      = Returned a ∧
    astype_int_value pd
      (coerce pd
         (if bool_decide (RestockLevel ∈ cols)
          then default NaN (row_get cols row RestockLevel) else CInt 10)) = Returned r ∧
    row_get (assigned_columns (assigned_columns cols RestockLevel) Status) row' AvailableStock
      = Some (CInt a) ∧
    row_get (assigned_columns (assigned_columns cols RestockLevel) Status) row' RestockLevel
      = Some (CInt r) ∧
    row_get (assigned_columns (assigned_columns cols RestockLevel) Status) row' Status
      = Some (CStr (status_of (judged floats a) (judged floats r))) ∧
    ∀ i, (i < length cols)%nat →
         cols !! i ≠ Some AvailableStock → cols !! i ≠ Some RestockLevel →
         cols !! i ≠ Some Status → row' !! i = row !! i.
Proof.
  intros Hlen HinA (a & r & Ha & Hr & ->). exists a, r.
  set (cols3 := assigned_columns cols RestockLevel).
  set (row3 := if bool_decide (RestockLevel ∈ cols) then row else row ++ [CInt 10]).
  assert (length row3 = length cols3) as Hlen3.
  { unfold row3, cols3, assigned_columns. case_bool_decide; [done|].
    rewrite !length_app. simpl. lia. }
  assert (AvailableStock ∈ cols3) as HinA3.
  { unfold cols3, assigned_columns. case_bool_decide; set_solver. }
  assert (length (row_set cols3 RestockLevel (CInt r)
            (row_set cols3 AvailableStock (CInt a) row3)) = length cols3) as Hlen5.
  { by rewrite !row_set_length. }
  do 2 (split; [done|]). split; [|split; [|split]].
  - rewrite row_get_row_assign_ne by done.
    rewrite row_get_row_set_ne by done. by apply row_get_row_set_eq.
  - rewrite row_get_row_assign_ne by done.
    apply row_get_row_set_eq; [apply assigned_columns_elem|]. by rewrite row_set_length.
  - by apply row_get_row_assign_eq.
  - intros i Hi HA HR HS.
    assert (cols3 !! i = cols !! i) as Hi3 by by apply assigned_columns_lookup.
    rewrite row_assign_lookup_ne; [|rewrite Hlen5; pose proof (assigned_columns_length cols RestockLevel); unfold cols3; lia|congruence].
    rewrite !row_set_lookup_ne by congruence.
    unfold row3. case_bool_decide; [done|]. apply lookup_app_l. lia.
Qed.

End Canonical.

(** ** When the normaliser goes through *)

Lemma mapM_total {A B} (f : A → outcome B) (l : list A) :
  Forall (λ x, ∃ y, f x = Returned y) l → ∃ k, mapM f l = Returned k.
Proof.
  induction 1 as [|x l [y Hy] _ [k Hk]]; simpl; [by exists []|].
  exists (y :: k). by rewrite Hy, Hk.
Qed.

Lemma row_get_default_restock_ne cols row c :
  length row = length cols → c ≠ RestockLevel →
  row_get (assigned_columns cols RestockLevel)
    (if bool_decide (RestockLevel ∈ cols) then row else row ++ [CInt 10]) c
  = row_get cols row c.
Proof.
  intros Hlen Hne. unfold assigned_columns, row_get. case_bool_decide; [done|].
  rewrite row_cells_snoc; [|done]. rewrite decide_False; [|done]. by rewrite app_nil_r.
Qed.

Lemma row_get_default_restock_eq cols row :
  length row = length cols →
  row_get (assigned_columns cols RestockLevel)
    (if bool_decide (RestockLevel ∈ cols) then row else row ++ [CInt 10]) RestockLevel
  = if bool_decide (RestockLevel ∈ cols) then row_get cols row RestockLevel
    else Some (CInt 10).
Proof.
  intros Hlen. unfold assigned_columns, row_get. case_bool_decide; [done|].
  rewrite row_cells_snoc; [|done]. rewrite row_cells_absent; [|done].
  by rewrite decide_True.
Qed.

Lemma default_restock_length (cols : list string) (row : list cell) :
  length row = length cols →
  length (if bool_decide (RestockLevel ∈ cols) then row else row ++ [CInt 10])
  = length (assigned_columns cols RestockLevel).
Proof.
  intros Hlen. unfold assigned_columns. case_bool_decide; [done|].
  by rewrite !length_app, Hlen.
Qed.

Lemma filter_assigned_columns_eq (cols : list string) c :
  (length (filter (λ x, x = c) cols) ≤ 1)%nat →
  filter (λ x, x = c) (assigned_columns cols c) = [c].
Proof.
  intros Hlen. unfold assigned_columns. case_bool_decide as Hin.
  - assert (c ∈ filter (λ x, x = c) cols) as Hc by by apply list_elem_of_filter.
    destruct (filter (λ x, x = c) cols) as [|x [|y l]] eqn:Hf; simpl in Hlen; [|..|lia].
    + by apply elem_of_nil in Hc.
    + by apply list_elem_of_singleton in Hc as ->.
  - rewrite filter_app, filter_cons_True, filter_nil by done.
    assert (filter (λ x, x = c) cols = []) as ->; [|done].
    destruct (filter (λ x, x = c) cols) as [|x l] eqn:Hf; [done|].
    assert (x ∈ filter (λ x, x = c) cols) as Hx by (rewrite Hf; left).
    apply list_elem_of_filter in Hx as [-> ?]. done.
Qed.

Section Totality.
Variable pd : library.

Lemma force_numbers_total c df :
  filter (λ c', c' = c) (columns df) = [c] →
  Forall (reads_finite pd (columns df) c) (rows df) →
  ∃ df', force_numbers pd c df = Returned df'.
Proof.
  intros Hone Hfin. unfold force_numbers, Pandas.getitem. rewrite Hone. simpl.
  destruct (mapM_total (astype_int_value pd)
              (fillna0 (to_numeric_cell (parse_number pd) <$>
                 ((λ row, default NaN (row_get (columns df) row c)) <$> rows df))))
    as [ints Hints].
  { unfold fillna0. rewrite <- !list_fmap_compose. apply Forall_fmap.
    eapply Forall_impl; [exact Hfin|]. intros row [q Hq]. simpl.
    exists (int64_of pd q). unfold coerce in Hq. by rewrite Hq. }
  unfold astype_int. rewrite Hints. simpl. eauto.
Qed.

Lemma normalize_goes_through raw :
  rectangular raw → normalizable pd raw →
  ∃ out, normalize pd raw = Returned (out, []).
Proof.
  intros Hrect (Hlen & HoneA & HoneR & HfinA & HfinR & Hempty).
  pose proof (rectangular_reconciled pd raw Hrect) as Hrs.
  destruct (lookup_lt_is_Some_2 (columns raw) 0%nat) as [first Hfirst]; [lia|].
  destruct (lookup_lt_is_Some_2 (columns raw) 1%nat) as [second Hsecond]; [lia|].
  unfold normalize, column_label. rewrite Hfirst, Hsecond. simpl.
  rewrite <- (take_2_labels _ _ _ Hfirst Hsecond).
  change (rename _ _) with (reconciled pd raw).
  set (src := reconciled pd raw) in *.
  assert (has_column AvailableStock src = true) as ->.
  { apply bool_decide_eq_true. by apply elem_of_filter_singleton. }
  simpl.
  destruct (default_restock src) as (Hc3 & Hr3).
  set (df3 := if negb (has_column RestockLevel src)
              then setitem_scalar src RestockLevel (CInt 10) else src) in *.
  assert (rectangular df3) as Hrect3.
  { unfold rectangular. rewrite Hc3, Hr3. apply Forall_fmap.
    eapply Forall_impl; [exact Hrs|]. intros row Hrow.
    cbv beta in Hrow. unfold compose. cbv beta.
    unfold assigned_columns. case_bool_decide; [exact Hrow|].
    rewrite !length_app. by rewrite Hrow. }
  assert (Forall2 (λ row row3, length row = length (columns src) ∧
             row3 = if bool_decide (RestockLevel ∈ columns src) then row else row ++ [CInt 10])
            (rows src) (rows df3)) as Hrows3.
  { rewrite Hr3. apply Forall2_fmap_r, Forall_Forall2_diag.
    eapply Forall_impl; [exact Hrs|]. by intros row Hrow. }
  assert (length (columns src) ≤ length (columns df3))%nat as Hlen3.
  { rewrite Hc3. apply assigned_columns_length. }
  (* the stock column *)
  destruct (force_numbers_total AvailableStock df3) as [df4 H4].
  { rewrite Hc3. by rewrite filter_assigned_columns. }
  { eapply Forall2_Forall_r; [exact Hrows3|].
    eapply Forall_impl; [exact HfinA|]. intros row [q Hq] row3 [Hlen' ->].
    exists q. rewrite Hc3. by rewrite row_get_default_restock_ne. }
  rewrite H4. simpl.
  apply force_numbers_Returned in H4 as (HinA & _ & Hc4 & Hrows4).
  (* the restock column *)
  destruct (force_numbers_total RestockLevel df4) as [df5 H5].
  { rewrite Hc4, Hc3. by apply filter_assigned_columns_eq. }
  { eapply Forall2_Forall_r; [exact (Forall2_chain _ _ _ _ _ Hrows3 Hrows4)|].
    apply Forall_forall. intros row Hrow row4 (row3 & [Hlen' ->] & (a & _ & ->)).
    rewrite Hc4, Hc3. unfold reads_finite.
    rewrite row_get_row_set_ne by done. rewrite row_get_default_restock_eq by done.
    case_bool_decide as Hin; [|by eexists].
    specialize (HfinR Hin). rewrite Forall_forall in HfinR. by apply HfinR. }
  rewrite H5. simpl.
  apply force_numbers_Returned in H5 as (HinR & _ & Hc5 & Hrows5).
  rewrite Hc4, Hc3 in *.
  (* the status *)
  unfold apply_rows.
  set (floats := float_values df5).
  destruct (rows df5) as [|r5 rs5] eqn:Hr5.
  { apply Forall2_nil_inv_r in Hrows5. rewrite Hrows5 in Hrows4.
    apply Forall2_nil_inv_r in Hrows4. rewrite Hrows4 in Hrows3.
    apply Forall2_nil_inv_r in Hrows3. rewrite (Hempty Hrows3). simpl. eauto. }
  rewrite <- Hr5 in Hrows5 |- *.
  destruct (mapM_total (λ row, status_lambda (columns df5) (row_values floats row))
              (rows df5)) as [sts Hsts].
  { eapply Forall2_Forall_r;
      [exact (Forall2_chain _ _ _ _ _ Hrows3 (Forall2_chain _ _ _ _ _ Hrows4 Hrows5))|].
    apply Forall_forall.
    intros row Hrow row5 (row3 & [Hlen' ->] & row4 & (a & _ & ->) & (r & _ & ->)).
    exists (CStr (status_of (judged floats a) (judged floats r))). rewrite Hc5.
    apply status_lambda_judged.
    - rewrite row_get_row_set_ne by done. apply row_get_row_set_eq; [done|].
      by apply default_restock_length.
    - apply row_get_row_set_eq; [done|]. rewrite row_set_length.
      by apply default_restock_length. }
  rewrite Hsts. simpl. eauto.
Qed.

Lemma astype_int_value_Returned x z :
  astype_int_value pd x = Returned z → ∃ q, x = Fin q.
Proof. destruct x; [eauto|done]. Qed.

Lemma normalizable_iff raw :
  rectangular raw →
  normalizable pd raw ↔ ∃ out, normalize pd raw = Returned (out, []).
Proof.
  intros Hrect. split; [by apply normalize_goes_through|].
  intros [out Hout].
  apply normalize_Returned in Hout
    as [Hlen [(_ & [=] & _)|(_ & HA & HR & _ & Hempty & floats & Hrows)]]; [|done].
  pose proof (rectangular_reconciled pd raw Hrect) as Hrs.
  assert (AvailableStock ∈ columns (reconciled pd raw)) as HinA
    by by apply elem_of_filter_singleton.
  assert (Forall (λ row, ∃ row', length row = length (columns (reconciled pd raw)) ∧
                    canonical pd (columns (reconciled pd raw)) floats row row')
            (rows (reconciled pd raw))) as Hcan.
  { eapply Forall2_Forall_l; [exact (Forall2_with_l _ _ _ _ Hrs Hrows)|].
    apply Forall_forall. intros row' _ row [??]. eauto. }
  split; [done|]. split; [done|]. split; [|split; [|split; [|done]]].
  - unfold assigned_columns in HR. case_bool_decide as Hin; [by rewrite HR|].
    destruct (filter (λ c, c = RestockLevel) (columns (reconciled pd raw)))
      as [|x l] eqn:Hf; [simpl; lia|].
    assert (x ∈ filter (λ c, c = RestockLevel) (columns (reconciled pd raw))) as Hx
      by (rewrite Hf; left).
    by apply list_elem_of_filter in Hx as [-> ?].
  - eapply Forall_impl; [exact Hcan|]. intros row (row' & Hlen' & Hc).
    apply canonical_fields in Hc as (a & r & Ha & _); [|done..].
    by apply astype_int_value_Returned in Ha.
  - intros HinR. eapply Forall_impl; [exact Hcan|]. intros row (row' & Hlen' & Hc).
    apply canonical_fields in Hc as (a & r & _ & Hr & _); [|done..].
    rewrite bool_decide_true in Hr by done.
    by apply astype_int_value_Returned in Hr.
Qed.

End Totality.

(** X22.  Status derivation within the precision of doubles.  In every row
    of the table that [load_data_from_gsheet] returns, the two quantities are
    integers and the status is text; the status is 'Critical' exactly when
    the stock is at most 10, and otherwise it is 'Low Stock' or 'In Stock';
    a 'Low Stock' row has its stock below its restock level.  When both
    quantities are at most 2^53 in magnitude the status is the value the
    three-way rule gives for them: Critical iff the stock is at most 10,
    else Low Stock iff the stock is below the restock level, else
    In Stock. *)
Theorem status_within_double_precision pd w out msgs :
  reads_rectangular w →
  load_data_from_gsheet pd w = Returned (out, msgs) →
  Forall (λ row,
    ∃ a r s,
      row_get (columns out) row AvailableStock = Some (CInt a) ∧
      row_get (columns out) row RestockLevel = Some (CInt r) ∧
      row_get (columns out) row Status = Some (CStr s) ∧
      s ∈ ["Critical"; "Low Stock"; "In Stock"] ∧
      (s = "Critical" ↔ a ≤ 10) ∧
      (s = "Low Stock" → 10 < a < r) ∧
      (Z.abs a ≤ 2 ^ 53 → Z.abs r ≤ 2 ^ 53 →
       s = status_of a r ∧ status_rule a r s)) (rows out).
Proof.
  intros Hw [[-> _]|(raw & Hraw & Hnorm)]%load_Returned; [simpl; by apply Forall_nil_2|].
  assert (rectangular raw) as Hrect.
  { destruct Hraw as (? & ? & sid & _ & _ & _ & _ & Hread). by eapply Hw. }
  apply normalize_Returned in Hnorm
    as [_ [(-> & _)|(_ & HA & _ & Hcols & _ & floats & Hrows)]];
    [simpl; by apply Forall_nil_2| |done].
  eapply Forall2_Forall_r; [exact Hrows|].
  pose proof (rectangular_reconciled pd raw Hrect) as Hrs.
  eapply Forall_impl; [exact Hrs|].
  intros row Hlen row' Hcan. simpl in Hlen.
  apply canonical_fields in Hcan as (a & r & _ & _ & Ha & Hr & Hs & _);
    [|done|by apply elem_of_filter_singleton].
  rewrite Hcols. exists a, r, (status_of (judged floats a) (judged floats r)).
  do 3 (split; [done|]). split; [apply status_of_values|].
  split; [apply status_of_judged_Critical|]. split; [apply status_of_judged_Low|].
  intros Hsmall_a Hsmall_r. rewrite status_of_judged_small by done.
  split; [done|]. apply status_of_rule.
Qed.

(** ** Required and defaulted columns *)

Lemma aliases_of_column_map f aliases : (f, aliases) ∈ column_map → aliases_of f = aliases.
Proof.
  intros H. apply list_elem_of_In in H. simpl in H.
  destruct H as [[= <- <-]|[[= <- <-]|[[= <- <-]|[[= <- <-]|[]]]]]; reflexivity.
Qed.

Section Outcomes.
Variable pd : library.

Lemma no_alias_present_first field headers :
  no_alias_present pd field headers → first_present pd (aliases_of field) headers = None.
Proof.
  unfold no_alias_present, first_present. intros H.
  induction H as [|a l Ha _ IH]; simpl; [done|].
  by rewrite bool_decide_false.
Qed.

Lemma reconciled_label raw c :
  c ∈ columns (reconciled pd raw) →
  (c ∈ columns raw ∧ rename_dict pd (columns raw) !! c = None) ∨
  (∃ header a, header ∈ columns raw ∧ rename_dict pd (columns raw) !! header = Some c ∧
               first_present pd (aliases_of c) (columns raw) = Some a).
Proof.
  rewrite columns_reconciled. intros (header & -> & Hin)%list_elem_of_fmap.
  destruct (rename_dict pd (columns raw) !! header) as [f|] eqn:Hrd; simpl.
  - right. pose proof Hrd as (aliases & Hmap & Hsel)%rename_dict_lookup.
    rewrite selected_header_current_cols in Hsel.
    rewrite (aliases_of_column_map _ _ Hmap).
    destruct (first_present pd aliases (columns raw)) as [a|]; [eauto|done].
  - left. split; [done|]. exact Hrd.
Qed.

Lemma no_stock_column raw :
  no_alias_present pd AvailableStock (columns raw) → AvailableStock ∉ columns raw →
  AvailableStock ∉ columns (reconciled pd raw).
Proof.
  intros Hno%no_alias_present_first Hlit [[? _]|(h & a & _ & _ & Hfp)]%reconciled_label;
    [done|congruence].
Qed.

Lemma no_restock_column raw :
  no_alias_present pd RestockLevel (columns raw) → RestockLevel ∉ columns (reconciled pd raw).
Proof.
  intros Hno [[Hlit _]|(h & a & _ & _ & Hfp)]%reconciled_label.
  - unfold no_alias_present in Hno. rewrite Forall_forall in Hno.
    apply (Hno (normalize_header pd RestockLevel)).
    + apply (bool_decide_unpack _). by vm_compute.
    + by apply list_elem_of_fmap_2.
  - apply no_alias_present_first in Hno. congruence.
Qed.

Lemma normalize_no_stock raw :
  (2 ≤ length (columns raw))%nat → AvailableStock ∉ columns (reconciled pd raw) →
  normalize pd raw = Returned (empty_frame, [stock_column_error]).
Proof.
  intros Hlen Hno. unfold normalize, column_label.
  destruct (columns raw) as [|first [|second rest]] eqn:Hcols; simpl in Hlen; [lia..|].
  simpl.
  assert (has_column AvailableStock
            (rename (rename_dict pd (columns raw)) (dropna [first; second] raw)) = false) as ->.
  { apply bool_decide_eq_false. exact Hno. }
  done.
Qed.

Lemma normalize_narrow raw :
  (length (columns raw) < 2)%nat →
  ∃ e, normalize pd raw = Raised e ∧ exn_class e = "IndexError".
Proof.
  intros Hlen. unfold normalize, column_label.
  destruct (columns raw) as [|first [|second rest]]; simpl in *; [eauto..|lia].
Qed.

Lemma load_fetches_Returned w raw out msgs :
  fetches w raw →
  load_data_from_gsheet pd w = Returned (out, msgs) →
  normalize pd raw = Returned (out, msgs) ∨
  (out = empty_frame ∧ ∃ m, msgs = [m]).
Proof.
  intros Hraw. rewrite (load_fetches _ _ _ Hraw). unfold try_except.
  destruct (normalize pd raw) as [[out' msgs']|e]; intros [= <- <-]; eauto.
Qed.

Lemma load_success w raw out :
  fetches w raw →
  load_data_from_gsheet pd w = Returned (out, []) →
  normalize pd raw = Returned (out, []).
Proof.
  intros Hraw [?|[_ [m ?]]]%(load_fetches_Returned _ raw); done.
Qed.

Lemma coerce_integer x z :
  astype_int_value pd (coerce pd x) = Returned z → integer_coercion pd x z.
Proof.
  unfold coerce, integer_coercion.
  destruct (to_numeric_cell (parse_number pd) x) as [[q|b]|]; simpl; [|done|].
  - intros [= <-]. split; [apply in_int64_int64_of|]. split; [apply int64_of_fits|].
    unfold int64_of. by intros ->.
  - by intros [= <-].
Qed.

Lemma row_get_is_Some cols row c :
  c ∈ cols → length row = length cols → ∃ x, row_get cols row c = Some x.
Proof.
  intros Hin Hlen. unfold row_get.
  pose proof (row_cells_nonempty cols c row Hin Hlen).
  destruct (row_cells cols row c) as [|x l]; [done|]. by exists x.
Qed.

End Outcomes.

(** C5, as amended.  When no source header is the normal form of an alias of
    Available Stock and no source header is literally 'Available Stock', the
    function returns the empty table together with exactly one error
    message, and it raises nothing; for a sheet of at least two columns the
    message is the one saying that no stock column was detected. *)
Theorem missing_stock_column_is_reported pd w raw :
  fetches w raw →
  no_alias_present pd AvailableStock (columns raw) →
  AvailableStock ∉ columns raw →
  ∃ m, load_data_from_gsheet pd w = Returned (empty_frame, [m]) ∧
       ((2 ≤ length (columns raw))%nat → m = stock_column_error).
Proof.
  intros Hraw Hno Hlit. rewrite (load_fetches _ _ _ Hraw).
  destruct (decide (2 ≤ length (columns raw))%nat) as [Hlen|Hlen].
  - rewrite normalize_no_stock; [|done|by apply no_stock_column]. simpl. eauto.
  - destruct (normalize_narrow pd raw) as (e & -> & _); [lia|].
    simpl. eexists. split; [done|]. intros; lia.
Qed.


(** ** Coercion and passthrough *)

(** C2, as amended.  The function returns a table without reporting an
    error exactly on the normalisable sheets: two columns at least, one
    stock column and at most one restock column after renaming, no infinite
    value in either (an infinite value makes the conversion to integers
    raise, which is reported as an error), and a row left after pruning
    unless the library copes with none.  Every row of a table so returned
    holds 64-bit integers under 'Available Stock' and 'Restock Level'.  Each
    is read off the cell of the pruned and renamed source row: 0 when the
    cell is no number (text that does not parse, or a missing value);
    otherwise the integral part of the number, with its sign, when that
    fits in 64 bits, and the 64-bit integer that the platform's conversion
    yields when it does not.  A restock level that has no source column is
    10.  Nothing bounds the integers from below within the 64-bit range. *)
Theorem quantities_are_coerced_integers pd w raw :
  fetches w raw → rectangular raw →
  (normalizable pd raw ↔ ∃ out, load_data_from_gsheet pd w = Returned (out, [])) ∧
  ∀ out,
    load_data_from_gsheet pd w = Returned (out, []) →
    Forall2 (λ src row,
      (∃ x a, row_get (columns (reconciled pd raw)) src AvailableStock = Some x ∧
              row_get (columns out) row AvailableStock = Some (CInt a) ∧
              integer_coercion pd x a) ∧
      (∃ r, row_get (columns out) row RestockLevel = Some (CInt r) ∧
            if bool_decide (RestockLevel ∈ columns (reconciled pd raw))
            then ∃ y, row_get (columns (reconciled pd raw)) src RestockLevel = Some y ∧
                      integer_coercion pd y r
            else r = 10))
      (rows (reconciled pd raw)) (rows out).
Proof.
  intros Hraw Hrect. split.
  { rewrite (normalizable_iff pd raw Hrect). split; intros [out Hout]; exists out.
    - by rewrite (load_fetches _ _ _ Hraw), Hout.
    - by apply (load_success pd w). }
  intros out Hnorm%(load_success pd w raw); [|done].
  apply normalize_Returned in Hnorm
    as [_ [(_ & [=] & _)|(_ & HA & HR & Hcols & _ & floats & Hrows)]]; [|done].
  pose proof (rectangular_reconciled pd raw Hrect) as Hrs.
  apply elem_of_filter_singleton in HA.
  eapply Forall2_impl; [exact (Forall2_with_l _ _ _ _ Hrs Hrows)|].
  intros src row [Hlen Hcan]. simpl in Hlen.
  apply canonical_fields in Hcan as (a & r & Ha & Hr & Hga & Hgr & _); [|done..].
  rewrite Hcols. split.
  - destruct (row_get_is_Some _ src AvailableStock HA Hlen) as [x Hx].
    rewrite Hx in Ha. exists x, a. by split; [|split; [|apply coerce_integer]].
  - exists r. split; [done|]. case_bool_decide as Hin.
    + destruct (row_get_is_Some _ src RestockLevel Hin Hlen) as [y Hy].
      rewrite Hy in Hr. exists y. split; [done|]. by apply coerce_integer.
    + by simplify_eq/=.
Qed.

(** X23.  What the normaliser leaves alone.  On a normalisable sheet the
    function returns a table, without reporting an error, in which the source
    columns keep their positions, a column whose header is a key of the
    renaming taking the canonical name recorded for it, every other column
    keeping its own name.  In each row that survives pruning, every source
    column whose name after renaming is none of 'Available Stock',
    'Restock Level' and 'Status' holds the value it had in the source. *)
Theorem other_columns_pass_through pd w raw :
  fetches w raw → rectangular raw → normalizable pd raw →
  ∃ out,
    load_data_from_gsheet pd w = Returned (out, []) ∧
    ((λ c, default c (rename_dict pd (columns raw) !! c)) <$> columns raw)
      `prefix_of` columns out ∧
    Forall2 (λ src row,
      ∀ i c, columns raw !! i = Some c →
             default c (rename_dict pd (columns raw) !! c)
               ∉ [AvailableStock; RestockLevel; Status] →
             row !! i = src !! i)
      (rows (dropna (take 2 (columns raw)) raw)) (rows out).
Proof.
  intros Hraw Hrect [out Hnorm]%normalize_goes_through; [|done].
  exists out. split; [by rewrite (load_fetches _ _ _ Hraw), Hnorm|].
  apply normalize_Returned in Hnorm
    as [_ [(_ & [=] & _)|(_ & HA & HR & Hcols & _ & floats & Hrows)]]; [|done].
  pose proof (rectangular_reconciled pd raw Hrect) as Hrs.
  apply elem_of_filter_singleton in HA.
  split.
  - rewrite Hcols, <- columns_reconciled.
    etrans; apply assigned_columns_prefix.
  - change (rows (dropna (take 2 (columns raw)) raw)) with (rows (reconciled pd raw)).
    eapply Forall2_impl; [exact (Forall2_with_l _ _ _ _ Hrs Hrows)|].
    intros src row [Hlen Hcan] i c Hi Hc. simpl in Hlen.
    apply canonical_fields in Hcan as (a & r & _ & _ & _ & _ & _ & Hframe); [|done..].
    assert (columns (reconciled pd raw) !! i
            = Some (default c (rename_dict pd (columns raw) !! c))) as Hi'.
    { rewrite columns_reconciled, list_lookup_fmap, Hi. done. }
    apply Hframe.
    + apply lookup_lt_Some in Hi'. done.
    + rewrite Hi'. intros [= Heq]. apply Hc. rewrite Heq. repeat constructor.
    + rewrite Hi'. intros [= Heq]. apply Hc. rewrite Heq. repeat constructor.
    + rewrite Hi'. intros [= Heq]. apply Hc. rewrite Heq. repeat constructor.
Qed.

(** ** Critical items *)

Lemma select_rows_filter (df : DataFrame) (p : list cell → bool) :
  select_rows df (p <$> rows df) = Frame (columns df) (filter (λ row, p row = true) (rows df)).
Proof.
  unfold select_rows. f_equal.
  induction (rows df) as [|row l IH]; [done|]. csimpl.
  rewrite filter_cons. simpl. rewrite (filter_cons _ row).
  destruct (decide (p row = true)) as [->|Hp]; csimpl.
  - by rewrite IH.
  - destruct (p row); [done|]. simpl. exact IH.
Qed.

Section Critical.
Variable pd : library.

Lemma get_critical_items_empty d threshold :
  empty d = true → get_critical_items pd (Some d) threshold = Returned [].
Proof. intros Hd. unfold get_critical_items. by rewrite Hd. Qed.

Lemma get_critical_items_no_column d threshold :
  has_column AvailableStock d = false →
  get_critical_items pd (Some d) threshold = Returned [].
Proof. intros Hd. unfold get_critical_items. rewrite Hd. by destruct (empty d). Qed.

Lemma get_critical_items_one_column d threshold n :
  empty d = false →
  filter (λ c, c = AvailableStock) (columns d) = [AvailableStock] →
  py_int threshold = Returned n →
  get_critical_items pd (Some d) threshold =
  Returned (to_record (columns d) <$>
    filter (λ row,
      number_le (coerce pd (default NaN (row_get (columns d) row AvailableStock)))
        n = true) (rows d)).
Proof.
  intros Hd Hone Hint. unfold get_critical_items. rewrite Hd.
  assert (has_column AvailableStock d = true) as ->.
  { apply bool_decide_eq_true. by apply elem_of_filter_singleton. }
  simpl. unfold Pandas.getitem. rewrite Hone. simpl. rewrite Hint. simpl.
  unfold fillna0. rewrite <- !list_fmap_compose.
  transitivity (Returned (to_dict_records (select_rows d
    ((λ row, number_le
               (coerce pd (default NaN (row_get (columns d) row AvailableStock)))
               n) <$> rows d)))); [done|].
  by rewrite select_rows_filter.
Qed.

(** A table that the normaliser returns has one stock column, or none when
    it is the empty table. *)
(** With whole numbers in stock no threshold makes the function raise: the
    fallback compares numbers with a number. *)
Lemma get_critical_items_whole_stock d threshold :
  empty d = false →
  filter (λ c, c = AvailableStock) (columns d) = [AvailableStock] →
  Forall (λ row, ∃ a, row_get (columns d) row AvailableStock = Some (CInt a)) (rows d) →
  ∃ p : list cell → bool,
    get_critical_items pd (Some d) threshold
    = Returned (to_record (columns d) <$> filter (λ row, p row = true) (rows d)).
Proof.
  intros Hd Hone Hints.
  destruct (py_int threshold) as [n|e] eqn:Hint.
  { eexists. by apply (get_critical_items_one_column d threshold n). }
  set (p := λ row,
    match le_cell (pynum_cell threshold)
            (default NaN (row_get (columns d) row AvailableStock)) with
    | Returned b => b
    | Raised _ => false
    end).
  exists p.
  unfold get_critical_items. rewrite Hd.
  assert (has_column AvailableStock d = true) as ->.
  { apply bool_decide_eq_true. by apply elem_of_filter_singleton. }
  simpl. unfold Pandas.getitem. rewrite Hone. simpl. rewrite Hint. simpl.
  assert (mapM (le_cell (pynum_cell threshold))
            ((λ row, default NaN (row_get (columns d) row AvailableStock)) <$> rows d)
          = Returned (p <$> rows d)) as ->.
  { apply mapM_Returned, Forall2_fmap, Forall_Forall2_diag.
    eapply Forall_impl; [exact Hints|]. intros row [a Ha]. simpl.
    unfold p. rewrite Ha. simpl. by destruct threshold as [z|[[q|b]|]]. }
  simpl. by rewrite select_rows_filter.
Qed.

Lemma loaded_table_stock_column w out msgs :
  reads_rectangular w →
  load_data_from_gsheet pd w = Returned (out, msgs) →
  out = empty_frame ∨
  filter (λ c, c = AvailableStock) (columns out) = [AvailableStock].
Proof.
  intros Hw [[-> _]|(raw & Hraw & Hnorm)]%load_Returned; [by left|].
  assert (rectangular raw) as Hrect.
  { destruct Hraw as (? & ? & sid & _ & _ & _ & _ & Hread). by eapply Hw. }
  apply normalize_Returned in Hnorm as [_ [(-> & _)|(_ & HA & _ & Hcols & _)]];
    [by left| |done].
  right. rewrite Hcols. by rewrite !filter_assigned_columns.
Qed.

(** The call in [main]: on a table that the normaliser returned,
    [get_critical_items] raises nothing for a threshold that [int]
    accepts. *)
Lemma critical_items_of_a_loaded_table w out msgs threshold n :
  reads_rectangular w →
  load_data_from_gsheet pd w = Returned (out, msgs) →
  py_int threshold = Returned n →
  ∃ items, get_critical_items pd (Some out) threshold = Returned items.
Proof.
  intros Hw Hload Hint.
  destruct (empty out) eqn:Hout; [rewrite get_critical_items_empty; eauto|].
  destruct (loaded_table_stock_column _ _ _ Hw Hload) as [->|HA]; [done|].
  rewrite (get_critical_items_one_column _ _ n); eauto.
Qed.


End Critical.

(** ** The notifier *)

Lemma append_assoc (a b c : string) : (a +:+ b) +:+ c = a +:+ b +:+ c.
Proof. induction a as [|x a IH]; [done|]. exact (f_equal (String x) IH). Qed.

Lemma append_empty_r (a : string) : a +:+ "" = a.
Proof. induction a as [|x a IH]; [done|]. exact (f_equal (String x) IH). Qed.

Lemma occurs_in_prefix a b : occurs_in a (a +:+ b).
Proof. by exists "", b. Qed.

Lemma occurs_in_suffix a b : occurs_in b (a +:+ b).
Proof. exists a, "". by rewrite append_empty_r. Qed.

Lemma occurs_in_append_r a b c : occurs_in a c → occurs_in a (b +:+ c).
Proof. intros (pre & post & ->). exists (b +:+ pre), post. by rewrite append_assoc. Qed.

Lemma occurs_in_append_l a b c : occurs_in a b → occurs_in a (b +:+ c).
Proof.
  intros (pre & post & ->). exists pre, (post +:+ c). by rewrite !append_assoc.
Qed.

Section NotifierFacts.
Variable post : Request → outcome Response.
Variable render : json → string.

Lemma trigger_nonempty url items :
  url ≠ "" →
  trigger_restock_webhook post render (Some url) items =
  (match post (restock_request url items) with
   | Returned resp => interpret_response render resp
   | Raised e => (false, "Error triggering webhook: " +:+ exn_str e)
   end, [restock_request url items]).
Proof. by destruct url. Qed.

(** C7.  Unconfigured webhook.  With an empty webhook URL (the empty text, or
    None) the function returns (False, 'Webhook URL not configured') for every
    list of items, and sends no request. *)
Theorem unconfigured_webhook (items : list (gmap string cell)) :
  trigger_restock_webhook post render (Some "") items
    = ((false, "Webhook URL not configured"), []) ∧
  trigger_restock_webhook post render None items
    = ((false, "Webhook URL not configured"), []).
Proof. by split. Qed.

Lemma extract_hint_object resp members :
  json_body resp = Returned (JObj members) → extract_hint resp = hint_or_message members.
Proof.
  intros H. unfold extract_hint, hint_or_message. rewrite H. simpl.
  by destruct (truthy (default JNull (members_get "hint" members))).
Qed.

(** C8.  Inactive webhook.  When the POST is answered with status 404, the
    function returns False with a message that contains both the hint text
    taken from the response and the fixed guidance about activating or
    registering the workflow.  For a JSON object with a hint or message
    field that is not empty, the hint text is that field; a text field
    always occurs in the message. *)
Theorem inactive_webhook_guidance url items resp :
  url ≠ "" →
  post (restock_request url items) = Returned resp →
  status_code resp = 404 →
  ∃ msg,
    trigger_restock_webhook post render (Some url) items
      = ((false, msg), [restock_request url items]) ∧
    occurs_in (hint_text render resp) msg ∧
    occurs_in guidance msg ∧
    ∀ members, json_body resp = Returned (JObj members) →
      (truthy (hint_or_message members) = true →
         hint_text render resp = py_str render (hint_or_message members)) ∧
      (∀ s, hint_or_message members = JStr s → occurs_in s msg).
Proof.
  intros Hurl Hpost Hstatus. rewrite trigger_nonempty, Hpost by done.
  unfold interpret_response. rewrite Hstatus. simpl.
  eexists. split; [done|].
  assert (occurs_in (hint_text render resp)
            ("Webhook error " +:+ pretty 404 +:+ ": " +:+ hint_text render resp
             +:+ " — " +:+ guidance)) as Hhint.
  { do 3 apply occurs_in_append_r. apply occurs_in_prefix. }
  split; [exact Hhint|]. split.
  { do 4 apply occurs_in_append_r. apply occurs_in_suffix. }
  intros members Hbody. pose proof (extract_hint_object _ _ Hbody) as Hex. split.
  - intros Htrue. unfold hint_text. by rewrite Hex, Htrue.
  - intros s Hs. destruct s as [|c s].
    + by exists "", ("Webhook error " +:+ pretty 404 +:+ ": " +:+ hint_text render resp
             +:+ " — " +:+ guidance).
    + assert (hint_text render resp = String c s) as <-; [|done].
      unfold hint_text. by rewrite Hex, Hs.
Qed.

(** C9.  Success.  The function reports success exactly when the URL is
    configured and the POST is answered with a status code in [200, 300); the
    message is then 'Restock webhook triggered successfully'.  No other
    status, and no exception, yields success. *)
Theorem success_iff_2xx (webhook_url : option string) (items : list (gmap string cell)) :
  (fst (fst (trigger_restock_webhook post render webhook_url items)) = true ↔
   ∃ url resp, webhook_url = Some url ∧ url ≠ "" ∧
               post (restock_request url items) = Returned resp ∧
               200 ≤ status_code resp < 300) ∧
  (∀ url resp, webhook_url = Some url → url ≠ "" →
               post (restock_request url items) = Returned resp →
               200 ≤ status_code resp < 300 →
               trigger_restock_webhook post render webhook_url items
               = ((true, "Restock webhook triggered successfully"), [restock_request url items])).
Proof.
  assert (∀ resp, fst (interpret_response render resp) = true ↔ 200 ≤ status_code resp < 300)
    as Hint.
  { intros resp. unfold interpret_response.
    destruct ((200 <=? status_code resp) && (status_code resp <? 300)) eqn:E.
    - simpl. split; [intros _|done].
      apply andb_true_iff in E as [?%Z.leb_le ?%Z.ltb_lt]. lia.
    - destruct (status_code resp =? 404); simpl; (split; [done|]);
        intros [H1%Z.leb_le H2%Z.ltb_lt]; by rewrite H1, H2 in E. }
  split.
  - destruct webhook_url as [url|]; [|split; [done|by intros (? & ? & ? & _)]].
    destruct (decide (url = "")) as [->|Hurl].
    { split; [done|]. intros (? & ? & ? & ? & _). by simplify_eq. }
    rewrite trigger_nonempty by done. simpl.
    destruct (post (restock_request url items)) as [resp|e] eqn:Hpost.
    + rewrite Hint. split; [by eauto 10|].
      intros (u & r & Hu & _ & Hp & Hr). simplify_eq. rewrite Hpost in Hp. by simplify_eq.
    + split; [done|]. intros (u & r & Hu & _ & Hp & _). simplify_eq. by rewrite Hpost in Hp.
  - intros url resp -> Hurl Hpost Hrange. rewrite trigger_nonempty, Hpost by done.
    unfold interpret_response.
    destruct Hrange as [H1%Z.leb_le H2%Z.ltb_lt]. by rewrite H1, H2.
Qed.

End NotifierFacts.


(** ** The examples, run *)

Lemma sheet_fetches raw : fetches (sheet raw) raw.
Proof.
  exists "https://docs.google.com/spreadsheets/d/1aBcD/edit#gid=0",
         "1aBcD/edit#gid=0", "1aBcD".
  by vm_compute.
Qed.

Lemma sheet_rectangular raw : rectangular raw → reads_rectangular (sheet raw).
Proof.
  intros Hraw url df. simpl. case_decide; [|done]. by intros [= <-].
Qed.

Example widgets_load :
  load_data_from_gsheet pandas (sheet widgets) = Returned (widgets_canonical, []).
Proof. by vm_compute. Qed.

(** White space outside ASCII is stripped as well: a no-break space before
    'Stock' or after 'Min Stock' does not hide the alias. *)
Example no_break_space_is_stripped :
  normalize_header pandas (utf8 [194; 160]%N +:+ "Stock") = "stock" ∧
  normalize_header pandas ("Min Stock" +:+ utf8 [194; 160]%N) = "min stock" ∧
  normalize_header pandas "  STOCK " = "stock" ∧
  rename_dict pandas [utf8 [194; 160]%N +:+ "Stock"; "Min Stock" +:+ utf8 [194; 160]%N]
  = {[ utf8 [194; 160]%N +:+ "Stock" := AvailableStock;
       "Min Stock" +:+ utf8 [194; 160]%N := RestockLevel ]}.
Proof. repeat split; by vm_compute. Qed.

Example stock_beats_qty :
  rename_dict pandas ["Qty"; "  STOCK "; "Threshold"] !! "  STOCK " = Some AvailableStock ∧
  rename_dict pandas ["Qty"; "  STOCK "; "Threshold"] !! "Qty" = None ∧
  rename_dict pandas ["Qty"; "  STOCK "; "Threshold"] !! "Threshold" = Some RestockLevel.
Proof. by vm_compute. Qed.


(** C1, at the failing input.  A sheet with 9007199254740992 in stock, a
    restock level of 9007199254740993 and a price of 1.5: the stock is above
    10 and below the restock level, which the rule calls 'Low Stock', and
    the function stores 'In Stock'.  The lambda of line 100 is handed the
    row as floats, the sheet holding numbers only and a float among them,
    and both quantities round to the same double.  [highlight_low_stock],
    which is handed the row with its status and so with its integers,
    paints the same row as low on stock. *)
Theorem status_of_large_quantities :
  load_data_from_gsheet pandas (sheet big_numbers)
  = Returned (Frame ["Available Stock"; "Restock Level"; "Price"; "Status"]
                [ [CInt 9007199254740992; CInt 9007199254740993; CFloat (Fin (3 # 2));
                   CStr "In Stock"] ], []) ∧
  status_of 9007199254740992 9007199254740993 = "Low Stock" ∧
  status_rule 9007199254740992 9007199254740993 "Low Stock" ∧
  highlight_low_stock pandas ["Available Stock"; "Restock Level"; "Price"; "Status"]
    [CInt 9007199254740992; CInt 9007199254740993; CFloat (Fin (3 # 2)); CStr "In Stock"]
  = Returned (replicate 4 highlighted).
Proof.
  split; [by vm_compute|]. split; [by vm_compute|].
  split; [exact (status_of_rule 9007199254740992 9007199254740993)|by vm_compute].
Qed.

(** X22, on the example sheet. *)
Lemma status_within_double_precision_witness :
  Forall (λ row,
    ∃ a r s,
      row_get (columns widgets_canonical) row AvailableStock = Some (CInt a) ∧
      row_get (columns widgets_canonical) row RestockLevel = Some (CInt r) ∧
      row_get (columns widgets_canonical) row Status = Some (CStr s) ∧
      s ∈ ["Critical"; "Low Stock"; "In Stock"] ∧
      (s = "Critical" ↔ a ≤ 10) ∧
      (s = "Low Stock" → 10 < a < r) ∧
      (Z.abs a ≤ 2 ^ 53 → Z.abs r ≤ 2 ^ 53 → s = status_of a r ∧ status_rule a r s))
    (rows widgets_canonical).
Proof.
  apply (status_within_double_precision pandas (sheet widgets) widgets_canonical []).
  - apply sheet_rectangular. apply (bool_decide_unpack _). vm_compute. exact I.
  - vm_compute. reflexivity.
Defined.

(** C2, counterexample.  A stock of -5 in the sheet is -5 in the canonical
    table. *)
Lemma negative_stock_is_kept :
  load_data_from_gsheet pandas (sheet overdrawn)
  = Returned (Frame ["Available Stock"; "Item"; "Restock Level"; "Status"]
                [ [CInt (-5); CStr "Widget"; CInt 10; CStr "Critical"] ], []) ∧
  row_get ["Available Stock"; "Item"; "Restock Level"; "Status"]
    [CInt (-5); CStr "Widget"; CInt 10; CStr "Critical"] AvailableStock = Some (CInt (-5)) ∧
  -5 < 0.
Proof. split; [by vm_compute|]. split; [by vm_compute|lia]. Qed.

(** A stock of 10^20 does not fit in 64 bits; on x86-64 the least 64-bit
    integer is stored for it. *)
Example astronomical_load :
  load_data_from_gsheet pandas (sheet astronomical)
  = Returned (Frame ["Available Stock"; "Item"; "Restock Level"; "Status"]
                [ [CInt (-9223372036854775808); CStr "Widget"; CInt 10; CStr "Critical"] ],
              []).
Proof. by vm_compute. Qed.

Lemma widgets_normalizable : normalizable pandas widgets.
Proof.
  apply normalizable_iff.
  - apply (bool_decide_unpack _). by vm_compute.
  - exists widgets_canonical. by vm_compute.
Qed.

(** C2 as amended, on the example sheet. *)
Lemma quantities_are_coerced_integers_witness :
  Forall2 (λ src row,
    (∃ x a, row_get (columns (reconciled pandas widgets)) src AvailableStock = Some x ∧
            row_get (columns widgets_canonical) row AvailableStock = Some (CInt a) ∧
            integer_coercion pandas x a) ∧
    (∃ r, row_get (columns widgets_canonical) row RestockLevel = Some (CInt r) ∧
          if bool_decide (RestockLevel ∈ columns (reconciled pandas widgets))
          then ∃ y, row_get (columns (reconciled pandas widgets)) src RestockLevel = Some y ∧
                    integer_coercion pandas y r
          else r = 10))
    (rows (reconciled pandas widgets)) (rows widgets_canonical).
Proof.
  assert (rectangular widgets) as Hrect.
  { apply (bool_decide_unpack _). vm_compute. exact I. }
  apply (proj2 (quantities_are_coerced_integers pandas (sheet widgets) widgets
                  (sheet_fetches widgets) Hrect) widgets_canonical).
  vm_compute. reflexivity.
Defined.

(** C4, at the failing input.  The retailer's sheet has a column 'Status' of
    its own, which matches no alias; the table returned holds the derived
    status in its place, and the retailer's entry is gone. *)
Theorem own_status_column_is_overwritten :
  rename_dict pandas (columns own_status) !! "Status" = None ∧
  (λ row, row_cells (columns own_status) row "Status") <$> rows own_status
    = [[CStr "Discontinued"]] ∧
  load_data_from_gsheet pandas (sheet own_status)
  = Returned (Frame ["Available Stock"; "Status"; "Item"; "Restock Level"]
                [ [CInt 50; CStr "In Stock"; CStr "Widget"; CInt 10] ], []).
Proof. split; [by vm_compute|]. split; by vm_compute. Qed.

(** X23, on the example sheet. *)
Lemma other_columns_pass_through_witness :
  ∃ out,
    load_data_from_gsheet pandas (sheet widgets) = Returned (out, []) ∧
    ((λ c, default c (rename_dict pandas (columns widgets) !! c)) <$> columns widgets)
      `prefix_of` columns out ∧
    Forall2 (λ src row,
      ∀ i c, columns widgets !! i = Some c →
             default c (rename_dict pandas (columns widgets) !! c)
               ∉ [AvailableStock; RestockLevel; Status] →
             row !! i = src !! i)
      (rows (dropna (take 2 (columns widgets)) widgets)) (rows out).
Proof.
  apply (other_columns_pass_through pandas (sheet widgets) widgets).
  - apply sheet_fetches.
  - apply (bool_decide_unpack _). vm_compute. exact I.
  - apply widgets_normalizable.
Defined.

(** C5, counterexample.  No header of this sheet is the normal form of an
    alias of Available Stock, and the function returns a table with a row and
    reports no error: the header is the canonical name itself. *)
Lemma literal_stock_header_is_accepted :
  no_alias_present pandas AvailableStock (columns literal_header) ∧
  load_data_from_gsheet pandas (sheet literal_header)
  = Returned (Frame ["Available Stock"; "Item"; "Restock Level"; "Status"]
                [ [CInt 5; CStr "Widget"; CInt 10; CStr "Critical"] ], []).
Proof. split; [apply (bool_decide_unpack _)|]; by vm_compute. Qed.

(** C5 as amended, on a sheet without a stock column. *)
Lemma missing_stock_column_is_reported_witness :
  ∃ m, load_data_from_gsheet pandas (sheet no_stock) = Returned (empty_frame, [m]) ∧
       ((2 ≤ length (columns no_stock))%nat → m = stock_column_error).
Proof.
  apply (missing_stock_column_is_reported pandas (sheet no_stock) no_stock).
  - apply sheet_fetches.
  - apply (bool_decide_unpack _). vm_compute. exact I.
  - apply (bool_decide_unpack _). vm_compute. exact I.
Defined.

Example no_threshold_load :
  load_data_from_gsheet pandas (sheet no_threshold) = Returned (no_threshold_canonical, []).
Proof. by vm_compute. Qed.


(** C8, on the answer of an inactive webhook. *)
Lemma inactive_webhook_guidance_witness :
  ∃ msg,
    trigger_restock_webhook (λ _, Returned inactive_response) plain_render
      (Some "https://n8n.example/webhook/restock") []
      = ((false, msg), [restock_request "https://n8n.example/webhook/restock" []]) ∧
    occurs_in (hint_text plain_render inactive_response) msg ∧
    occurs_in guidance msg ∧
    ∀ members, json_body inactive_response = Returned (JObj members) →
      (truthy (hint_or_message members) = true →
         hint_text plain_render inactive_response = py_str plain_render (hint_or_message members)) ∧
      (∀ s, hint_or_message members = JStr s → occurs_in s msg).
Proof.
  apply (inactive_webhook_guidance (λ _, Returned inactive_response) plain_render
           "https://n8n.example/webhook/restock" [] inactive_response).
  - discriminate.
  - reflexivity.
  - reflexivity.
Defined.

Example inactive_webhook_message :
  trigger_restock_webhook (λ _, Returned inactive_response) plain_render
    (Some "https://n8n.example/webhook/restock") []
  = ((false, "Webhook error 404: inactive — " +:+ guidance),
     [restock_request "https://n8n.example/webhook/restock" []]).
Proof. by vm_compute. Qed.

(** C9, on an answer with status 200. *)
Lemma success_iff_2xx_witness :
  trigger_restock_webhook (λ _, Returned ok_response) plain_render
    (Some "https://n8n.example/webhook/restock") []
  = ((true, "Restock webhook triggered successfully"),
     [restock_request "https://n8n.example/webhook/restock" []]).
Proof.
  apply (proj2 (success_iff_2xx (λ _, Returned ok_response) plain_render
                  (Some "https://n8n.example/webhook/restock") [])
           "https://n8n.example/webhook/restock" ok_response).
  - reflexivity.
  - discriminate.
  - reflexivity.
  - simpl. lia.
Defined.



(** * Around the core: the boundary, the panels and the metrics *)

(** ** Tables that the normaliser returned *)

Lemma row_cells_length cols row c :
  length row = length cols →
  length (row_cells cols row c) = length (filter (λ d, d = c) cols).
Proof.
  revert row. induction cols as [|d cols IH]; intros [|x row] Hlen; simplify_eq/=; [done|].
  rewrite filter_cons. case_decide; simpl; by rewrite IH.
Qed.

Lemma row_cells_one cols row c x :
  length row = length cols → filter (λ d, d = c) cols = [c] →
  row_get cols row c = Some x → row_cells cols row c = [x].
Proof.
  intros Hlen Hone Hget. pose proof (row_cells_length cols row c Hlen) as Hl.
  rewrite Hone in Hl. unfold row_get in Hget.
  destruct (row_cells cols row c) as [|y [|z l]]; simplify_eq/=; done.
Qed.

Lemma canonical_length pd cols floats row row' :
  length row = length cols → canonical pd cols floats row row' →
  length row' = length (assigned_columns (assigned_columns cols RestockLevel) Status).
Proof.
  intros Hlen (a & r & _ & _ & ->).
  rewrite row_assign_length; [done|]. rewrite !row_set_length.
  unfold assigned_columns. case_bool_decide; [done|]. rewrite !length_app. simpl. lia.
Qed.

Lemma normalize_messages pd raw out msgs :
  normalize pd raw = Returned (out, msgs) →
  (out = empty_frame ∧ msgs = [stock_column_error]) ∨ msgs = [].
Proof.
  unfold normalize. intros H.
  apply bind_Returned in H as (first & _ & H).
  apply bind_Returned in H as (second & _ & H).
  destruct (negb _); [simplify_eq; by left|].
  apply bind_Returned in H as (df4 & _ & H).
  apply bind_Returned in H as (df5 & _ & H).
  apply bind_Returned in H as (st & _ & H).
  apply bind_Returned in H as (df6 & _ & H). simplify_eq. by right.
Qed.

Section Loaded.
Variable pd : library.

Lemma loaded_table w out msgs :
  reads_rectangular w →
  load_data_from_gsheet pd w = Returned (out, msgs) →
  out = empty_frame ∨
  (msgs = [] ∧ rectangular out ∧
   filter (λ c, c = AvailableStock) (columns out) = [AvailableStock] ∧
   filter (λ c, c = RestockLevel) (columns out) = [RestockLevel] ∧
   ∃ floats, Forall (λ row, ∃ a r,
     row_cells (columns out) row AvailableStock = [CInt a] ∧
     row_cells (columns out) row RestockLevel = [CInt r] ∧
     row_get (columns out) row Status
       = Some (CStr (status_of (judged floats a) (judged floats r)))) (rows out)).
Proof.
  intros Hw [[-> _]|(raw & Hraw & Hnorm)]%load_Returned; [by left|].
  assert (rectangular raw) as Hrect.
  { destruct Hraw as (? & ? & sid & _ & _ & _ & _ & Hread). by eapply Hw. }
  apply normalize_Returned in Hnorm as [_ [(-> & _)|(-> & HA & HR & Hcols & _ & floats & Hrows)]];
    [by left| |done].
  right. split; [done|].
  pose proof (rectangular_reconciled pd raw Hrect) as Hrs.
  assert (filter (λ c, c = AvailableStock) (columns out) = [AvailableStock]) as HA'.
  { rewrite Hcols. by rewrite !filter_assigned_columns. }
  assert (filter (λ c, c = RestockLevel) (columns out) = [RestockLevel]) as HR'.
  { rewrite Hcols. by rewrite filter_assigned_columns. }
  assert (Forall (λ row', length row' = length (columns out) ∧ ∃ a r,
     row_get (columns out) row' AvailableStock = Some (CInt a) ∧
     row_get (columns out) row' RestockLevel = Some (CInt r) ∧
     row_get (columns out) row' Status
       = Some (CStr (status_of (judged floats a) (judged floats r)))) (rows out)) as Hall.
  { eapply Forall2_Forall_r; [exact Hrows|].
    eapply Forall_impl; [exact Hrs|].
    intros row Hlen row' Hcan. simpl in Hlen. split.
    - rewrite Hcols. by eapply canonical_length.
    - apply canonical_fields in Hcan as (a & r & _ & _ & Ha & Hr & Hs & _);
        [|done|by apply elem_of_filter_singleton].
      rewrite Hcols. eauto. }
  split; [eapply Forall_impl; [exact Hall|]; by intros ? [? _]|].
  do 2 (split; [done|]). exists floats.
  eapply Forall_impl; [exact Hall|].
  intros row (Hlen & a & r & Ha & Hr & Hs). exists a, r.
  split; [by apply row_cells_one|]. split; [by apply row_cells_one|done].
Qed.

End Loaded.

(** ** The boundary of the normaliser *)

Section Boundary.
Variable pd : library.

(** X1.  The boundary contract of [load_data_from_gsheet].  Whatever the
    configuration, the network and the sheet, the function returns; it
    reports at most one message, and whenever it reports one the table it
    returns is the empty table.  An exception raised anywhere in the body is
    reported as 'Error loading data from Google Sheets: ' followed by its
    text, and a configured URL without '/d/' as 'Invalid Google Sheet URL
    format'. *)
Theorem load_boundary_contract (w : World) :
  ∃ out msgs,
    load_data_from_gsheet pd w = Returned (out, msgs) ∧
    (length msgs ≤ 1)%nat ∧
    (msgs ≠ [] → out = empty_frame) ∧
    (∀ e, load_body pd w = Raised e →
          msgs = ["Error loading data from Google Sheets: " +:+ exn_str e]) ∧
    (∀ url, secrets_spreadsheet w = Returned url → contains "/d/" url = false →
            msgs = ["Invalid Google Sheet URL format"]).
Proof.
  destruct (load_never_raises pd w) as (out & msgs & Hload).
  exists out, msgs. split; [done|].
  assert (∀ e, load_body pd w = Raised e →
            out = empty_frame ∧
            msgs = ["Error loading data from Google Sheets: " +:+ exn_str e]) as Hraised.
  { intros e He. unfold load_data_from_gsheet, try_except in Hload.
    rewrite He in Hload. by simplify_eq. }
  assert (∀ url, secrets_spreadsheet w = Returned url → contains "/d/" url = false →
            out = empty_frame ∧ msgs = ["Invalid Google Sheet URL format"]) as Hurl.
  { intros url Hu Hd. unfold load_data_from_gsheet, try_except, load_body in Hload.
    rewrite Hu in Hload. simpl in Hload. rewrite Hd in Hload. by simplify_eq. }
  assert ((out = empty_frame ∧ ∃ m, msgs = [m]) ∨ msgs = []) as Hshape.
  { apply load_Returned in Hload as [?|(raw & _ & Hnorm)]; [by left|].
    apply normalize_messages in Hnorm as [[-> ->] | ->]; [left; eauto|by right]. }
  split; [|split; [|split]].
  - destruct Hshape as [[_ [m ->]] | ->]; simpl; lia.
  - intros Hne. by destruct Hshape as [[-> _]|].
  - intros e He. by apply Hraised.
  - intros url Hu Hd. by eapply Hurl.
Qed.

(** X2.  When the sheet is fetched, the normaliser reports no message
    exactly when the sheet satisfies the conditions gathered in
    [normalizable]: two columns at least, exactly one stock column and at
    most one restock column after renaming, finite numbers in both, and a
    row left after pruning unless the library copes with none.  In every
    other case the empty table comes back with one message. *)
Theorem load_succeeds_iff_normalizable (w : World) (raw : DataFrame) :
  fetches w raw → rectangular raw →
  ((∃ out, load_data_from_gsheet pd w = Returned (out, [])) ↔ normalizable pd raw) ∧
  (¬ normalizable pd raw →
   ∃ m, load_data_from_gsheet pd w = Returned (empty_frame, [m])).
Proof.
  intros Hraw Hrect.
  assert ((∃ out, load_data_from_gsheet pd w = Returned (out, [])) ↔ normalizable pd raw)
    as Hiff.
  { rewrite normalizable_iff by done. split; intros [out Hout]; exists out.
    - by eapply load_success.
    - rewrite (load_fetches _ _ _ Hraw). by rewrite Hout. }
  split; [done|]. intros Hno.
  destruct (load_never_raises pd w) as (out & msgs & Hload).
  destruct (load_fetches_Returned _ _ _ _ _ Hraw Hload) as [Hnorm|[-> [m ->]]]; [|eauto].
  apply normalize_messages in Hnorm as [[-> ->] | ->]; [eauto|].
  destruct Hno. apply Hiff. eauto.
Qed.

End Boundary.

(** ** The critical alert of [main] *)

Lemma filter_ext_Forall {A} (P Q : A → Prop) `{∀ x, Decision (P x)} `{∀ x, Decision (Q x)}
    (l : list A) :
  Forall (λ x, P x ↔ Q x) l → filter P l = filter Q l.
Proof.
  induction 1 as [|x l Hx _ IH]; [done|].
  rewrite !filter_cons. rewrite IH.
  destruct (decide (P x)), (decide (Q x)); tauto.
Qed.

Lemma status_of_Critical a r : status_of a r = "Critical" ↔ a ≤ 10.
Proof.
  unfold status_of. destruct (Z.leb_spec a 10); [by split|].
  split; [|lia]. by destruct (a <? r).
Qed.

Lemma number_le_int a n : number_le (Fin (inject_Z a)) n = (a <=? n).
Proof. unfold number_le. simpl. rewrite Qcompare_inject_Z. unfold Z.leb. by destruct (a ?= n). Qed.

Lemma row_get_one cols row c x : row_cells cols row c = [x] → row_get cols row c = Some x.
Proof. unfold row_get. by intros ->. Qed.

Section Alert.
Variable pd : library.

(** X3.  The call in [main], with its threshold of 10: on the table that the
    normaliser returned, [get_critical_items] raises nothing and returns the
    records of exactly the rows whose status is 'Critical', in their
    order. *)
Theorem critical_items_are_the_critical_rows (w : World) (out : DataFrame) (msgs : list string) :
  reads_rectangular w →
  load_data_from_gsheet pd w = Returned (out, msgs) →
  get_critical_items pd (Some out) (PyInt 10) =
  Returned (to_record (columns out) <$>
    filter (λ row, row_get (columns out) row Status = Some (CStr "Critical")) (rows out)).
Proof.
  intros Hw Hload.
  destruct (loaded_table pd w out msgs Hw Hload)
    as [->|(_ & _ & HA & _ & floats & Hrows)]; [done|].
  destruct (empty out) eqn:Hempty.
  - rewrite get_critical_items_empty by done.
    unfold empty in Hempty. destruct (columns out) as [|c cols]; [done|].
    destruct (rows out); [done|discriminate].
  - rewrite (get_critical_items_one_column pd out (PyInt 10) 10) by done. do 2 f_equal.
    apply filter_ext_Forall. eapply Forall_impl; [exact Hrows|].
    intros row (a & r & Ha%row_get_one & _ & Hs). rewrite Ha, Hs. simpl.
    unfold coerce. simpl. rewrite number_le_int.
    rewrite Z.leb_le, <- (status_of_judged_Critical floats a r).
    split; [congruence|by intros [= ->]].
Qed.

End Alert.

(** ** Highlighting *)

Lemma mapM_const {A B} (y : B) (l : list A) :
  mapM (λ _ : A, Returned y) l = Returned (replicate (length l) y).
Proof. induction l as [|x l IH]; simpl; [done|]. by rewrite IH. Qed.

Lemma mapM_raises {A B} (e : exn) (l : list A) :
  l ≠ [] → mapM (λ _ : A, Raised e : outcome B) l = Raised e.
Proof. by destruct l. Qed.

Lemma number_lt_ints pd a r :
  number_lt (to_numeric_cell (parse_number pd) (CInt a))
            (to_numeric_cell (parse_number pd) (CInt r)) = (a <? r).
Proof. simpl. rewrite Qcompare_inject_Z. unfold Z.ltb. by destruct (a ?= r). Qed.

Lemma series_get_One cols row c d :
  (length (row_cells cols row c) ≤ 1)%nat →
  series_get cols row c d = One (default d (row_get cols row c)).
Proof.
  unfold series_get, row_get. destruct (row_cells cols row c) as [|x [|y l]]; simpl; [done..|lia].
Qed.

Lemma series_get_Several cols row c d :
  (2 ≤ length (row_cells cols row c))%nat →
  series_get cols row c d = Several (row_cells cols row c).
Proof.
  unfold series_get. destruct (row_cells cols row c) as [|x [|y l]]; simpl; [lia..|done].
Qed.

Lemma row_cells_cols_nonempty cols row c : row_cells cols row c ≠ [] → cols ≠ [].
Proof. by destruct cols. Qed.

Section Highlighting.
Variable pd : library.

Lemma highlight_low_stock_Flag cols row low :
  row_is_low pd cols row = Flag low →
  highlight_low_stock pd cols row = Returned (painted cols low).
Proof.
  intros H. unfold highlight_low_stock. rewrite H. simpl. apply mapM_const.
Qed.

(** X4.  [highlight_low_stock] on a row with arbitrary labels.  When each of
    the two labels names at most one cell, or both name several, the
    function returns one style per label and all of them are the same: the
    red background, or nothing.  When one label names several cells and the
    other does not, the comparison gives a series and the function raises
    ValueError, outside its [try].  A row in which both labels are missing, or
    both are repeated, is never painted. *)
Theorem highlight_low_stock_styles (cols : list string) (row : list cell) :
  (((cells_named cols row AvailableStock ≤ 1)%nat ↔
    (cells_named cols row RestockLevel ≤ 1)%nat) →
   ∃ low, highlight_low_stock pd cols row = Returned (painted cols low)) ∧
  (¬ ((cells_named cols row AvailableStock ≤ 1)%nat ↔
      (cells_named cols row RestockLevel ≤ 1)%nat) →
   ∃ e, highlight_low_stock pd cols row = Raised e ∧ exn_class e = "ValueError") ∧
  ((cells_named cols row AvailableStock = 0 ∧ cells_named cols row RestockLevel = 0)%nat ∨
   (2 ≤ cells_named cols row AvailableStock ∧ 2 ≤ cells_named cols row RestockLevel)%nat →
   highlight_low_stock pd cols row = Returned (painted cols false)).
Proof.
  unfold cells_named.
  set (available := length (row_cells cols row AvailableStock)).
  set (restock := length (row_cells cols row RestockLevel)).
  destruct (decide (available ≤ 1)%nat) as [Ha|Ha], (decide (restock ≤ 1)%nat) as [Hr|Hr].
  - split; [|split].
    + intros _. eexists. apply highlight_low_stock_Flag. unfold row_is_low.
      by rewrite !series_get_One.
    + tauto.
    + intros [[Ha0 Hr0]|?]; [|lia]. apply highlight_low_stock_Flag. unfold row_is_low.
      rewrite !series_get_One by done. unfold row_get.
      apply nil_length_inv in Ha0, Hr0. by rewrite Ha0, Hr0.
  - split; [tauto|]. split; [|lia]. intros _.
    unfold highlight_low_stock, row_is_low.
    rewrite series_get_One by done. rewrite series_get_Several by (fold restock; lia).
    simpl. eexists. split; [apply mapM_raises|done].
    apply (row_cells_cols_nonempty cols row RestockLevel). intros Hnil.
    unfold restock in Hr. rewrite Hnil in Hr. simpl in Hr. lia.
  - split; [tauto|]. split; [|lia]. intros _.
    unfold highlight_low_stock, row_is_low.
    rewrite series_get_Several by (fold available; lia). rewrite series_get_One by done.
    simpl. eexists. split; [apply mapM_raises|done].
    apply (row_cells_cols_nonempty cols row AvailableStock). intros Hnil.
    unfold available in Ha. rewrite Hnil in Ha. simpl in Ha. lia.
  - split; [|split].
    + intros _. exists false. apply highlight_low_stock_Flag. unfold row_is_low.
      by rewrite !series_get_Several by (fold available restock; lia).
    + tauto.
    + intros _. apply highlight_low_stock_Flag. unfold row_is_low.
      by rewrite !series_get_Several by (fold available restock; lia).
Qed.

Lemma highlight_low_stock_ints cols row a r :
  row_cells cols row AvailableStock = [CInt a] →
  row_cells cols row RestockLevel = [CInt r] →
  highlight_low_stock pd cols row = Returned (painted cols (a <? r)).
Proof.
  intros Ha Hr. apply highlight_low_stock_Flag. unfold row_is_low, series_get.
  rewrite Ha, Hr. by rewrite number_lt_ints.
Qed.

(** X5.  The highlighting of the table that the normaliser returned.  No row
    makes [highlight_low_stock] raise; a row is painted, in all its cells,
    exactly when its stock is below its restock level.  So every 'Low Stock'
    row is painted, while a 'Critical' row, whose stock is at most 10, is
    painted or not according to its restock level.  No 'In Stock' row is
    painted whose quantities are at most 2^53 in magnitude; beyond, the
    status is derived from doubles and the painting from integers, and an
    'In Stock' row can be painted. *)
Theorem highlighting_of_a_loaded_table (w : World) (out : DataFrame) (msgs : list string) :
  reads_rectangular w →
  load_data_from_gsheet pd w = Returned (out, msgs) →
  Forall (λ row,
    highlight_low_stock pd (columns out) row
      = Returned (painted (columns out) (below_restock (columns out) row)) ∧
    (row_get (columns out) row Status = Some (CStr "Low Stock") →
     below_restock (columns out) row = true) ∧
    (row_get (columns out) row Status = Some (CStr "In Stock") →
     Z.abs (stock_of (columns out) row) ≤ 2 ^ 53 →
     Z.abs (restock_of (columns out) row) ≤ 2 ^ 53 →
     below_restock (columns out) row = false) ∧
    (row_get (columns out) row Status = Some (CStr "Critical") →
     stock_of (columns out) row ≤ 10)) (rows out).
Proof.
  intros Hw Hload.
  destruct (loaded_table pd w out msgs Hw Hload) as [->|(_ & _ & _ & _ & floats & Hrows)];
    [simpl; by apply Forall_nil_2|].
  eapply Forall_impl; [exact Hrows|].
  intros row (a & r & Ha & Hr & Hs).
  assert (stock_of (columns out) row = a) as Hstock.
  { unfold stock_of. by rewrite (row_get_one _ _ _ _ Ha). }
  assert (restock_of (columns out) row = r) as Hrestock.
  { unfold restock_of. by rewrite (row_get_one _ _ _ _ Hr). }
  unfold below_restock. rewrite Hs, Hstock, Hrestock.
  split; [by apply highlight_low_stock_ints|]. split; [|split].
  - intros [= Hlow%status_of_judged_Low]. apply Z.ltb_lt. lia.
  - intros [= Hin%status_of_judged_In] Hsmall_a Hsmall_r.
    rewrite !judged_small in Hin by done. apply Z.ltb_ge. lia.
  - intros [= Hcrit%status_of_judged_Critical]. done.
Qed.

End Highlighting.

(** ** The metrics *)

Lemma getitem_one df c :
  filter (λ d, d = c) (columns df) = [c] →
  Pandas.getitem df c
  = Returned (Series ((λ row, default NaN (row_get (columns df) row c)) <$> rows df)).
Proof. intros H. unfold Pandas.getitem. by rewrite H. Qed.

Lemma getitem_several df c :
  (2 ≤ occurrences c (columns df))%nat → ∃ d, Pandas.getitem df c = Returned (SubFrame d).
Proof.
  unfold occurrences, Pandas.getitem.
  destruct (filter (λ d, d = c) (columns df)) as [|x [|y l]]; simpl; [lia..|eauto].
Qed.

Lemma fmap_ext_Forall {A B} (f g : A → B) (l : list A) :
  Forall (λ x, f x = g x) l → f <$> l = g <$> l.
Proof. induction 1 as [|x l Hx _ IH]; csimpl; [done|]. by rewrite Hx, IH. Qed.

Lemma truncate_inject_Z z : truncate (inject_Z z) = z.
Proof. unfold truncate. simpl. apply Z.quot_1_r. Qed.

Lemma integral_inject_Z z : integral (inject_Z z) = true.
Proof. unfold integral. simpl. by rewrite Z.rem_1_r. Qed.

Lemma whole_numbers_finite (zs : list Z) :
  omap finite_part ((λ z, Fin (inject_Z z)) <$> zs) = inject_Z <$> zs.
Proof. induction zs as [|z zs IH]; csimpl; [done|]. by rewrite IH. Qed.

Lemma whole_numbers_no_infinity (zs : list Z) b :
  Inf b ∉ (λ z, Fin (inject_Z z)) <$> zs.
Proof. by intros (z & ? & _)%list_elem_of_fmap. Qed.

Lemma whole_numbers_integral (zs : list Z) : forallb integral (inject_Z <$> zs) = true.
Proof. induction zs as [|z zs IH]; csimpl; [done|]. by rewrite integral_inject_Z. Qed.

Lemma whole_numbers_magnitude (zs : list Z) : magnitude (inject_Z <$> zs) = total (Z.abs <$> zs).
Proof.
  unfold magnitude, total. induction zs as [|z zs IH]; csimpl; [done|].
  by rewrite truncate_inject_Z, IH.
Qed.

Lemma whole_numbers_truncate (zs : list Z) : truncate <$> (inject_Z <$> zs) = zs.
Proof. induction zs as [|z zs IH]; csimpl; [done|]. by rewrite truncate_inject_Z, IH. Qed.

Lemma count_below_whole (a b : list Z) :
  count_below ((λ z, Fin (inject_Z z)) <$> a) ((λ z, Fin (inject_Z z)) <$> b)
  = Z.of_nat (length (filter (λ p, (fst p <? snd p) = true) (zip a b))).
Proof.
  unfold count_below. f_equal. revert b.
  induction a as [|x a IH]; intros [|y b]; csimpl; [done..|].
  rewrite !filter_cons. simpl. rewrite Qcompare_inject_Z.
  assert (is_lt (x ?= y) = (x <? y)) as -> by (unfold Z.ltb; by destruct (x ?= y)).
  repeat case_decide; simpl; try done; by rewrite IH.
Qed.

Lemma zip_fmap_same {A B C} (f : A → B) (g : A → C) (l : list A) :
  zip (f <$> l) (g <$> l) = (λ x, (f x, g x)) <$> l.
Proof. induction l as [|x l IH]; csimpl; [done|]. by rewrite IH. Qed.

Lemma length_filter_fmap {A B} (f : A → B) (P : B → Prop) `{∀ y, Decision (P y)} (l : list A) :
  length (filter P (f <$> l)) = length (filter (λ x, P (f x)) l).
Proof.
  induction l as [|x l IH]; csimpl; [done|].
  rewrite !filter_cons. case_decide; simpl; by rewrite IH.
Qed.

Lemma length_filter_le {A} (P : A → Prop) `{∀ y, Decision (P y)} (l : list A) :
  (length (filter P l) ≤ length l)%nat.
Proof.
  induction l as [|x l IH]; [done|]. rewrite filter_cons. case_decide; simpl; lia.
Qed.

Section MetricsFacts.
Variable pd : library.
Variable float_sum : list Q → Q.

Lemma numeric_column_length df c xs :
  numeric_column pd df c = Returned xs → length xs = length (rows df).
Proof.
  unfold numeric_column. intros H.
  apply bind_Returned in H as (sel & Hsel & H).
  apply getitem_Returned in Hsel as (_ & [[_ ->]|[d ->]]); [|done].
  simpl in H. simplify_eq. unfold fillna0. by rewrite !length_fmap.
Qed.

Lemma numeric_column_ints df c :
  filter (λ d, d = c) (columns df) = [c] →
  Forall (λ row, ∃ z, row_get (columns df) row c = Some (CInt z)) (rows df) →
  numeric_column pd df c
  = Returned ((λ z, Fin (inject_Z z)) <$>
              ((λ row, int_value (default NaN (row_get (columns df) row c))) <$> rows df)).
Proof.
  intros Hone Hrows. unfold numeric_column. rewrite getitem_one by done. simpl.
  f_equal. unfold fillna0. rewrite <- !list_fmap_compose.
  apply fmap_ext_Forall. eapply Forall_impl; [exact Hrows|].
  intros row [z Hz]. simpl. by rewrite Hz.
Qed.

Lemma series_sum_whole (zs : list Z) :
  ∃ q, series_sum float_sum ((λ z, Fin (inject_Z z)) <$> zs) = Some (Fin q) ∧
       (total (Z.abs <$> zs) < 2 ^ 53 → truncate q = total zs).
Proof.
  unfold series_sum.
  rewrite !bool_decide_false by apply whole_numbers_no_infinity.
  rewrite whole_numbers_finite, whole_numbers_integral, whole_numbers_magnitude,
    whole_numbers_truncate. simpl.
  destruct (Z.ltb_spec (total (Z.abs <$> zs)) (2 ^ 53)).
  - eexists. split; [done|]. intros _. apply truncate_inject_Z.
  - eexists. split; [done|]. lia.
Qed.

Lemma calculate_metrics_ints df :
  filter (λ d, d = AvailableStock) (columns df) = [AvailableStock] →
  filter (λ d, d = RestockLevel) (columns df) = [RestockLevel] →
  Forall (λ row, ∃ a r, row_get (columns df) row AvailableStock = Some (CInt a) ∧
                        row_get (columns df) row RestockLevel = Some (CInt r)) (rows df) →
  ∃ value,
    calculate_metrics pd float_sum df
    = Returned (length (rows df),
                Z.of_nat (length (filter (λ row, below_restock (columns df) row = true)
                                    (rows df))),
                value) ∧
    (total (Z.abs <$> (stock_of (columns df) <$> rows df)) < 2 ^ 53 →
     value = total (stock_of (columns df) <$> rows df)).
Proof.
  intros HA HR Hrows. unfold calculate_metrics.
  assert (has_column AvailableStock df = true) as ->.
  { apply bool_decide_eq_true. by apply elem_of_filter_singleton. }
  assert (has_column RestockLevel df = true) as ->.
  { apply bool_decide_eq_true. by apply elem_of_filter_singleton. }
  assert (Forall (λ row, ∃ z, row_get (columns df) row AvailableStock = Some (CInt z))
            (rows df)) as HrowsA.
  { eapply Forall_impl; [exact Hrows|]. intros row (a & r & ? & ?); eauto. }
  assert (Forall (λ row, ∃ z, row_get (columns df) row RestockLevel = Some (CInt z))
            (rows df)) as HrowsR.
  { eapply Forall_impl; [exact Hrows|]. intros row (a & r & ? & ?); eauto. }
  rewrite !numeric_column_ints by done.
  simpl.
  destruct (series_sum_whole ((λ row, int_value (default NaN
              (row_get (columns df) row AvailableStock))) <$> rows df)) as (q & -> & Hq).
  simpl. exists (truncate q). split; [|exact Hq].
  rewrite count_below_whole, zip_fmap_same, length_filter_fmap. done.
Qed.

(** X6.  The metrics of the table that the normaliser returned.
    [calculate_metrics] raises nothing; the first number is the number of
    rows and the second the number of rows whose stock is below their
    restock level, which are the rows [highlight_low_stock] paints.  The
    third is the sum of the stocks provided that their magnitudes add up to
    less than 2^53, the range in which the machine adds exactly. *)
Theorem metrics_of_a_loaded_table (w : World) (out : DataFrame) (msgs : list string) :
  reads_rectangular w →
  load_data_from_gsheet pd w = Returned (out, msgs) →
  ∃ value,
    calculate_metrics pd float_sum out
    = Returned (length (rows out),
                Z.of_nat (length (filter (λ row, below_restock (columns out) row = true)
                                    (rows out))),
                value) ∧
    (total (Z.abs <$> (stock_of (columns out) <$> rows out)) < 2 ^ 53 →
     value = total (stock_of (columns out) <$> rows out)).
Proof.
  intros Hw Hload.
  destruct (loaded_table pd w out msgs Hw Hload) as [->|(_ & _ & HA & HR & floats & Hrows)].
  { by exists 0. }
  apply calculate_metrics_ints; [done..|].
  eapply Forall_impl; [exact Hrows|].
  intros row (a & r & Ha%row_get_one & Hr%row_get_one & _). eauto.
Qed.

(** X7.  [calculate_metrics] on an arbitrary frame: whenever it returns, the
    first number is the number of rows, and the number of low-stock rows
    lies between 0 and it. *)
Theorem metrics_are_counts (df : DataFrame) (total_products : nat) (low_stock_count stock_value : Z) :
  calculate_metrics pd float_sum df = Returned (total_products, low_stock_count, stock_value) →
  total_products = length (rows df) ∧ 0 ≤ low_stock_count ≤ Z.of_nat total_products.
Proof.
  unfold calculate_metrics. intros H.
  apply bind_Returned in H as (value & _ & H).
  apply bind_Returned in H as (low & Hlow & H). simplify_eq.
  split; [done|].
  destruct (has_column AvailableStock df && has_column RestockLevel df).
  - apply bind_Returned in Hlow as (a & Ha & Hlow).
    apply bind_Returned in Hlow as (b & Hb & Hlow). simplify_eq.
    apply numeric_column_length in Ha. unfold count_below.
    pose proof (length_filter_le (λ p : number * number,
      is_lt (number_compare p.1 p.2) = true) (zip a b)) as Hle.
    rewrite length_zip_with in Hle. lia.
  - simplify_eq. lia.
Qed.

(** X8.  A frame in which two columns are called 'Available Stock' makes
    [calculate_metrics] raise TypeError: the selection is a frame, which
    [pd.to_numeric] refuses, and nothing catches the exception here. *)
Theorem metrics_of_a_repeated_stock_label (df : DataFrame) :
  (2 ≤ occurrences AvailableStock (columns df))%nat →
  ∃ e, calculate_metrics pd float_sum df = Raised e ∧ exn_class e = "TypeError".
Proof.
  intros Htwo. unfold calculate_metrics.
  assert (has_column AvailableStock df = true) as ->.
  { apply bool_decide_eq_true. unfold occurrences in Htwo.
    destruct (filter (λ c, c = AvailableStock) (columns df)) as [|x l] eqn:Hf; [simpl in Htwo; lia|].
    assert (x ∈ filter (λ c, c = AvailableStock) (columns df)) as Hx by (rewrite Hf; left).
    apply list_elem_of_filter in Hx as [-> ?]. done. }
  unfold numeric_column.
  destruct (getitem_several df AvailableStock Htwo) as [d ->]. simpl. eauto.
Qed.

End MetricsFacts.

(** ** The tables behind the alert panels *)

Lemma zip_with_fmap_both {A B C D} (f : B → C → D) (g : A → B) (h : A → C) (l : list A) :
  zip_with f (g <$> l) (h <$> l) = (λ x, f (g x) (h x)) <$> l.
Proof. induction l as [|x l IH]; csimpl; [done|]. by rewrite IH. Qed.

Lemma forallb_fmap_Forall {A B} (p : B → bool) (f : A → B) (l : list A) :
  Forall (λ x, p (f x) = true) l → forallb p (f <$> l) = true.
Proof. induction 1 as [|x l Hx _ IH]; csimpl; [done|]. by rewrite Hx, IH. Qed.

Lemma to_record_lookup_from (acc : gmap string cell) cols row l :
  foldl (λ d p, <[fst p := snd p]> d) acc (zip cols row) !! l
  = match last (row_cells cols row l) with Some x => Some x | None => acc !! l end.
Proof.
  revert row acc. induction cols as [|c cols IH]; intros [|x row] acc; simpl; [done..|].
  rewrite IH. case_decide as Hc.
  - subst c. rewrite last_cons. destruct (last (row_cells cols row l)); [done|].
    by rewrite lookup_insert_eq.
  - destruct (last (row_cells cols row l)); [done|]. by rewrite lookup_insert_ne.
Qed.

(** Of the cells under a label, the record keeps the last. *)
Lemma to_record_lookup cols row l : to_record cols row !! l = last (row_cells cols row l).
Proof.
  unfold to_record. rewrite to_record_lookup_from. by destruct (last _).
Qed.

Lemma to_record_lookup_None cols row l :
  length row = length cols → to_record cols row !! l = None ↔ l ∉ cols.
Proof.
  intros Hlen. rewrite to_record_lookup, last_None. split.
  - intros Hnil Hin. by apply (row_cells_nonempty cols l row).
  - apply row_cells_absent.
Qed.

Lemma filter_nil_Forall {A} (P : A → Prop) `{∀ x, Decision (P x)} (l : list A) :
  filter P l = [] ↔ Forall (λ x, ¬ P x) l.
Proof.
  induction l as [|x l IH]; [by split|].
  rewrite filter_cons, Forall_cons. case_decide; [|tauto].
  split; [done|tauto].
Qed.

Section PanelFacts.
Variable pd : library.
Variable compare_other : selection → selection → outcome mask.
Variable infer_objects : list cell → list cell.
Variable not_in_index : list string → list string → string.

Lemma low_stock_df_ints df :
  filter (λ d, d = AvailableStock) (columns df) = [AvailableStock] →
  filter (λ d, d = RestockLevel) (columns df) = [RestockLevel] →
  Forall (λ row, ∃ a r, row_get (columns df) row AvailableStock = Some (CInt a) ∧
                        row_get (columns df) row RestockLevel = Some (CInt r)) (rows df) →
  low_stock_df pd compare_other df
  = Returned (Frame (columns df)
                (filter (λ row, below_restock (columns df) row = true) (rows df))).
Proof.
  intros HA HR Hrows. unfold low_stock_df. rewrite !getitem_one by done. simpl.
  rewrite !forallb_fmap_Forall.
  2, 3: eapply Forall_impl; [exact Hrows|]; intros row (a & r & Ha & Hr); cbv beta;
    by rewrite ?Ha, ?Hr.
  simpl. rewrite zip_with_fmap_both.
  transitivity (Returned (select_rows df (below_restock (columns df) <$> rows df))); [done|].
  by rewrite select_rows_filter.
Qed.

(** X9.  Line 359 of [main], which runs on a table that is not empty: on the
    table that the normaliser returned, the low-stock table is made of
    exactly the rows whose stock is below their restock level, in their
    order and with all their columns; these are the rows that
    [calculate_metrics] counts and [highlight_low_stock] paints. *)
Theorem low_stock_rows_of_a_loaded_table (w : World) (out : DataFrame) (msgs : list string) :
  reads_rectangular w →
  load_data_from_gsheet pd w = Returned (out, msgs) →
  empty out = false →
  low_stock_df pd compare_other out
  = Returned (Frame (columns out)
                (filter (λ row, below_restock (columns out) row = true) (rows out))).
Proof.
  intros Hw Hload Hempty.
  destruct (loaded_table pd w out msgs Hw Hload) as [->|(_ & _ & HA & HR & floats & Hrows)]; [done|].
  apply low_stock_df_ints; [done..|].
  eapply Forall_impl; [exact Hrows|].
  intros row (a & r & Ha%row_get_one & Hr%row_get_one & _). eauto.
Qed.

Lemma records_select_present items labels :
  Forall (λ l, Exists (λ item : gmap string cell, is_Some (item !! l)) items) labels →
  ∃ table, records_select infer_objects not_in_index items labels = Returned table ∧
           columns table = labels ∧ length (rows table) = length items.
Proof.
  intros Hall. unfold records_select.
  rewrite decide_True.
  - eexists. split; [done|]. simpl. by rewrite length_fmap, length_seq.
  - apply filter_nil_Forall. eapply Forall_impl; [exact Hall|].
    intros l Hex Hnone. apply Exists_exists in Hex as (item & Hin & [x Hx]).
    rewrite Forall_forall in Hnone. specialize (Hnone item Hin). congruence.
Qed.

Lemma records_select_missing items labels l :
  l ∈ labels → Forall (λ item : gmap string cell, item !! l = None) items →
  ∃ e, records_select infer_objects not_in_index items labels = Raised e ∧
       exn_class e = "KeyError".
Proof.
  intros Hin Hnone. unfold records_select.
  rewrite decide_False; [eauto|].
  intros Hnil. rewrite filter_nil_Forall, Forall_forall in Hnil. by apply (Hnil l).
Qed.

(** X10.  The table of the critical modal, lines 266 to 270 of [main], on the
    critical items of the table that the normaliser returned.  When the
    table has a 'Product Name' and a 'SKU' column, the modal shows the five
    columns it selects, with one row per critical item.  When the table
    lacks one of the two, because the sheet has no header for it, the
    selection raises KeyError, and nothing in [main] catches it. *)
Theorem critical_modal_of_a_loaded_table (w : World) (out : DataFrame) (msgs : list string)
    (threshold : pynum) (critical_items : list (gmap string cell)) :
  reads_rectangular w →
  load_data_from_gsheet pd w = Returned (out, msgs) →
  get_critical_items pd (Some out) threshold = Returned critical_items →
  critical_items ≠ [] →
  (ProductName ∈ columns out ∧ SKU ∈ columns out →
   ∃ table, critical_modal infer_objects not_in_index critical_items = Returned table ∧
            columns table = modal_labels ∧
            length (rows table) = length critical_items) ∧
  (ProductName ∉ columns out ∨ SKU ∉ columns out →
   ∃ e, critical_modal infer_objects not_in_index critical_items = Raised e ∧
        exn_class e = "KeyError").
Proof.
  intros Hw Hload Hitems Hne.
  destruct (loaded_table pd w out msgs Hw Hload) as [->|(_ & Hrect & HA & HR & floats & Hrows)].
  { simpl in Hitems. by simplify_eq. }
  destruct (empty out) eqn:Hempty.
  { rewrite get_critical_items_empty in Hitems by done. by simplify_eq. }
  destruct (get_critical_items_whole_stock pd out threshold) as [p Hp]; [done..| |].
  { eapply Forall_impl; [exact Hrows|].
    intros row (a & r & Ha%row_get_one & _). eauto. }
  rewrite Hp in Hitems. simplify_eq.
  set (kept := filter _ (rows out)) in *.
  assert (Forall (λ row, length row = length (columns out) ∧
                         Status ∈ columns out) kept) as Hkept.
  { apply Forall_forall. intros row [_ Hin]%list_elem_of_filter.
    rewrite Forall_forall in Hrows. destruct (Hrows row Hin) as (a & r & _ & _ & Hs).
    unfold rectangular in Hrect. rewrite Forall_forall in Hrect.
    split; [by apply Hrect|].
    destruct (decide (Status ∈ columns out)) as [|Hno]; [done|].
    unfold row_get in Hs. by rewrite row_cells_absent in Hs. }
  assert (∀ l, l ∈ columns out →
            Exists (λ item : gmap string cell, is_Some (item !! l))
              (to_record (columns out) <$> kept)) as Hpresent.
  { intros l Hl. destruct kept as [|row kept']; [done|].
    apply Forall_cons in Hkept as [[Hlen _] _]. csimpl. left.
    destruct (to_record (columns out) row !! l) eqn:Hrec; [done|].
    by apply to_record_lookup_None in Hrec. }
  assert (∀ l, l ∉ columns out →
            Forall (λ item : gmap string cell, item !! l = None)
              (to_record (columns out) <$> kept)) as Habsent.
  { intros l Hl. apply Forall_fmap. eapply Forall_impl; [exact Hkept|].
    intros row [Hlen _]. simpl. by apply to_record_lookup_None. }
  assert (Status ∈ columns out) as HS.
  { destruct kept as [|row kept']; [done|]. by apply Forall_cons in Hkept as [[_ ?] _]. }
  split.
  - intros [HP HK]. apply records_select_present.
    repeat (apply Forall_cons; split; [apply Hpresent; try done|]).
    + by apply elem_of_filter_singleton.
    + by apply elem_of_filter_singleton.
    + constructor.
  - intros [HP|HK].
    + apply (records_select_missing _ _ ProductName); [repeat constructor|by apply Habsent].
    + apply (records_select_missing _ _ SKU); [repeat constructor|by apply Habsent].
Qed.

End PanelFacts.

(** ** The notifier on failures *)

Section NotifierFailures.
Variable post : Request → outcome Response.
Variable render : json → string.

Lemma hint_text_fallback resp :
  (∀ members, json_body resp = Returned (JObj members) →
              truthy (hint_or_message members) = false) →
  hint_text render resp = text resp.
Proof.
  intros Hfalsy. unfold hint_text.
  assert (truthy (extract_hint resp) = false) as ->; [|done].
  destruct (json_body resp) as [parsed|e] eqn:Hbody.
  - destruct parsed as [| | | | |members];
      try (unfold extract_hint; by rewrite Hbody).
    rewrite (extract_hint_object resp members Hbody). by apply Hfalsy.
  - unfold extract_hint. by rewrite Hbody.
Qed.

(** X11.  A status that is neither in [200, 300) nor 404.  The function sends
    one request and returns False with 'Webhook error <status>: <hint>'.  The
    hint is the raw text of the response whenever its body is not JSON, is
    not a JSON object, or is an object without a 'hint' or 'message' that
    counts as true; it is that field otherwise. *)
Theorem webhook_error_message (url : string) (items : list (gmap string cell))
    (resp : Response) :
  url ≠ "" →
  post (restock_request url items) = Returned resp →
  ¬ (200 ≤ status_code resp < 300) →
  status_code resp ≠ 404 →
  trigger_restock_webhook post render (Some url) items
  = ((false, "Webhook error " +:+ pretty (status_code resp) +:+ ": "
             +:+ hint_text render resp),
     [restock_request url items]) ∧
  ((∀ members, json_body resp = Returned (JObj members) →
               truthy (hint_or_message members) = false) →
   hint_text render resp = text resp) ∧
  (∀ members, json_body resp = Returned (JObj members) →
              truthy (hint_or_message members) = true →
              hint_text render resp = py_str render (hint_or_message members)).
Proof.
  intros Hurl Hpost Hrange H404. split; [|split].
  - rewrite trigger_nonempty, Hpost by done. unfold interpret_response.
    assert ((200 <=? status_code resp) && (status_code resp <? 300) = false) as ->.
    { apply andb_false_iff.
      destruct (Z.leb_spec 200 (status_code resp)); [|by left].
      destruct (Z.ltb_spec (status_code resp) 300); [lia|by right]. }
    by assert ((status_code resp =? 404) = false) as -> by lia.
  - apply hint_text_fallback.
  - intros members Hbody Htrue. unfold hint_text.
    by rewrite (extract_hint_object resp members Hbody), Htrue.
Qed.

(** X12.  One attempt at most.  Whatever the URL, the items and the network,
    the function sends at most one request; with a configured URL it sends
    exactly one, to that URL, with the items as they were passed and a
    timeout of 10 seconds.  An exception raised by the POST is not
    propagated: the function returns False with 'Error triggering webhook: '
    followed by the text of the exception. *)
Theorem webhook_single_attempt (webhook_url : option string) (items : list (gmap string cell)) :
  (length (snd (trigger_restock_webhook post render webhook_url items)) ≤ 1)%nat ∧
  (∀ url, webhook_url = Some url → url ≠ "" →
     snd (trigger_restock_webhook post render webhook_url items)
     = [ {| request_url := url; request_items := items; request_timeout := 10 |} ]) ∧
  (∀ url e, webhook_url = Some url → url ≠ "" →
     post (restock_request url items) = Raised e →
     fst (trigger_restock_webhook post render webhook_url items)
     = (false, "Error triggering webhook: " +:+ exn_str e)).
Proof.
  split; [|split].
  - destruct webhook_url as [[|c url]|]; simpl; lia.
  - intros url -> Hurl. by rewrite trigger_nonempty.
  - intros url e -> Hurl Hpost. by rewrite trigger_nonempty, Hpost.
Qed.

End NotifierFailures.

(** ** The spreadsheet identifier *)

Lemma append_cons c (s t : string) : String c s +:+ t = String c (s +:+ t).
Proof. reflexivity. Qed.

Lemma rev_app_append (s t : string) : String.rev_app s t = String.rev_app s "" +:+ t.
Proof.
  revert t. induction s as [|c s IH]; intros t; simpl; [done|].
  rewrite (IH (String c t)), (IH (String c "")). by rewrite append_assoc.
Qed.

Lemma rev_cons c (s : string) : String.rev (String c s) = String.rev s +:+ String c "".
Proof. unfold String.rev. simpl. apply rev_app_append. Qed.

Lemma prefix_cons a s1 b s2 :
  String.prefix (String a s1) (String b s2)
  = if ascii_dec a b then String.prefix s1 s2 else false.
Proof. reflexivity. Qed.

Lemma prefix_empty s : String.prefix "" s = true.
Proof. by destruct s. Qed.

Lemma prefix_slash c s : String.prefix "/" (String c s) = bool_decide (c = "/"%char).
Proof.
  rewrite prefix_cons, prefix_empty. destruct (ascii_dec "/" c) as [<-|Hne].
  - by rewrite bool_decide_true.
  - by rewrite bool_decide_false.
Qed.

Lemma contains_slash_cons c s :
  contains "/" (String c s) = false → c ≠ "/"%char ∧ contains "/" s = false.
Proof.
  intros H. change (String.prefix "/" (String c s) || contains "/" s = false) in H.
  apply orb_false_iff in H as [Hp Hc]. rewrite prefix_slash in Hp.
  by apply bool_decide_eq_false in Hp.
Qed.

Lemma prefix_other sep c s : c ≠ "/"%char → String.prefix (String "/" sep) (String c s) = false.
Proof. intros Hne. rewrite prefix_cons. by destruct (ascii_dec "/" c). Qed.

(** Every piece that [split_go] starts with [cur] begins with it. *)
Lemma split_go_head sep skip cur s :
  ∃ z, head (split_go sep skip cur s) = Some (String.rev cur +:+ z).
Proof.
  revert skip cur. induction s as [|c s IH]; intros skip cur.
  - exists "". simpl. by rewrite append_empty_r.
  - destruct skip as [|k]; [|apply IH].
    cbn [split_go]. destruct (String.prefix sep (String c s)).
    + exists "". simpl. by rewrite append_empty_r.
    + destruct (IH 0%nat (String c cur)) as [z Hz]. exists (String c z).
      rewrite Hz, rev_cons. by rewrite append_assoc.
Qed.

(** An occurrence of '/d/' that starts in a non-empty text [x] followed by
    '/d/' lies within [x] followed by '/d'. *)
Lemma prefix_d_window c x s :
  String.prefix "/d/" (String c (x +:+ "/d/" +:+ s))
  = String.prefix "/d/" (String c (x +:+ "/d")).
Proof.
  change ("/d/" +:+ s) with (String "/" (String "d" (String "/" s))).
  change "/d" with (String "/" (String "d" "")).
  destruct x as [|c2 [|c3 x]]; rewrite ?append_cons;
    change ("" +:+ ?t) with t; rewrite !prefix_cons, ?prefix_empty;
    by destruct (ascii_dec "/" c).
Qed.

Lemma prefix_d s : String.prefix "/d/" (String "/" (String "d" (String "/" s))) = true.
Proof. rewrite !prefix_cons, prefix_empty. done. Qed.

Lemma contains_d before s : contains "/d/" (before +:+ "/d/" +:+ s) = true.
Proof.
  induction before as [|c before IH].
  { change (String.prefix "/d/" (String "/" (String "d" (String "/" s)))
            || contains "/d/" (String "d" (String "/" s)) = true).
    by rewrite prefix_d. }
  rewrite append_cons. change (contains "/d/" (String c ?x)) with
    (String.prefix "/d/" (String c x) || contains "/d/" x).
  rewrite IH. apply orb_true_r.
Qed.

(** The piece after the first '/d/'. *)
Lemma split_d_second before cur s :
  contains "/d/" (before +:+ "/d") = false →
  split_go "/d/" 0 cur (before +:+ "/d/" +:+ s) !! 1%nat = head (split_go "/d/" 0 "" s).
Proof.
  revert cur. induction before as [|c before IH]; intros cur Hfirst.
  - change ("" +:+ "/d/" +:+ s) with (String "/" (String "d" (String "/" s))).
    cbn [split_go]. rewrite prefix_d.
    change (String.length "/d/" - 1)%nat with 2%nat. cbv iota beta.
    by destruct (split_go "/d/" 0 "" s).
  - rewrite append_cons in Hfirst |- *.
    change (String.prefix "/d/" (String c (before +:+ "/d"))
            || contains "/d/" (before +:+ "/d") = false) in Hfirst.
    apply orb_false_iff in Hfirst as [Hp Hc].
    cbn [split_go]. rewrite prefix_d_window, Hp. by apply IH.
Qed.

(** The piece before the first '/' of a text that begins with [id]. *)
Lemma split_slash_first id cur z :
  contains "/" id = false → (z = "" ∨ ∃ rest, z = "/" +:+ rest) →
  head (split_go "/" 0 cur (id +:+ z)) = Some (String.rev cur +:+ id).
Proof.
  revert cur. induction id as [|c id IH]; intros cur Hid Hz.
  - rewrite append_empty_r. destruct Hz as [->|[rest ->]]; [done|].
    change ("" +:+ "/" +:+ rest) with (String "/" rest). cbn [split_go].
    rewrite prefix_slash, bool_decide_true by done. done.
  - apply contains_slash_cons in Hid as [Hc Hid].
    rewrite append_cons. cbn [split_go].
    rewrite prefix_slash, bool_decide_false by done.
    rewrite IH by done. by rewrite rev_cons, append_assoc.
Qed.

(** The piece before the next '/d/', for an identifier without '/'. *)
Lemma split_d_first id cur after :
  contains "/" id = false → (after = "" ∨ ∃ rest, after = "/" +:+ rest) →
  ∃ z, head (split_go "/d/" 0 cur (id +:+ after)) = Some (String.rev cur +:+ id +:+ z) ∧
       (z = "" ∨ ∃ rest, z = "/" +:+ rest).
Proof.
  revert cur. induction id as [|c id IH]; intros cur Hid Hafter.
  - destruct Hafter as [->|[rest ->]].
    + exists "". split; [|by left]. simpl. by rewrite append_empty_r.
    + change ("" +:+ "/" +:+ rest) with (String "/" rest). cbn [split_go].
      destruct (String.prefix "/d/" (String "/" rest)).
      * exists "". split; [|by left]. simpl. by rewrite append_empty_r.
      * destruct (split_go_head "/d/" 0 (String "/" cur) rest) as [z Hz].
        exists (String "/" z). split; [|right; by exists z].
        rewrite Hz, rev_cons. by rewrite append_assoc.
  - apply contains_slash_cons in Hid as [Hc Hid].
    rewrite append_cons. cbn [split_go]. rewrite prefix_other by done.
    destruct (IH (String c cur) Hid Hafter) as (z & Hz & Hshape).
    exists z. split; [|done]. rewrite Hz, rev_cons. by rewrite !append_assoc.
Qed.

Section Identifier.
Variable pd : library.

(** X13.  Which sheet is read.  Let the configured URL be some text, then
    '/d/', then an identifier without '/', then nothing or a rest that starts
    with '/', and let the '/d/' before the identifier be the first in the
    URL.  Then the function reads the CSV export of exactly that identifier
    and normalises what it gets: the body of the [try] is the read followed
    by the normalisation, and a frame read there is the frame [fetches]
    speaks of. *)
Theorem sheet_identifier (w : World) (before id after : string) :
  secrets_spreadsheet w = Returned (before +:+ "/d/" +:+ id +:+ after) →
  contains "/d/" (before +:+ "/d") = false →
  contains "/" id = false →
  (after = "" ∨ ∃ rest, after = "/" +:+ rest) →
  load_body pd w = (df ← read_csv w (csv_export_url id); normalize pd df) ∧
  (∀ raw, read_csv w (csv_export_url id) = Returned raw → fetches w raw).
Proof.
  intros Hurl Hfirst Hid Hafter.
  destruct (split_d_first id "" after Hid Hafter) as (z & Htail & Hz).
  pose proof (split_d_second before "" (id +:+ after) Hfirst) as Hsecond.
  rewrite Htail in Hsecond. change (String.rev "" +:+ id +:+ z) with (id +:+ z) in Hsecond.
  pose proof (split_slash_first id "" z Hid Hz) as Hsid.
  change (String.rev "" +:+ id) with id in Hsid.
  assert (split "/" (id +:+ z) !! 0%nat = Some id) as Hsid'.
  { unfold split. by destruct (split_go "/" 0 "" (id +:+ z)). }
  change (split "/d/" (before +:+ "/d/" +:+ id +:+ after) !! 1%nat = Some (id +:+ z))
    in Hsecond.
  split.
  - unfold load_body, Py.getitem. rewrite Hurl. simpl. rewrite contains_d, Hsecond.
    simpl. by rewrite Hsid'.
  - intros raw Hread. exists (before +:+ "/d/" +:+ id +:+ after), (id +:+ z), id.
    split; [done|]. split; [apply contains_d|]. done.
Qed.

End Identifier.

(** ** Row pruning *)

Lemma isna_false x : isna x = false ↔ x ≠ NaN.
Proof. by destruct x. Qed.

Lemma row_cells_first c cols x row :
  c ∉ cols → row_cells (c :: cols) (x :: row) c = [x].
Proof. intros Hc. simpl. rewrite decide_True by done. by rewrite row_cells_absent. Qed.

Lemma pruned_iff_filled cols row :
  NoDup cols → length row = length cols →
  Forall (λ l, Forall (λ x, isna x = false) (row_cells cols row l)) (take 2 cols)
  ↔ filled row.
Proof.
  intros Hnd Hlen. unfold filled.
  destruct cols as [|c0 [|c1 cols]], row as [|x0 [|x1 row]]; simplify_eq/=.
  - split; [done|]. intros _. constructor.
  - rewrite Forall_singleton. rewrite decide_True by done.
    rewrite Forall_singleton, isna_false.
    split; [|intros [? _]; congruence]. intros Hx. split; [congruence|done].
  - apply NoDup_cons in Hnd as [Hc0 Hnd]. apply NoDup_cons in Hnd as [Hc1 _].
    apply not_elem_of_cons in Hc0 as [Hne Hc0].
    rewrite Forall_cons, Forall_singleton.
    rewrite !(decide_True (P := c0 = c0)), !(decide_True (P := c1 = c1)),
      (decide_False (P := c1 = c0)), (decide_False (P := c0 = c1)) by done.
    rewrite !row_cells_absent by done.
    rewrite !Forall_singleton, !isna_false. split.
    + intros [? ?]. split; congruence.
    + intros [? ?]. split; congruence.
Qed.

Lemma rows_reconciled pd raw :
  rows (reconciled pd raw) = rows (dropna (take 2 (columns raw)) raw).
Proof. done. Qed.

Lemma dropna_filled raw :
  rectangular raw → NoDup (columns raw) →
  rows (dropna (take 2 (columns raw)) raw) = filter filled (rows raw).
Proof.
  intros Hrect Hnd. unfold dropna. simpl. apply filter_ext_Forall.
  eapply Forall_impl; [exact Hrect|]. intros row Hlen. by apply pruned_iff_filled.
Qed.

Section Pruning.
Variable pd : library.

(** X14.  Row pruning.  On a sheet whose headers are distinct, as [read_csv]
    makes them, the rows that survive pruning are exactly the rows with a
    value in each of their first two cells, whatever the other cells hold;
    and when the normaliser reports no message, the table it returns has one
    row for each of them. *)
Theorem row_pruning (w : World) (raw out : DataFrame) :
  fetches w raw → rectangular raw → NoDup (columns raw) →
  rows (reconciled pd raw) = filter filled (rows raw) ∧
  (load_data_from_gsheet pd w = Returned (out, []) →
   length (rows out) = length (filter filled (rows raw))).
Proof.
  intros Hraw Hrect Hnd.
  assert (rows (reconciled pd raw) = filter filled (rows raw)) as Hrows.
  { rewrite rows_reconciled. by apply dropna_filled. }
  split; [done|]. intros Hload.
  apply (load_success pd w raw out Hraw) in Hload.
  apply normalize_Returned in Hload as [_ [(_ & ? & _)|(_ & _ & _ & _ & _ & floats & Hcan)]];
    [done| |done].
  rewrite <- Hrows. symmetry. by eapply Forall2_length.
Qed.

End Pruning.

(** ** Narrow sheets, and the shape of the table *)

Lemma sublist_filter_impl {A} (P Q : A → Prop) `{∀ x, Decision (P x)} `{∀ x, Decision (Q x)}
    (l : list A) :
  Forall (λ x, P x → Q x) l → filter P l `sublist_of` filter Q l.
Proof.
  induction 1 as [|x l Hx _ IH]; [done|].
  rewrite !filter_cons. destruct (decide (P x)), (decide (Q x)).
  - by apply sublist_skip.
  - tauto.
  - by apply sublist_cons.
  - done.
Qed.

Section Shape.
Variable pd : library.

(** X15.  A sheet with fewer than two columns is never loaded, whatever its
    header: reading the second label raises IndexError, which the function
    reports with the empty table. *)
Theorem narrow_sheet_is_reported (w : World) (raw : DataFrame) :
  fetches w raw →
  (length (columns raw) < 2)%nat →
  load_data_from_gsheet pd w
  = Returned (empty_frame,
      ["Error loading data from Google Sheets: index " +:+ pretty (length (columns raw))
       +:+ " is out of bounds for axis 0 with size " +:+ pretty (length (columns raw))]).
Proof.
  intros Hraw Hlen. rewrite (load_fetches _ _ _ Hraw).
  unfold normalize, column_label.
  destruct (columns raw) as [|first [|second rest]]; simpl in *; [done..|lia].
Qed.

(** X16.  The shape of what the normaliser returns.  The table is
    rectangular; it is the empty frame exactly when a message was reported;
    and otherwise exactly one of its columns is called 'Available Stock',
    exactly one 'Restock Level', and it has a 'Status' column.  So the
    functions that [main] applies to it afterwards find the columns they
    select, as series. *)
Theorem loaded_table_is_well_formed (w : World) (out : DataFrame) (msgs : list string) :
  reads_rectangular w →
  load_data_from_gsheet pd w = Returned (out, msgs) →
  rectangular out ∧
  (msgs = [] ↔ out ≠ empty_frame) ∧
  (out ≠ empty_frame →
   occurrences AvailableStock (columns out) = 1%nat ∧
   occurrences RestockLevel (columns out) = 1%nat ∧
   Status ∈ columns out).
Proof.
  intros Hw Hload.
  assert (rectangular empty_frame) as Hempty by (by apply Forall_nil_2).
  pose proof Hload as [[-> [m ->]]|(raw & Hraw & Hnorm)]%load_Returned.
  { split; [done|]. split; [by split|done]. }
  assert (rectangular raw) as Hrect.
  { destruct Hraw as (? & ? & sid & _ & _ & _ & _ & Hread). by eapply Hw. }
  apply normalize_Returned in Hnorm as [_ [(-> & -> & _)|(-> & _ & _ & Hcols & _)]];
    [|clear Hempty|done].
  { split; [done|]. split; [by split|done]. }
  assert (Status ∈ columns out) as HS by (rewrite Hcols; apply assigned_columns_elem).
  assert (out ≠ empty_frame) as Hne by (intros ->; by apply elem_of_nil in HS).
  destruct (loaded_table pd w out [] Hw Hload) as [?|(_ & Hr & HA & HR & _)]; [done|].
  split; [done|]. split; [by split|]. intros _. unfold occurrences. by rewrite HA, HR.
Qed.

(** X17.  On the table that the normaliser returned, [get_critical_items]
    grows with its threshold: the items for a threshold are among the items
    for any greater threshold, in the same order. *)
Theorem critical_items_grow_with_the_threshold (w : World) (out : DataFrame)
    (msgs : list string) (low high : Z) :
  reads_rectangular w →
  load_data_from_gsheet pd w = Returned (out, msgs) →
  low ≤ high →
  ∃ fewer more,
    get_critical_items pd (Some out) (PyInt low) = Returned fewer ∧
    get_critical_items pd (Some out) (PyInt high) = Returned more ∧
    fewer `sublist_of` more.
Proof.
  intros Hw Hload Hle.
  destruct (empty out) eqn:Hempty.
  { exists [], []. by rewrite !get_critical_items_empty. }
  destruct (loaded_table pd w out msgs Hw Hload) as [->|(_ & _ & HA & _ & floats & Hrows)]; [done|].
  rewrite (get_critical_items_one_column pd out (PyInt low) low) by done.
  rewrite (get_critical_items_one_column pd out (PyInt high) high) by done.
  eexists _, _. split; [done|]. split; [done|].
  apply fmap_sublist, sublist_filter_impl.
  eapply Forall_impl; [exact Hrows|].
  intros row (a & r & Ha%row_get_one & _). rewrite Ha. unfold coerce. simpl.
  rewrite !number_le_int. rewrite !Z.leb_le. lia.
Qed.

End Shape.

(** ** The properties beyond the core, on the example sheets *)

(** X2, on the example sheet. *)
Lemma load_succeeds_iff_normalizable_witness :
  ((∃ out, load_data_from_gsheet pandas (sheet widgets) = Returned (out, []))
   ↔ normalizable pandas widgets) ∧
  (¬ normalizable pandas widgets →
   ∃ m, load_data_from_gsheet pandas (sheet widgets) = Returned (empty_frame, [m])).
Proof.
  apply (load_succeeds_iff_normalizable pandas (sheet widgets) widgets).
  - apply sheet_fetches.
  - apply (bool_decide_unpack _). vm_compute. exact I.
Defined.

(** X3, on the example sheet: the first two rows are the critical ones. *)
Lemma critical_items_are_the_critical_rows_witness :
  get_critical_items pandas (Some widgets_canonical) (PyInt 10)
  = Returned (to_record (columns widgets_canonical) <$>
      filter (λ row, row_get (columns widgets_canonical) row Status = Some (CStr "Critical"))
        (rows widgets_canonical)).
Proof.
  apply (critical_items_are_the_critical_rows pandas (sheet widgets) widgets_canonical []).
  - apply sheet_rectangular. apply (bool_decide_unpack _). vm_compute. exact I.
  - exact widgets_load.
Defined.

(** X5, on the example sheet. *)
Lemma highlighting_of_a_loaded_table_witness :
  Forall (λ row,
    highlight_low_stock pandas (columns widgets_canonical) row
      = Returned (painted (columns widgets_canonical)
                    (below_restock (columns widgets_canonical) row)) ∧
    (row_get (columns widgets_canonical) row Status = Some (CStr "Low Stock") →
     below_restock (columns widgets_canonical) row = true) ∧
    (row_get (columns widgets_canonical) row Status = Some (CStr "In Stock") →
     Z.abs (stock_of (columns widgets_canonical) row) ≤ 2 ^ 53 →
     Z.abs (restock_of (columns widgets_canonical) row) ≤ 2 ^ 53 →
     below_restock (columns widgets_canonical) row = false) ∧
    (row_get (columns widgets_canonical) row Status = Some (CStr "Critical") →
     stock_of (columns widgets_canonical) row ≤ 10)) (rows widgets_canonical).
Proof.
  apply (highlighting_of_a_loaded_table pandas (sheet widgets) widgets_canonical []).
  - apply sheet_rectangular. apply (bool_decide_unpack _). vm_compute. exact I.
  - exact widgets_load.
Defined.

Example widgets_highlighting :
  mapM (highlight_low_stock pandas (columns widgets_canonical)) (rows widgets_canonical)
  = Returned [ replicate 5 highlighted; replicate 5 highlighted; replicate 5 highlighted;
               replicate 5 "" ].
Proof. by vm_compute. Qed.

(** X6, on the example sheet. *)
Lemma metrics_of_a_loaded_table_witness :
  ∃ value,
    calculate_metrics pandas exact_sum widgets_canonical
    = Returned (length (rows widgets_canonical),
                Z.of_nat (length (filter
                  (λ row, below_restock (columns widgets_canonical) row = true)
                  (rows widgets_canonical))),
                value) ∧
    (total (Z.abs <$> (stock_of (columns widgets_canonical) <$> rows widgets_canonical))
       < 2 ^ 53 →
     value = total (stock_of (columns widgets_canonical) <$> rows widgets_canonical)).
Proof.
  apply (metrics_of_a_loaded_table pandas exact_sum (sheet widgets) widgets_canonical []).
  - apply sheet_rectangular. apply (bool_decide_unpack _). vm_compute. exact I.
  - exact widgets_load.
Defined.

Example widgets_metrics :
  calculate_metrics pandas exact_sum widgets_canonical = Returned (4%nat, 3, 80).
Proof. by vm_compute. Qed.

(** X7, on the example sheet. *)
Lemma metrics_are_counts_witness :
  4%nat = length (rows widgets_canonical) ∧ 0 ≤ 3 ≤ Z.of_nat 4.
Proof.
  apply (metrics_are_counts pandas exact_sum widgets_canonical 4 3 80).
  by vm_compute.
Defined.

(** X8, on the frame with two stock columns. *)
Lemma metrics_of_a_repeated_stock_label_witness :
  ∃ e, calculate_metrics pandas exact_sum twin_stock = Raised e ∧ exn_class e = "TypeError".
Proof.
  apply (metrics_of_a_repeated_stock_label pandas exact_sum twin_stock).
  vm_compute. lia.
Defined.

(** X9, on the example sheet. *)
Lemma low_stock_rows_of_a_loaded_table_witness :
  low_stock_df pandas no_comparison widgets_canonical
  = Returned (Frame (columns widgets_canonical)
                (filter (λ row, below_restock (columns widgets_canonical) row = true)
                   (rows widgets_canonical))).
Proof.
  apply (low_stock_rows_of_a_loaded_table pandas no_comparison (sheet widgets)
           widgets_canonical []).
  - apply sheet_rectangular. apply (bool_decide_unpack _). vm_compute. exact I.
  - exact widgets_load.
  - reflexivity.
Defined.

(** X10, on the example sheet, which has a name column and no SKU column:
    the modal raises. *)
Lemma critical_modal_of_a_loaded_table_witness :
  (ProductName ∈ columns widgets_canonical ∧ SKU ∈ columns widgets_canonical →
   ∃ table,
     critical_modal no_inference listed_key_error
       (to_record (columns widgets_canonical) <$> take 2 (rows widgets_canonical))
     = Returned table ∧
     columns table = modal_labels ∧
     length (rows table)
     = length (to_record (columns widgets_canonical) <$> take 2 (rows widgets_canonical))) ∧
  (ProductName ∉ columns widgets_canonical ∨ SKU ∉ columns widgets_canonical →
   ∃ e,
     critical_modal no_inference listed_key_error
       (to_record (columns widgets_canonical) <$> take 2 (rows widgets_canonical))
     = Raised e ∧ exn_class e = "KeyError").
Proof.
  apply (critical_modal_of_a_loaded_table pandas no_inference listed_key_error
           (sheet widgets) widgets_canonical [] (PyInt 10)).
  - apply sheet_rectangular. apply (bool_decide_unpack _). vm_compute. exact I.
  - exact widgets_load.
  - apply (get_critical_items_one_column pandas widgets_canonical (PyInt 10) 10); reflexivity.
  - discriminate.
Defined.

Example widgets_modal :
  critical_modal no_inference listed_key_error
    (to_record (columns widgets_canonical) <$> take 2 (rows widgets_canonical))
  = Raised (Exception "KeyError" "'SKU' not in index").
Proof. by vm_compute. Qed.

(** X11, on the answer of a failing server. *)
Lemma webhook_error_message_witness :
  trigger_restock_webhook (λ _, Returned server_error_response) plain_render
    (Some "https://n8n.example/webhook/restock") []
  = ((false, "Webhook error " +:+ pretty (status_code server_error_response) +:+ ": "
             +:+ hint_text plain_render server_error_response),
     [restock_request "https://n8n.example/webhook/restock" []]) ∧
  ((∀ members, json_body server_error_response = Returned (JObj members) →
               truthy (hint_or_message members) = false) →
   hint_text plain_render server_error_response = text server_error_response) ∧
  (∀ members, json_body server_error_response = Returned (JObj members) →
              truthy (hint_or_message members) = true →
              hint_text plain_render server_error_response
              = py_str plain_render (hint_or_message members)).
Proof.
  apply (webhook_error_message (λ _, Returned server_error_response) plain_render
           "https://n8n.example/webhook/restock" [] server_error_response).
  - discriminate.
  - reflexivity.
  - simpl. lia.
  - discriminate.
Defined.

Example server_error_message :
  trigger_restock_webhook (λ _, Returned server_error_response) plain_render
    (Some "https://n8n.example/webhook/restock") []
  = ((false, "Webhook error 500: Internal Server Error"),
     [restock_request "https://n8n.example/webhook/restock" []]).
Proof. by vm_compute. Qed.

(** X13, on the URL of the example sheet. *)
Lemma sheet_identifier_witness :
  load_body pandas (sheet widgets)
  = (df ← read_csv (sheet widgets) (csv_export_url "1aBcD"); normalize pandas df) ∧
  (∀ raw, read_csv (sheet widgets) (csv_export_url "1aBcD") = Returned raw →
          fetches (sheet widgets) raw).
Proof.
  apply (sheet_identifier pandas (sheet widgets)
           "https://docs.google.com/spreadsheets" "1aBcD" "/edit#gid=0").
  - reflexivity.
  - by vm_compute.
  - by vm_compute.
  - right. by exists "edit#gid=0".
Defined.

(** X14, on the example sheet, whose last row is blank. *)
Lemma row_pruning_witness :
  rows (reconciled pandas widgets) = filter filled (rows widgets) ∧
  (load_data_from_gsheet pandas (sheet widgets) = Returned (widgets_canonical, []) →
   length (rows widgets_canonical) = length (filter filled (rows widgets))).
Proof.
  apply (row_pruning pandas (sheet widgets) widgets widgets_canonical).
  - apply sheet_fetches.
  - apply (bool_decide_unpack _). vm_compute. exact I.
  - apply (bool_decide_unpack _). vm_compute. exact I.
Defined.

(** X15, on a sheet with a stock column and nothing else. *)
Lemma narrow_sheet_is_reported_witness :
  load_data_from_gsheet pandas (sheet single_column)
  = Returned (empty_frame,
      ["Error loading data from Google Sheets: index "
       +:+ pretty (length (columns single_column))
       +:+ " is out of bounds for axis 0 with size "
       +:+ pretty (length (columns single_column))]).
Proof.
  apply (narrow_sheet_is_reported pandas (sheet single_column) single_column).
  - apply sheet_fetches.
  - simpl. lia.
Defined.

(** X16, on the example sheet. *)
Lemma loaded_table_is_well_formed_witness :
  rectangular widgets_canonical ∧
  (([] : list string) = [] ↔ widgets_canonical ≠ empty_frame) ∧
  (widgets_canonical ≠ empty_frame →
   occurrences AvailableStock (columns widgets_canonical) = 1%nat ∧
   occurrences RestockLevel (columns widgets_canonical) = 1%nat ∧
   Status ∈ columns widgets_canonical).
Proof.
  apply (loaded_table_is_well_formed pandas (sheet widgets) widgets_canonical []).
  - apply sheet_rectangular. apply (bool_decide_unpack _). vm_compute. exact I.
  - exact widgets_load.
Defined.

(** X17, on the example sheet, for the thresholds 10 and 30. *)
Lemma critical_items_grow_with_the_threshold_witness :
  ∃ fewer more,
    get_critical_items pandas (Some widgets_canonical) (PyInt 10) = Returned fewer ∧
    get_critical_items pandas (Some widgets_canonical) (PyInt 30) = Returned more ∧
    fewer `sublist_of` more.
Proof.
  apply (critical_items_grow_with_the_threshold pandas (sheet widgets) widgets_canonical
           [] 10 30).
  - apply sheet_rectangular. apply (bool_decide_unpack _). vm_compute. exact I.
  - exact widgets_load.
  - lia.
Defined.

(** ** The columns of the table *)

Section Columns.
Variable pd : library.

(** X18.  The columns of the table.  When the normaliser reports no message,
    the table has the columns of the sheet, in their order and under their
    names after renaming, followed by 'Restock Level' if no column has that
    name and by 'Status' if no column has that name, and no other column:
    the whole sheet is returned, with at most two columns added. *)
Theorem columns_of_a_loaded_table (w : World) (raw out : DataFrame) :
  fetches w raw → rectangular raw →
  load_data_from_gsheet pd w = Returned (out, []) →
  columns out
  = columns (reconciled pd raw)
    ++ filter (λ c, c ∉ columns (reconciled pd raw)) [RestockLevel; Status] ∧
  columns (reconciled pd raw)
  = (λ c, default c (rename_dict pd (columns raw) !! c)) <$> columns raw.
Proof.
  intros Hraw Hrect Hload. split; [|apply columns_reconciled].
  apply (load_success pd w raw out Hraw) in Hload.
  apply normalize_Returned in Hload as [_ [(_ & ? & _)|(_ & _ & _ & Hcols & _)]];
    [done| |done].
  rewrite Hcols. unfold assigned_columns.
  rewrite !filter_cons, filter_nil.
  destruct (decide (RestockLevel ∈ columns (reconciled pd raw))) as [HR|HR];
    destruct (decide (Status ∈ columns (reconciled pd raw))) as [HS|HS].
  - rewrite (bool_decide_true _ HR), (bool_decide_true _ HS).
    rewrite (decide_False (P := RestockLevel ∉ _)), (decide_False (P := Status ∉ _)) by tauto.
    by rewrite app_nil_r.
  - rewrite (bool_decide_true _ HR), (bool_decide_false _ HS).
    by rewrite (decide_False (P := RestockLevel ∉ _)), (decide_True (P := Status ∉ _)) by tauto.
  - rewrite (bool_decide_false _ HR).
    rewrite (decide_True (P := RestockLevel ∉ _)), (decide_False (P := Status ∉ _)) by tauto.
    rewrite bool_decide_true; [done|]. apply elem_of_app. by left.
  - rewrite (bool_decide_false _ HR).
    rewrite (decide_True (P := RestockLevel ∉ _)), (decide_True (P := Status ∉ _)) by tauto.
    rewrite bool_decide_false; [by rewrite <- app_assoc|].
    intros [?|Heq%list_elem_of_singleton]%elem_of_app; [done|discriminate].
Qed.

End Columns.

(** X18, on the example sheet: a status column is added, the rest is the
    sheet. *)
Lemma columns_of_a_loaded_table_witness :
  columns widgets_canonical
  = columns (reconciled pandas widgets)
    ++ filter (λ c, c ∉ columns (reconciled pandas widgets)) [RestockLevel; Status] ∧
  columns (reconciled pandas widgets)
  = (λ c, default c (rename_dict pandas (columns widgets) !! c)) <$> columns widgets.
Proof.
  apply (columns_of_a_loaded_table pandas (sheet widgets) widgets widgets_canonical).
  - apply sheet_fetches.
  - apply (bool_decide_unpack _). vm_compute. exact I.
  - exact widgets_load.
Defined.

(** ** Sheets without a threshold column *)

Section Threshold.
Variable pd : library.

(** X19.  A sheet without a restock column never shows 'Low Stock'.  When no
    source header is the normal form of an alias of Restock Level, every row
    of the returned table is 'Critical' or 'In Stock': the default level of
    10 is the critical floor itself.  Such a row is below its restock level,
    and so painted and counted as low, exactly when its stock is below 10,
    and it is then 'Critical'. *)
Theorem no_low_stock_without_a_threshold (w : World) (raw out : DataFrame)
    (msgs : list string) :
  fetches w raw → rectangular raw →
  no_alias_present pd RestockLevel (columns raw) →
  load_data_from_gsheet pd w = Returned (out, msgs) →
  Forall (λ row,
    (row_get (columns out) row Status = Some (CStr "Critical") ∨
     row_get (columns out) row Status = Some (CStr "In Stock")) ∧
    (below_restock (columns out) row = true ↔ stock_of (columns out) row < 10) ∧
    (below_restock (columns out) row = true →
     row_get (columns out) row Status = Some (CStr "Critical"))) (rows out).
Proof.
  intros Hraw Hrect Hno%no_restock_column Hload.
  apply (load_fetches_Returned pd w raw out msgs Hraw) in Hload as [Hnorm|[-> _]];
    [|simpl; by apply Forall_nil_2].
  apply normalize_Returned in Hnorm
    as [_ [(-> & _)|(_ & HA & _ & Hcols & _ & floats & Hrows)]]; [simpl; by apply Forall_nil_2| |done].
  pose proof (rectangular_reconciled pd raw Hrect) as Hrs.
  eapply Forall2_Forall_r; [exact Hrows|].
  eapply Forall_impl; [exact Hrs|].
  intros row Hlen row' Hcan. simpl in Hlen.
  apply canonical_fields in Hcan as (a & r & _ & Hr & Ha & Hgr & Hs & _);
    [|done|by apply elem_of_filter_singleton].
  rewrite bool_decide_false in Hr by done. simplify_eq/=.
  rewrite Hcols. unfold below_restock, stock_of, restock_of. rewrite Ha, Hgr, Hs. simpl.
  change (int64_of pd (inject_Z 10)) with 10.
  rewrite (judged_small floats 10) by (simpl; lia).
  pose proof (judged_le_10 floats a) as H10. unfold status_of.
  destruct (Z.leb_spec (judged floats a) 10), (Z.ltb_spec (judged floats a) 10),
    (Z.ltb_spec a 10); repeat split; eauto; try lia; try done.
Qed.

End Threshold.

(** ** Hint and message *)

Section Hints.
Variable render : json → string.

(** X20.  The hint of an answer whose body is a JSON object.  A 'hint' member
    that counts as true is the hint, whatever the 'message'; when the
    'hint' is missing or counts as false, a 'message' that counts as true is
    the hint. *)
Theorem hint_takes_precedence (resp : Response) (members : list (string * json)) :
  json_body resp = Returned (JObj members) →
  (∀ hint, members_get "hint" members = Some hint → truthy hint = true →
           hint_text render resp = py_str render hint) ∧
  (∀ message, truthy (default JNull (members_get "hint" members)) = false →
              members_get "message" members = Some message → truthy message = true →
              hint_text render resp = py_str render message).
Proof.
  intros Hbody. unfold hint_text. rewrite (extract_hint_object resp members Hbody).
  unfold hint_or_message. split.
  - intros hint Hh Ht. rewrite Hh. simpl. rewrite Ht. by rewrite Ht.
  - intros message Hh Hm Ht. cbv zeta. rewrite Hh, Hm. simpl. by rewrite Ht.
Qed.

End Hints.

(** X19, on the sheet without a restock column. *)
Lemma no_low_stock_without_a_threshold_witness :
  Forall (λ row,
    (row_get (columns no_threshold_canonical) row Status = Some (CStr "Critical") ∨
     row_get (columns no_threshold_canonical) row Status = Some (CStr "In Stock")) ∧
    (below_restock (columns no_threshold_canonical) row = true
     ↔ stock_of (columns no_threshold_canonical) row < 10) ∧
    (below_restock (columns no_threshold_canonical) row = true →
     row_get (columns no_threshold_canonical) row Status = Some (CStr "Critical")))
    (rows no_threshold_canonical).
Proof.
  apply (no_low_stock_without_a_threshold pandas (sheet no_threshold) no_threshold
           no_threshold_canonical []).
  - apply sheet_fetches.
  - apply (bool_decide_unpack _). vm_compute. exact I.
  - apply (bool_decide_unpack _). vm_compute. exact I.
  - exact no_threshold_load.
Defined.

(** X20, on the answer of an inactive webhook. *)
Lemma hint_takes_precedence_witness :
  (∀ hint, members_get "hint" [("hint", JStr "inactive")] = Some hint → truthy hint = true →
           hint_text plain_render inactive_response = py_str plain_render hint) ∧
  (∀ message,
     truthy (default JNull (members_get "hint" [("hint", JStr "inactive")])) = false →
     members_get "message" [("hint", JStr "inactive")] = Some message →
     truthy message = true →
     hint_text plain_render inactive_response = py_str plain_render message).
Proof.
  apply (hint_takes_precedence plain_render inactive_response [("hint", JStr "inactive")]).
  reflexivity.
Defined.

(** ** When the dashboard is shown *)

Section Shown.
Variable pd : library.

(** X21.  Line 238 of [main].  After a sheet has been fetched, the table is
    not empty, so that [main] goes on to the alerts, the metrics and the
    inventory instead of stopping at its warning, exactly when the sheet is
    normalisable and a row of it survives pruning. *)
Theorem dashboard_is_shown_iff (w : World) (raw out : DataFrame) (msgs : list string) :
  fetches w raw → rectangular raw →
  load_data_from_gsheet pd w = Returned (out, msgs) →
  (empty out = false ↔ normalizable pd raw ∧ rows (reconciled pd raw) ≠ []).
Proof.
  intros Hraw Hrect Hload. split.
  - intros Hempty.
    destruct (load_fetches_Returned pd w raw out msgs Hraw Hload) as [Hnorm|[-> _]]; [|done].
    pose proof Hnorm as [_ [(-> & _)|(-> & _ & _ & _ & _ & floats & Hrows)]]%normalize_Returned;
      [done| |done].
    split; [apply normalizable_iff; eauto|].
    intros Hnil. rewrite Hnil in Hrows. apply Forall2_nil_inv_l in Hrows.
    unfold empty in Hempty. rewrite Hrows in Hempty. by destruct (columns out).
  - intros [[out' Hnorm]%normalizable_iff Hne]; [|done].
    rewrite (load_fetches _ _ _ Hraw), Hnorm in Hload. simpl in Hload. simplify_eq.
    apply normalize_Returned in Hnorm as [_ [(_ & ? & _)|(_ & _ & _ & Hcols & _ & floats & Hrows)]];
      [done| |done].
    unfold empty.
    destruct (columns out) as [|c cols] eqn:Hc.
    { pose proof (assigned_columns_elem
        (assigned_columns (columns (reconciled pd raw)) RestockLevel) Status) as Hin.
      rewrite <- Hcols in Hin. by apply elem_of_nil in Hin. }
    destruct (rows out); [|done].
    apply Forall2_nil_inv_r in Hrows. done.
Qed.

End Shown.

(** X21, on the example sheet. *)
Lemma dashboard_is_shown_iff_witness :
  empty widgets_canonical = false
  ↔ normalizable pandas widgets ∧ rows (reconciled pandas widgets) ≠ [].
Proof.
  apply (dashboard_is_shown_iff pandas (sheet widgets) widgets widgets_canonical []).
  - apply sheet_fetches.
  - apply (bool_decide_unpack _). vm_compute. exact I.
  - exact widgets_load.
Defined.
